(** * Behaviour engine and action-budget governor: a shallow embedding

    The development follows the Go sources [stealth/stealth.go] (rate limiter,
    scheduler, motion, typing, scrolling and fingerprint helpers),
    [config/config.go] (configuration record, its loading and validation) and
    the bulk senders of [messaging/messaging.go] and
    [connection/connection.go], which spend the limiter's quotas.

    Conventions of the embedding:
    - Go's [int] and [int64] are [Z] with the 64-bit two's complement
      wrap-around written out ([wrap64]); [rune] is a [Z] code point.
    - [float64] is Rocq's primitive binary64 float, whose [+ - * /] and [sqrt]
      are the IEEE 754 round-to-nearest operations Go compiles to on amd64.
    - [time.Now()] is an input of every function that reads the clock.
    - [*rand.Rand] is a tape of raw draws consumed left to right.
    - a [panic] is the [Panic] outcome of the [result] type.
    - the calls a function makes to the browser page are recorded in order,
      and the errors the page returns to them are an input.
    - the logger is write-only and is left out. *)

From Stdlib Require Import ZArith List String Ascii Bool Lia Floats Uint63.
From stdpp Require Import base option gmap strings.

Set Warnings "-inexact-float".
Local Open Scope string_scope.
Local Open Scope Z_scope.

(* ===================================================================== *)
(** ** Go machine integers *)
(* ===================================================================== *)

Module GoInt.

(** Reduction of a mathematical integer to a signed 64-bit one. *)
Definition wrap64 (z : Z) : Z := (z + 2 ^ 63) mod 2 ^ 64 - 2 ^ 63.

Definition min_int64 : Z := - 2 ^ 63.
Definition max_int64 : Z := 2 ^ 63 - 1.

Definition in_int64 (z : Z) : Prop := min_int64 <= z <= max_int64.

Definition add (x y : Z) : Z := wrap64 (x + y).
Definition sub (x y : Z) : Z := wrap64 (x - y).
Definition mul (x y : Z) : Z := wrap64 (x * y).

End GoInt.

(* ===================================================================== *)
(** ** Outcomes: a value, or a run-time panic *)
(* ===================================================================== *)

Inductive result (A : Type) : Type :=
| Ok (a : A)
| Panic (msg : string).

Arguments Ok {A} a.
Arguments Panic {A} msg.

(* ===================================================================== *)
(** ** [math/rand]: the generator as a tape of raw draws

    Every call consumes one raw draw and reduces it into the range the call
    asks for; an exhausted tape keeps answering with the raw draw 0.  As the
    tape ranges over all lists, every sequence of values the generator can
    return is covered. *)
(* ===================================================================== *)

Module GoRand.

Definition Rand : Type := list Z.

Definition next (r : Rand) : Z * Rand :=
  match r with
  | [] => (0, [])
  | x :: r' => (x, r')
  end.

(** [Intn] and [Int63n] panic on a bound that is not positive. *)
Definition Intn (n : Z) (r : Rand) : result (Z * Rand) :=
  if n <=? 0 then Panic "invalid argument to Intn"
  else let '(x, r') := next r in Ok (x mod n, r').

Definition Int63n (n : Z) (r : Rand) : result (Z * Rand) :=
  if n <=? 0 then Panic "invalid argument to Int63n"
  else let '(x, r') := next r in Ok (x mod n, r').

(** [Float64] returns a multiple of 2^-53 in the half-open interval [0,1). *)
Definition Float64 (r : Rand) : float * Rand :=
  let '(x, r') := next r in
  (PrimFloat.div (PrimFloat.of_uint63 (Uint63.of_Z (x mod 2 ^ 53)))
                 0x1p53%float, r').

End GoRand.

(* ===================================================================== *)
(** ** [time]: the readings of the wall clock the code looks at *)
(* ===================================================================== *)

Module GoTime.

(** What the code observes of a [time.Time]: its civil year, day of the year
    and hour, its weekday (0 is Sunday, 6 is Saturday) and, for elapsed-time
    arithmetic, its position on the time line in nanoseconds. *)
Record Time : Type := mkTime {
  Year : Z;
  YearDay : Z;
  Hour : Z;
  Weekday : Z;
  Nanos : Z
}.

Definition Sunday : Z := 0.
Definition Saturday : Z := 6.

(** Durations are int64 nanoseconds. *)
Definition Millisecond : Z := 1000000.
Definition Minute : Z := 60000000000.

(** [time.Since(t)] evaluated when the clock reads [now]: the difference of
    the two instants, which [Time.Sub] keeps within the range of a duration
    by returning the largest or the smallest duration instead. *)
Definition Since (now t : Time) : Z :=
  Z.max GoInt.min_int64 (Z.min GoInt.max_int64 (Nanos now - Nanos t)).

End GoTime.

(* ===================================================================== *)
(** ** [strconv] and [string(rune)] *)
(* ===================================================================== *)

Module GoStr.

(** A Go [error]: [None] is [nil]. *)
Definition error : Type := option string.

Definition digit_of (c : ascii) : option Z :=
  let n := Z.of_nat (nat_of_ascii c) in
  if (48 <=? n) && (n <=? 57) then Some (n - 48) else None.

Fixpoint digits (acc : Z) (s : string) : option Z :=
  match s with
  | EmptyString => Some acc
  | String c s' =>
      match digit_of c with
      | Some d => digits (10 * acc + d) s'
      | None => None
      end
  end.

(** [strconv.Atoi]: an optional sign, then at least one decimal digit and
    nothing else; the value has to fit an [int]. *)
Definition Atoi (s : string) : option Z :=
  let '(neg, body) :=
    match s with
    | String "-"%char s' => (true, s')
    | String "+"%char s' => (false, s')
    | _ => (false, s)
    end in
  match body with
  | EmptyString => None
  | _ =>
      match digits 0 body with
      | Some n =>
          let v := if neg then - n else n in
          if (GoInt.min_int64 <=? v) && (v <=? GoInt.max_int64)
          then Some v else None
      | None => None
      end
  end.

Definition byte (n : Z) : ascii := ascii_of_nat (Z.to_nat n).

(** The conversion [string(r)] of a rune: its UTF-8 encoding, and the encoding
    of U+FFFD for a value that is no valid code point. *)
Definition string_of_rune (r : Z) : string :=
  if (0 <=? r) && (r <? 128) then String (byte r) EmptyString
  else if (128 <=? r) && (r <? 2048) then
    String (byte (192 + r / 64)) (String (byte (128 + r mod 64)) EmptyString)
  else if ((2048 <=? r) && (r <? 55296)) || ((57344 <=? r) && (r <? 65536)) then
    String (byte (224 + r / 4096))
      (String (byte (128 + (r / 64) mod 64))
        (String (byte (128 + r mod 64)) EmptyString))
  else if (65536 <=? r) && (r <? 1114112) then
    String (byte (240 + r / 262144))
      (String (byte (128 + (r / 4096) mod 64))
        (String (byte (128 + (r / 64) mod 64))
          (String (byte (128 + r mod 64)) EmptyString)))
  else String (byte 239) (String (byte 191) (String (byte 189) EmptyString)).

(** The conversion [[]rune(s)]: the UTF-8 decoding of the bytes of [s], each
    byte that starts no well-formed encoding read as U+FFFD on its own. *)
Definition code (c : ascii) : Z := Z.of_nat (nat_of_ascii c).

Definition continuation (b : Z) : bool := (128 <=? b) && (b <=? 191).

(** The second byte a first byte accepts; no second byte is accepted after a
    byte that cannot start an encoding. *)
Definition second_ok (b0 b1 : Z) : bool :=
  if (194 <=? b0) && (b0 <=? 223) then continuation b1
  else if b0 =? 224 then (160 <=? b1) && (b1 <=? 191)
  else if b0 =? 237 then (128 <=? b1) && (b1 <=? 159)
  else if (225 <=? b0) && (b0 <=? 239) then continuation b1
  else if b0 =? 240 then (144 <=? b1) && (b1 <=? 191)
  else if b0 =? 244 then (128 <=? b1) && (b1 <=? 143)
  else if (241 <=? b0) && (b0 <=? 243) then continuation b1
  else false.

Fixpoint runes (s : string) : list Z :=
  match s with
  | EmptyString => []
  | String c0 s1 =>
      let b0 := code c0 in
      let bad := 65533 :: runes s1 in
      if b0 <? 128 then b0 :: runes s1
      else
        match s1 with
        | EmptyString => bad
        | String c1 s2 =>
            let b1 := code c1 in
            if negb (second_ok b0 b1) then bad
            else if b0 <? 224 then (b0 mod 32 * 64 + b1 mod 64) :: runes s2
            else
              match s2 with
              | EmptyString => bad
              | String c2 s3 =>
                  let b2 := code c2 in
                  if negb (continuation b2) then bad
                  else if b0 <? 240 then
                    (b0 mod 16 * 4096 + b1 mod 64 * 64 + b2 mod 64) :: runes s3
                  else
                    match s3 with
                    | EmptyString => bad
                    | String c3 s4 =>
                        let b3 := code c3 in
                        if negb (continuation b3) then bad
                        else (b0 mod 8 * 262144 + b1 mod 64 * 4096
                              + b2 mod 64 * 64 + b3 mod 64) :: runes s4
                    end
              end
        end
  end.

End GoStr.

(* ===================================================================== *)
(** ** Package [config] *)
(* ===================================================================== *)

Module config.

Import GoStr.

Record LinkedInConfig : Type := {
  Email : string;
  Password : string
}.

Record BrowserConfig : Type := {
  Headless : bool;
  UserDataDir : string;
  SlowMotion : Z;
  Timeout : Z;
  ViewportWidth : Z;
  ViewportHeight : Z
}.

Record StealthConfig : Type := {
  MouseSpeedMin : float;
  MouseSpeedMax : float;
  MouseOvershoot : bool;
  MouseMicroCorrect : bool;
  TypingDelayMin : Z;
  TypingDelayMax : Z;
  TypingMistakeRate : float;
  ScrollSpeedMin : Z;
  ScrollSpeedMax : Z;
  ScrollBackChance : float;
  ActionDelayMin : Z;
  ActionDelayMax : Z;
  PageLoadWaitMin : Z;
  PageLoadWaitMax : Z;
  RandomizeViewport : bool;
  DisableWebdriver : bool;
  RandomUserAgent : bool
}.

Record RateLimitConfig : Type := {
  MaxConnectionsPerDay : Z;
  MaxMessagesPerDay : Z;
  MaxProfileViewsPerDay : Z;
  MaxSearchesPerHour : Z;
  CooldownMinutes : Z;
  MinDelayBetweenActions : Z;
  MaxDelayBetweenActions : Z
}.

Record SearchConfig : Type := {
  DefaultJobTitle : string;
  DefaultCompany : string;
  DefaultLocation : string;
  Keywords : list string;
  MaxResultsPerSearch : Z
}.

Record MessagingConfig : Type := {
  ConnectionNoteTemplate : string;
  FollowUpMessageTemplate : string;
  MaxNoteLength : Z;
  MaxMessageLength : Z
}.

Record StorageConfig : Type := {
  DatabasePath : string;
  CookiesPath : string;
  BackupEnabled : bool;
  BackupInterval : Z
}.

Record LoggingConfig : Type := {
  Level : string;
  Format : string;
  OutputFile : string;
  MaxSizeMB : Z;
  MaxBackups : Z
}.

Record ScheduleConfig : Type := {
  Enabled : bool;
  StartHour : Z;
  EndHour : Z;
  WorkDaysOnly : bool;
  BreakMinMin : Z;
  BreakMinMax : Z;
  SessionMaxMin : Z;
  Timezone : string
}.

Record Config : Type := {
  LinkedIn : LinkedInConfig;
  Browser : BrowserConfig;
  Stealth : StealthConfig;
  RateLimits : RateLimitConfig;
  Search : SearchConfig;
  Messaging : MessagingConfig;
  Storage : StorageConfig;
  Logging : LoggingConfig;
  Schedule : ScheduleConfig
}.

Definition DefaultConfig : Config := {|
  LinkedIn := {| Email := ""; Password := "" |};
  Browser := {|
    Headless := false;
    UserDataDir := "./data/browser";
    SlowMotion := 0;
    Timeout := 30;
    ViewportWidth := 1366;
    ViewportHeight := 768 |};
  Stealth := {|
    MouseSpeedMin := 0.5;
    MouseSpeedMax := 2.0;
    MouseOvershoot := true;
    MouseMicroCorrect := true;
    TypingDelayMin := 50;
    TypingDelayMax := 200;
    TypingMistakeRate := 0.02;
    ScrollSpeedMin := 100;
    ScrollSpeedMax := 400;
    ScrollBackChance := 0.15;
    ActionDelayMin := 500;
    ActionDelayMax := 2000;
    PageLoadWaitMin := 1000;
    PageLoadWaitMax := 3000;
    RandomizeViewport := true;
    DisableWebdriver := true;
    RandomUserAgent := true |};
  RateLimits := {|
    MaxConnectionsPerDay := 25;
    MaxMessagesPerDay := 50;
    MaxProfileViewsPerDay := 100;
    MaxSearchesPerHour := 10;
    CooldownMinutes := 5;
    MinDelayBetweenActions := 2000;
    MaxDelayBetweenActions := 5000 |};
  Search := {|
    DefaultJobTitle := "";
    DefaultCompany := "";
    DefaultLocation := "";
    Keywords := [];
    MaxResultsPerSearch := 25 |};
  Messaging := {|
    ConnectionNoteTemplate :=
      "Hi {{.FirstName}}, I came across your profile and would love to connect!";
    FollowUpMessageTemplate :=
      "Thanks for connecting, {{.FirstName}}! I'd love to learn more about your work at {{.Company}}.";
    MaxNoteLength := 300;
    MaxMessageLength := 8000 |};
  Storage := {|
    DatabasePath := "./data/linkedin_automation.db";
    CookiesPath := "./data/cookies.json";
    BackupEnabled := true;
    BackupInterval := 24 |};
  Logging := {|
    Level := "info";
    Format := "json";
    OutputFile := "./logs/automation.log";
    MaxSizeMB := 100;
    MaxBackups := 5 |};
  Schedule := {|
    Enabled := true;
    StartHour := 9;
    EndHour := 18;
    WorkDaysOnly := true;
    BreakMinMin := 5;
    BreakMinMax := 15;
    SessionMaxMin := 120;
    Timezone := "Local" |}
|}.

(** Field updates, one per assignment the package makes. *)
Definition set_LinkedIn (l : LinkedInConfig) (c : Config) : Config :=
  {| LinkedIn := l; Browser := Browser c; Stealth := Stealth c;
     RateLimits := RateLimits c; Search := Search c; Messaging := Messaging c;
     Storage := Storage c; Logging := Logging c; Schedule := Schedule c |}.

Definition set_Browser (b : BrowserConfig) (c : Config) : Config :=
  {| LinkedIn := LinkedIn c; Browser := b; Stealth := Stealth c;
     RateLimits := RateLimits c; Search := Search c; Messaging := Messaging c;
     Storage := Storage c; Logging := Logging c; Schedule := Schedule c |}.

Definition set_Stealth (s : StealthConfig) (c : Config) : Config :=
  {| LinkedIn := LinkedIn c; Browser := Browser c; Stealth := s;
     RateLimits := RateLimits c; Search := Search c; Messaging := Messaging c;
     Storage := Storage c; Logging := Logging c; Schedule := Schedule c |}.

Definition set_RateLimits (r : RateLimitConfig) (c : Config) : Config :=
  {| LinkedIn := LinkedIn c; Browser := Browser c; Stealth := Stealth c;
     RateLimits := r; Search := Search c; Messaging := Messaging c;
     Storage := Storage c; Logging := Logging c; Schedule := Schedule c |}.

Definition set_Storage (s : StorageConfig) (c : Config) : Config :=
  {| LinkedIn := LinkedIn c; Browser := Browser c; Stealth := Stealth c;
     RateLimits := RateLimits c; Search := Search c; Messaging := Messaging c;
     Storage := s; Logging := Logging c; Schedule := Schedule c |}.

Definition set_Logging (l : LoggingConfig) (c : Config) : Config :=
  {| LinkedIn := LinkedIn c; Browser := Browser c; Stealth := Stealth c;
     RateLimits := RateLimits c; Search := Search c; Messaging := Messaging c;
     Storage := Storage c; Logging := l; Schedule := Schedule c |}.

Definition set_Email (e : string) (c : Config) : Config :=
  set_LinkedIn {| Email := e; Password := Password (LinkedIn c) |} c.

Definition set_Password (p : string) (c : Config) : Config :=
  set_LinkedIn {| Email := Email (LinkedIn c); Password := p |} c.

Definition set_Headless (h : bool) (c : Config) : Config :=
  let b := Browser c in
  set_Browser {| Headless := h; UserDataDir := UserDataDir b;
                 SlowMotion := SlowMotion b; Timeout := Timeout b;
                 ViewportWidth := ViewportWidth b;
                 ViewportHeight := ViewportHeight b |} c.

Definition set_UserDataDir (d : string) (c : Config) : Config :=
  let b := Browser c in
  set_Browser {| Headless := Headless b; UserDataDir := d;
                 SlowMotion := SlowMotion b; Timeout := Timeout b;
                 ViewportWidth := ViewportWidth b;
                 ViewportHeight := ViewportHeight b |} c.

Definition set_MaxConnectionsPerDay (v : Z) (c : Config) : Config :=
  let r := RateLimits c in
  set_RateLimits {| MaxConnectionsPerDay := v;
                    MaxMessagesPerDay := MaxMessagesPerDay r;
                    MaxProfileViewsPerDay := MaxProfileViewsPerDay r;
                    MaxSearchesPerHour := MaxSearchesPerHour r;
                    CooldownMinutes := CooldownMinutes r;
                    MinDelayBetweenActions := MinDelayBetweenActions r;
                    MaxDelayBetweenActions := MaxDelayBetweenActions r |} c.

Definition set_MaxMessagesPerDay (v : Z) (c : Config) : Config :=
  let r := RateLimits c in
  set_RateLimits {| MaxConnectionsPerDay := MaxConnectionsPerDay r;
                    MaxMessagesPerDay := v;
                    MaxProfileViewsPerDay := MaxProfileViewsPerDay r;
                    MaxSearchesPerHour := MaxSearchesPerHour r;
                    CooldownMinutes := CooldownMinutes r;
                    MinDelayBetweenActions := MinDelayBetweenActions r;
                    MaxDelayBetweenActions := MaxDelayBetweenActions r |} c.

Definition set_DelayBetweenActions (lo hi : Z) (c : Config) : Config :=
  let r := RateLimits c in
  set_RateLimits {| MaxConnectionsPerDay := MaxConnectionsPerDay r;
                    MaxMessagesPerDay := MaxMessagesPerDay r;
                    MaxProfileViewsPerDay := MaxProfileViewsPerDay r;
                    MaxSearchesPerHour := MaxSearchesPerHour r;
                    CooldownMinutes := CooldownMinutes r;
                    MinDelayBetweenActions := lo;
                    MaxDelayBetweenActions := hi |} c.

Definition set_Level (l : string) (c : Config) : Config :=
  let g := Logging c in
  set_Logging {| Level := l; Format := Format g; OutputFile := OutputFile g;
                 MaxSizeMB := MaxSizeMB g; MaxBackups := MaxBackups g |} c.

Definition set_Format (f : string) (c : Config) : Config :=
  let g := Logging c in
  set_Logging {| Level := Level g; Format := f; OutputFile := OutputFile g;
                 MaxSizeMB := MaxSizeMB g; MaxBackups := MaxBackups g |} c.

Definition set_DatabasePath (p : string) (c : Config) : Config :=
  let s := Storage c in
  set_Storage {| DatabasePath := p; CookiesPath := CookiesPath s;
                 BackupEnabled := BackupEnabled s;
                 BackupInterval := BackupInterval s |} c.

(** The table [validLevels] of [Validate]; a missing key reads as [false]. *)
Definition validLevels : gmap string bool :=
  <["error" := true]> (<["warn" := true]> (<["info" := true]>
    (<["debug" := true]> ∅))).

(** [Validate]: the first failed check decides the error; [None] is [nil]. *)
Definition Validate (c : Config) : error :=
  if String.eqb (Email (LinkedIn c)) "" then
    Some "LinkedIn email is required (set LINKEDIN_EMAIL env var or in config)"
  else if String.eqb (Password (LinkedIn c)) "" then
    Some "LinkedIn password is required (set LINKEDIN_PASSWORD env var or in config)"
  else if (MaxConnectionsPerDay (RateLimits c) <? 0)
          || (MaxConnectionsPerDay (RateLimits c) >? 100) then
    Some "max_connections_per_day must be between 0 and 100"
  else if (MaxMessagesPerDay (RateLimits c) <? 0)
          || (MaxMessagesPerDay (RateLimits c) >? 150) then
    Some "max_messages_per_day must be between 0 and 150"
  else if (StartHour (Schedule c) <? 0) || (StartHour (Schedule c) >? 23) then
    Some "start_hour must be between 0 and 23"
  else if (EndHour (Schedule c) <? 0) || (EndHour (Schedule c) >? 23) then
    Some "end_hour must be between 0 and 23"
  else if negb (default false (validLevels !! Level (Logging c))) then
    Some ("invalid log level: " ++ Level (Logging c)
          ++ " (must be debug, info, warn, or error)")%string
  else None.

Section Loading.

(** The environment of [LoadConfig]: the process environment, the file system
    and the YAML decoder, which overlays the fields a document names on the
    configuration it is given. *)
Variable Getenv : string -> string.
Variable ReadFile : string -> string + (bool * string).
Variable Unmarshal : string -> Config -> Config + string.

Definition override (name : string) (f : string -> Config -> Config)
    (c : Config) : Config :=
  let v := Getenv name in
  if String.eqb v "" then c else f v c.

Definition applyEnvOverrides (c : Config) : Config :=
  let c := override "LINKEDIN_EMAIL" set_Email c in
  let c := override "LINKEDIN_PASSWORD" set_Password c in
  let c := override "BROWSER_HEADLESS"
             (fun v => set_Headless (String.eqb v "true" || String.eqb v "1")) c in
  let c := override "BROWSER_USER_DATA_DIR" set_UserDataDir c in
  let c := override "MAX_CONNECTIONS_PER_DAY"
             (fun v c => match Atoi v with
                         | Some n => set_MaxConnectionsPerDay n c
                         | None => c
                         end) c in
  let c := override "MAX_MESSAGES_PER_DAY"
             (fun v c => match Atoi v with
                         | Some n => set_MaxMessagesPerDay n c
                         | None => c
                         end) c in
  let c := override "LOG_LEVEL" set_Level c in
  let c := override "LOG_FORMAT" set_Format c in
  override "DATABASE_PATH" set_DatabasePath c.

(** [LoadConfig]: [ReadFile] answers [inl data], or [inr (notExist, message)];
    the result is the configuration or the error returned. *)
Definition LoadConfig (configPath : string) : Config + string :=
  let loaded : Config + string :=
    if String.eqb configPath "" then inl DefaultConfig
    else match ReadFile configPath with
         | inr (notExist, msg) =>
             if negb notExist
             then inr ("failed to read config file: " ++ msg)%string
             else inl DefaultConfig
         | inl data =>
             match Unmarshal data DefaultConfig with
             | inr msg => inr ("failed to parse config file: " ++ msg)%string
             | inl c => inl c
             end
         end in
  match loaded with
  | inr e => inr e
  | inl c =>
      let c := applyEnvOverrides c in
      match Validate c with
      | Some e => inr ("configuration validation failed: " ++ e)%string
      | None => inl c
      end
  end.

End Loading.

End config.

(* ===================================================================== *)
(** ** [float64] conversions and package [math] *)
(* ===================================================================== *)

Module GoFloat.

(** The conversion [float64(n)] of an [int]: the nearest binary64 value. *)
Definition float64_of_int (z : Z) : float :=
  if z =? - 2 ^ 63 then (- 0x1p63)%float
  else if z <? 0 then PrimFloat.opp (PrimFloat.of_uint63 (Uint63.of_Z (- z)))
  else PrimFloat.of_uint63 (Uint63.of_Z z).

(** The integer part of a finite float, rounding toward zero. *)
Definition trunc (f : float) : option Z :=
  match Prim2SF f with
  | S754_zero _ => Some 0
  | S754_finite s m e =>
      let a := if 0 <=? e then Z.pos m * 2 ^ e else Z.pos m / 2 ^ (- e) in
      Some (if s then - a else a)
  | _ => None
  end.

(** The conversion [int(f)].  Go leaves the result of converting a NaN, an
    infinity or a value outside the range to the implementation; the value
    below is the one the amd64 instruction returns. *)
Definition int_of_float64 (f : float) : Z :=
  match trunc f with
  | Some z =>
      if (GoInt.min_int64 <=? z) && (z <=? GoInt.max_int64) then z
      else GoInt.min_int64
  | None => GoInt.min_int64
  end.

(** The conversion [uint64(f)], with the same proviso. *)
Definition uint64_of_float64 (f : float) : Z :=
  match trunc f with
  | Some z => if (0 <=? z) && (z <? 2 ^ 64) then z else 2 ^ 63
  | None => 2 ^ 63
  end.

End GoFloat.

Module GoMath.

Import GoFloat.
Local Open Scope float_scope.

Definition Pi : float := 0x1.921fb54442d18p+1.

(** [math.Sqrt] is the correctly rounded square root. *)
Definition Sqrt (x : float) : float := PrimFloat.sqrt x.

(** [math.Pow(x, 2)]: Go squares the fraction of [x] once and scales the
    result back, which is the rounded product [x * x] as long as neither
    overflows nor underflows. *)
Definition Pow2 (x : float) : float := x * x.

(** The sine Go ships for amd64 (the Cephes routine of [math/sin.go]): octant
    reduction with a three-part pi/4, then a degree-13 sine or degree-12
    cosine polynomial.  Arguments of magnitude 2^29 and more take Go's
    Payne-Hanek reduction, which is not reproduced here: [Sin] answers NaN
    for them, and nothing below evaluates it there. *)
Definition PI4A : float := 7.85398125648498535156e-1.
Definition PI4B : float := 3.77489470793079817668e-8.
Definition PI4C : float := 2.69515142907905952645e-15.
Definition M4PI : float := 0x1.45f306dc9c883p+0.

Definition sin_poly (zz : float) : float :=
  (((((1.58962301576546568060e-10 * zz
       + -2.50507477628578072866e-8) * zz
      + 2.75573136213857245213e-6) * zz
     + -1.98412698295895385996e-4) * zz
    + 8.33333333332211858878e-3) * zz
   + -1.66666666666666307295e-1).

Definition cos_poly (zz : float) : float :=
  (((((-1.13585365213876817300e-11 * zz
       + 2.08757008419747316778e-9) * zz
      + -2.75573141792967388112e-7) * zz
     + 2.48015872888517045348e-5) * zz
    + -1.38888888888730564116e-3) * zz
   + 4.16666666666665929218e-2).

Definition Sin (x0 : float) : float :=
  if (x0 =? 0) || PrimFloat.is_nan x0 then x0
  else if PrimFloat.is_infinity x0 then PrimFloat.nan
  else
    let sign := x0 <? 0 in
    let x := if sign then - x0 else x0 in
    if 0x1p29 <=? x then PrimFloat.nan
    else
      let j := uint64_of_float64 (x * M4PI) in
      let y := float64_of_int j in
      let odd := Z.odd j in
      let j := if odd then (j + 1)%Z else j in
      let y := if odd then y + 1 else y in
      let j := Z.land j 7 in
      let z := ((x - y * PI4A) - y * PI4B) - y * PI4C in
      let sign := if (3 <? j)%Z then negb sign else sign in
      let j := if (3 <? j)%Z then (j - 4)%Z else j in
      let zz := z * z in
      let y :=
        if (j =? 1)%Z || (j =? 2)%Z
        then 1.0 - 0.5 * zz + zz * zz * cos_poly zz
        else z + z * zz * sin_poly zz in
      if sign then - y else y.

End GoMath.

(* ===================================================================== *)
(** ** Package [stealth]: activity scheduler and rate limiter *)
(* ===================================================================== *)

Module stealth.

Import GoTime config.

(** *** Technique 7: activity scheduling *)

(** [IsWithinOperatingHours], with the clock reading [now]. *)
Definition IsWithinOperatingHours (cfg : ScheduleConfig) (now : Time) : bool :=
  if negb (Enabled cfg) then true
  else if WorkDaysOnly cfg
          && ((Weekday now =? Saturday) || (Weekday now =? Sunday)) then false
  else if (Hour now <? StartHour cfg) || (Hour now >=? EndHour cfg) then false
  else true.

(** [Duration.Minutes]: whole minutes plus the fraction of the rest. *)
Definition Minutes (d : Z) : float :=
  (GoFloat.float64_of_int (Z.quot d Minute)
   + GoFloat.float64_of_int (Z.rem d Minute) / 60e9)%float.

(** [ShouldTakeBreak]: past the session limit the answer is [true] and
    nothing is drawn; before it one draw is compared with the break chance. *)
Definition ShouldTakeBreak (cfg : ScheduleConfig) (now sessionStart : Time)
    (g : GoRand.Rand) : bool * GoRand.Rand :=
  let elapsed := Since now sessionStart in
  let maxSession := GoInt.mul (SessionMaxMin cfg) Minute in
  if elapsed >? maxSession then (true, g)
  else
    let breakChance :=
      (Minutes elapsed / GoFloat.float64_of_int (SessionMaxMin cfg) * 0.3)%float in
    let '(f, g') := GoRand.Float64 g in
    ((f <? breakChance)%float, g').

(** [TakeBreak]: the duration handed to [time.Sleep], or the panic of
    [Intn]. *)
Definition TakeBreak (cfg : ScheduleConfig) (g : GoRand.Rand)
    : result (Z * GoRand.Rand) :=
  match GoRand.Intn
          (GoInt.add (GoInt.sub (BreakMinMax cfg) (BreakMinMin cfg)) 1) g with
  | Panic msg => Panic msg
  | Ok (x, g') => Ok (GoInt.mul (GoInt.add (BreakMinMin cfg) x) Minute, g')
  end.

(** *** Technique 8: rate limiting *)

Record RateLimiter : Type := mkRateLimiter {
  rl_config : RateLimitConfig;
  actionCounts : gmap string Z;
  lastReset : Time;
  lastAction : Time;
  rl_rand : GoRand.Rand
}.

(** Reading a Go map: a missing key reads as the zero value. *)
Definition count (m : gmap string Z) (k : string) : Z := default 0 (m !! k).

Definition set_counts (m : gmap string Z) (r : RateLimiter) : RateLimiter :=
  mkRateLimiter (rl_config r) m (lastReset r) (lastAction r) (rl_rand r).

Definition set_lastReset (t : Time) (r : RateLimiter) : RateLimiter :=
  mkRateLimiter (rl_config r) (actionCounts r) t (lastAction r) (rl_rand r).

Definition set_lastAction (t : Time) (r : RateLimiter) : RateLimiter :=
  mkRateLimiter (rl_config r) (actionCounts r) (lastReset r) t (rl_rand r).

Definition set_rand (g : GoRand.Rand) (r : RateLimiter) : RateLimiter :=
  mkRateLimiter (rl_config r) (actionCounts r) (lastReset r) (lastAction r) g.

(** [NewRateLimiter]: both time stamps are the clock at construction (its two
    readings there are taken as one). *)
Definition NewRateLimiter (cfg : RateLimitConfig) (now : Time)
    (seed : GoRand.Rand) : RateLimiter :=
  mkRateLimiter cfg ∅ now now seed.

(** [checkReset]: the daily branch, then the hourly branch, which reads the
    marker the daily branch may just have moved. *)
Definition checkReset (now : Time) (r : RateLimiter) : RateLimiter :=
  let r :=
    if negb (YearDay now =? YearDay (lastReset r))
       || negb (Year now =? Year (lastReset r))
    then set_lastReset now
           (set_counts (<["profile_view" := 0]>
                          (<["message" := 0]>
                             (<["connection" := 0]> (actionCounts r)))) r)
    else r in
  if negb (Hour now =? Hour (lastReset r))
  then set_counts (<["search" := 0]> (actionCounts r)) r
  else r.

(** The quota a category is checked against; [None] is the [default] branch
    of the [switch]. *)
Definition limitOf (cfg : RateLimitConfig) (actionType : string) : option Z :=
  if String.eqb actionType "connection" then Some (MaxConnectionsPerDay cfg)
  else if String.eqb actionType "message" then Some (MaxMessagesPerDay cfg)
  else if String.eqb actionType "profile_view"
  then Some (MaxProfileViewsPerDay cfg)
  else if String.eqb actionType "search" then Some (MaxSearchesPerHour cfg)
  else None.

Definition CanPerformAction (now : Time) (actionType : string)
    (r : RateLimiter) : bool * RateLimiter :=
  let r := checkReset now r in
  match limitOf (rl_config r) actionType with
  | None => (true, r)
  | Some limit =>
      let current := count (actionCounts r) actionType in
      if current >=? limit then (false, r) else (true, r)
  end.

Definition RecordAction (now : Time) (actionType : string)
    (r : RateLimiter) : RateLimiter :=
  set_lastAction now
    (set_counts (<[actionType := GoInt.add (count (actionCounts r) actionType) 1]>
                   (actionCounts r)) r).

(** [WaitForNextAction]: the time slept (0 when the call returns at once) and
    the limiter with its generator advanced, or the panic of [Int63n]. *)
Definition WaitForNextAction (now : Time) (r : RateLimiter)
    : result (Z * RateLimiter) :=
  let elapsed := Since now (lastAction r) in
  let minDelay := GoInt.mul (MinDelayBetweenActions (rl_config r)) Millisecond in
  let maxDelay := GoInt.mul (MaxDelayBetweenActions (rl_config r)) Millisecond in
  match GoRand.Int63n (GoInt.sub maxDelay minDelay) (rl_rand r) with
  | Panic msg => Panic msg
  | Ok (x, g) =>
      let targetDelay := GoInt.add minDelay x in
      if elapsed <? targetDelay
      then Ok (GoInt.sub targetDelay elapsed, set_rand g r)
      else Ok (0, set_rand g r)
  end.

(** [EnforceCooldown]: the duration handed to [time.Sleep]. *)
Definition EnforceCooldown (r : RateLimiter) : Z :=
  GoInt.mul (CooldownMinutes (rl_config r)) Minute.

Definition GetRemainingActions (now : Time) (actionType : string)
    (r : RateLimiter) : Z * RateLimiter :=
  let r := checkReset now r in
  match limitOf (rl_config r) actionType with
  | None => (999, r)
  | Some limit => (GoInt.sub limit (count (actionCounts r) actionType), r)
  end.

(** *** The stealth manager: generator, effectors and the calls made to them *)

(** What the stealth manager does to the outside, in the order it does it. *)
Inductive Event : Type :=
| EvSleep (d : Z)        (* time.Sleep(d), d in nanoseconds *)
| EvInput (r : Z)        (* element.Input(string(r)) returned nil *)
| EvBackspace.           (* page.Keyboard.Press(input.Backspace) *)

(** The state a call runs in: the generator's tape, the outcomes of the calls
    to [element.Input] still to come ([true]: the call returns an error; an
    exhausted list: every further call succeeds) and the events so far. *)
Record World : Type := mkWorld {
  tape : GoRand.Rand;
  faults : list bool;
  trace : list Event
}.

Definition M (A : Type) : Type := World -> result (A * World).

Definition ret {A : Type} (a : A) : M A := fun w => Ok (a, w).

Definition bind {A B : Type} (m : M A) (k : A -> M B) : M B :=
  fun w => match m w with
           | Ok (a, w') => k a w'
           | Panic msg => Panic msg
           end.

Notation "x <- m ;; k" := (bind m (fun x => k))
  (at level 100, m at level 99, right associativity).
Notation "m ;;; k" := (bind m (fun _ => k))
  (at level 100, right associativity).

Definition randFloat64 : M float :=
  fun w => let '(f, g) := GoRand.Float64 (tape w) in
           Ok (f, mkWorld g (faults w) (trace w)).

Definition randIntn (n : Z) : M Z :=
  fun w => match GoRand.Intn n (tape w) with
           | Ok (x, g) => Ok (x, mkWorld g (faults w) (trace w))
           | Panic msg => Panic msg
           end.

Definition emit (e : Event) : M unit :=
  fun w => Ok (tt, mkWorld (tape w) (faults w) (trace w ++ [e])).

(** [time.Sleep(time.Duration(ms) * time.Millisecond)]. *)
Definition sleepMs (ms : Z) : M unit :=
  emit (EvSleep (GoInt.mul ms Millisecond)).

(** [element.Input(string(r))]: the error it returns. *)
Definition elementInput (r : Z) : M GoStr.error :=
  fun w => match faults w with
           | true :: fs => Ok (Some "input failed", mkWorld (tape w) fs (trace w))
           | false :: fs =>
               Ok (None, mkWorld (tape w) fs (trace w ++ [EvInput r]))
           | [] => Ok (None, mkWorld (tape w) [] (trace w ++ [EvInput r]))
           end.

(** *** Technique 1: mouse movement *)

Record Point : Type := mkPoint { X : float; Y : float }.

Local Open Scope float_scope.

Definition randomSign : M float :=
  f <- randFloat64 ;;
  ret (if f <? 0.5 then -1 else 1).

Definition cubicBezier (t : float) (p0 p1 p2 p3 : Point) : Point :=
  let u := 1 - t in
  let tt := t * t in
  let uu := u * u in
  let uuu := uu * u in
  let ttt := tt * t in
  {| X := uuu * X p0 + 3 * uu * t * X p1 + 3 * u * tt * X p2 + ttt * X p3;
     Y := uuu * Y p0 + 3 * uu * t * Y p1 + 3 * u * tt * Y p2 + ttt * Y p3 |}.

(** The indices [0 .. n-1] of a loop [for i := 0; i < n; i++]. *)
Definition indices (n : Z) : list Z := map Z.of_nat (seq 0 (Z.to_nat n)).

(** [generateBezierPath]: [make] panics on a negative length; memory is taken
    to suffice for any other. *)
Definition generateBezierPath (start end_ : Point) : M (list Point) :=
  let distance :=
    GoMath.Sqrt (GoMath.Pow2 (X end_ - X start) + GoMath.Pow2 (Y end_ - Y start)) in
  let numSteps := GoInt.add (GoFloat.int_of_float64 (distance / 10)) 10 in
  let offsetRange := distance * 0.3 in
  r1 <- randFloat64 ;;
  r2 <- randFloat64 ;;
  let ctrl1 :=
    {| X := X start + (X end_ - X start) * 0.25 + (r1 - 0.5) * offsetRange;
       Y := Y start + (Y end_ - Y start) * 0.25 + (r2 - 0.5) * offsetRange |} in
  r3 <- randFloat64 ;;
  r4 <- randFloat64 ;;
  let ctrl2 :=
    {| X := X start + (X end_ - X start) * 0.75 + (r3 - 0.5) * offsetRange;
       Y := Y start + (Y end_ - Y start) * 0.75 + (r4 - 0.5) * offsetRange |} in
  if (numSteps <? 0)%Z then (fun _ => Panic "makeslice: len out of range")
  else
    ret (map (fun i =>
                let t := GoFloat.float64_of_int i
                         / GoFloat.float64_of_int (GoInt.sub numSteps 1) in
                cubicBezier t start ctrl1 ctrl2 end_)
             (indices numSteps)).

Definition addOvershoot (points : list Point) (targetX targetY : float)
    : M (list Point) :=
  a <- randFloat64 ;;
  sa <- randomSign ;;
  let overshootX := (a * 10 + 5) * sa in
  b <- randFloat64 ;;
  sb <- randomSign ;;
  let overshootY := (b * 10 + 5) * sb in
  let overshootPoint :=
    {| X := targetX + overshootX; Y := targetY + overshootY |} in
  let points := (points ++ [overshootPoint])%list in
  k <- randIntn 3 ;;
  let correctionSteps := GoInt.add 3 k in
  ret (points ++
       map (fun i =>
              let t := GoFloat.float64_of_int (GoInt.add i 1)
                       / GoFloat.float64_of_int correctionSteps in
              {| X := X overshootPoint + (targetX - X overshootPoint) * t;
                 Y := Y overshootPoint + (targetY - Y overshootPoint) * t |})
           (indices correctionSteps))%list.

Definition getApproximateMousePosition : float * float := (683, 384).

(** The points [MoveMouse] computes before it starts to move the pointer: the
    curve from the assumed pointer position, and the overshoot tail when the
    option is on and the draw is below 0.3 (the draw is made only when the
    option is on). *)
Definition MoveMouse_points (cfg : StealthConfig) (targetX targetY : float)
    : M (list Point) :=
  let '(currentX, currentY) := getApproximateMousePosition in
  points <- generateBezierPath {| X := currentX; Y := currentY |}
                               {| X := targetX; Y := targetY |} ;;
  if MouseOvershoot cfg then
    c <- randFloat64 ;;
    if c <? 0.3 then addOvershoot points targetX targetY else ret points
  else ret points.

Section Easing.

(** [math.Sin], a parameter of the delay law: what is proved of
    [calculateMovementDelay] holds for every implementation of the sine. *)
Variable Sin : float -> float.

Definition calculateMovementDelay (cfg : StealthConfig) (step totalSteps : Z)
    : M Z :=
  let progress :=
    GoFloat.float64_of_int step / GoFloat.float64_of_int totalSteps in
  let easeFactor := Sin (progress * GoMath.Pi) in
  let minDelay := GoFloat.int_of_float64 (MouseSpeedMin cfg * 5) in
  let maxDelay := GoFloat.int_of_float64 (MouseSpeedMax cfg * 15) in
  let delay :=
    GoInt.sub maxDelay
      (GoFloat.int_of_float64
         (GoFloat.float64_of_int (GoInt.sub maxDelay minDelay) * easeFactor)) in
  j <- randIntn 3 ;;
  ret (GoInt.add delay j).

End Easing.

Local Close Scope float_scope.

(** *** Technique 2: randomized timing *)

Definition RandomDelay (minMs maxMs : Z) : M unit :=
  x <- randIntn (GoInt.add (GoInt.sub maxMs minMs) 1) ;;
  sleepMs (GoInt.add minMs x).

Definition ActionDelay (cfg : StealthConfig) : M unit :=
  RandomDelay (ActionDelayMin cfg) (ActionDelayMax cfg).

Definition PageLoadDelay (cfg : StealthConfig) : M unit :=
  RandomDelay (PageLoadWaitMin cfg) (PageLoadWaitMax cfg).

(** *** Technique 3: fingerprint masking *)

Definition cores : list Z := [4; 8; 12; 16].

(** [string(rune('0' + cores[i]))]: the rune 48 plus the core count, as a
    one-rune string.  The index is in range, so the read cannot fail. *)
Definition randomHardwareConcurrency : M string :=
  i <- randIntn (Z.of_nat (length cores)) ;;
  ret (GoStr.string_of_rune (48 + nth (Z.to_nat i) cores 0)).

(** The third script of [ApplyFingerprintMasking], the one the value is
    spliced into. *)
Definition hardwareConcurrencyScript : M string :=
  v <- randomHardwareConcurrency ;;
  ret ("Object.defineProperty(navigator, 'hardwareConcurrency', { get: () => "
       ++ v ++ " });")%string.

(** *** Technique 5: typing *)

Definition rune (c : ascii) : Z := Z.of_nat (nat_of_ascii c).

(** The runes of a row of ASCII keys. *)
Definition keys (s : string) : list Z := map rune (list_ascii_of_string s).

Definition adjacentKeys : gmap Z (list Z) :=
  list_to_map
    [ (rune "a", keys "sqz");    (rune "b", keys "vngh");
      (rune "c", keys "xvdf");   (rune "d", keys "sfercx");
      (rune "e", keys "wrds");   (rune "f", keys "dgrtvc");
      (rune "g", keys "fhtybv"); (rune "h", keys "gjyunb");
      (rune "i", keys "uokj");   (rune "j", keys "hkuimn");
      (rune "k", keys "jliom");  (rune "l", keys "kop");
      (rune "m", keys "njk");    (rune "n", keys "bmhj");
      (rune "o", keys "ipkl");   (rune "p", keys "ol");
      (rune "q", keys "wa");     (rune "r", keys "etdf");
      (rune "s", keys "adwezx"); (rune "t", keys "ryfg");
      (rune "u", keys "yihj");   (rune "v", keys "cbfg");
      (rune "w", keys "qeas");   (rune "x", keys "zcsd");
      (rune "y", keys "tugh");   (rune "z", keys "ax") ].

Definition isUpper (char : Z) : bool := (rune "A" <=? char) && (char <=? rune "Z").

Definition getAdjacentKey (char : Z) : M Z :=
  let lowerChar := if isUpper char then char + 32 else char in
  match adjacentKeys !! lowerChar with
  | Some adjacent =>
      i <- randIntn (Z.of_nat (length adjacent)) ;;
      let result := nth (Z.to_nat i) adjacent 0 in
      ret (if isUpper char then result - 32 else result)
  | None => ret char
  end.

(** One round of the loop of [HumanType]: [Some e] when the round returns the
    error [e] and ends the call. *)
Definition HumanType_round (cfg : StealthConfig) (char : Z) : M GoStr.error :=
  d <- randIntn (GoInt.sub (TypingDelayMax cfg) (TypingDelayMin cfg)) ;;
  let delay := GoInt.add (TypingDelayMin cfg) d in
  f <- randFloat64 ;;
  delay <- (if (f <? 0.05)%float
            then x <- randIntn 400 ;; ret (GoInt.add delay (GoInt.add 200 x))
            else ret delay) ;;
  mistake <- (if (0 <? TypingMistakeRate cfg)%float
              then g <- randFloat64 ;; ret (g <? TypingMistakeRate cfg)%float
              else ret false) ;;
  failed <- (if mistake : bool then
               wrongChar <- getAdjacentKey char ;;
               err <- elementInput wrongChar ;;
               match err with
               | Some e => ret (Some e)
               | None =>
                   x <- randIntn 200 ;;
                   sleepMs (GoInt.add 100 x) ;;;
                   emit EvBackspace ;;;
                   y <- randIntn 100 ;;
                   sleepMs (GoInt.add 50 y) ;;;
                   ret None
               end
             else ret None) ;;
  match failed with
  | Some e => ret (Some e)
  | None =>
      err <- elementInput char ;;
      match err with
      | Some e => ret (Some e)
      | None => sleepMs delay ;;; ret None
      end
  end.

(** The loop of [HumanType] over the runes of the text. *)
Fixpoint HumanType_rounds (cfg : StealthConfig) (chars : list Z)
    : M GoStr.error :=
  match chars with
  | [] => ret None
  | char :: rest =>
      err <- HumanType_round cfg char ;;
      match err with
      | Some e => ret (Some e)
      | None => HumanType_rounds cfg rest
      end
  end.

Definition HumanType (cfg : StealthConfig) (text : string) : M GoStr.error :=
  HumanType_rounds cfg (GoStr.runes text).


(** *** Technique 2, continued *)

(** [ThinkingDelay]: a base delay, one time in five a second delay on top. *)
Definition ThinkingDelay : M unit :=
  x <- randIntn 3000 ;;
  let baseDelay := GoInt.add 1000 x in
  f <- randFloat64 ;;
  baseDelay <- (if (f <? 0.2)%float
                then y <- randIntn 3000 ;;
                     ret (GoInt.add baseDelay (GoInt.add 2000 y))
                else ret baseDelay) ;;
  sleepMs baseDelay.

(** *** Technique 3, continued: the viewport *)

Definition viewports : list (Z * Z) :=
  [ (1920, 1080); (1366, 768); (1536, 864); (1440, 900); (1280, 720);
    (1600, 900) ].

(** [GetRandomViewport]: the three draws are made from left to right. *)
Definition GetRandomViewport : M (Z * Z) :=
  i <- randIntn (Z.of_nat (length viewports)) ;;
  let vp := nth (Z.to_nat i) viewports (0, 0) in
  a <- randIntn 20 ;;
  b <- randIntn 20 ;;
  ret (GoInt.sub (GoInt.add (fst vp) a) 10, GoInt.sub (GoInt.add (snd vp) b) 10).

(** *** Technique 7, continued: waiting for the operating hours *)

(** [WaitForOperatingHours], with the readings the clock gives to the
    successive calls of [IsWithinOperatingHours]: the sleeps made before the
    call returns, or [None] when the readings end with the call still
    waiting. *)
Fixpoint WaitForOperatingHours (cfg : ScheduleConfig) (clock : list Time)
    : option (list Z) :=
  match clock with
  | [] => None
  | now :: later =>
      if IsWithinOperatingHours cfg now then Some []
      else option_map (cons (GoInt.mul 5 Minute))
                      (WaitForOperatingHours cfg later)
  end.


(** *** Computations over a state that may panic *)

Definition StateM (S A : Type) : Type := S -> result (A * S).

Definition sret {S A : Type} (a : A) : StateM S A := fun s => Ok (a, s).

Definition sbind {S A B : Type} (m : StateM S A) (k : A -> StateM S B)
    : StateM S B :=
  fun s => match m s with
           | Ok (a, s') => k a s'
           | Panic msg => Panic msg
           end.

Notation "x <~ m ;; k" := (sbind m (fun x => k))
  (at level 100, m at level 99, right associativity).
Notation "m ;;~ k" := (sbind m (fun _ => k))
  (at level 100, right associativity).

(** *** The page: pointer, wheel, clicks and scripts *)

(** The calls the manager makes to the page and to the clock. *)
Inductive Call : Type :=
| CallSleep (d : Z)                    (* time.Sleep(d), d in nanoseconds *)
| CallMove (x y : float)               (* page.Mouse.MoveLinear(proto.NewPoint(x, y), 1) *)
| CallScroll (dy : float) (steps : Z)  (* page.Mouse.Scroll(0, dy, steps) *)
| CallClick                            (* element.Click(proto.InputMouseButtonLeft, 1) *)
| CallEval (script : string).          (* page.Eval(script) *)

(** The state such a call runs in: the generator's tape, the errors the page
    returns to the calls still to come ([None] is [nil]; an exhausted list:
    every further call succeeds) and the calls made so far, each recorded
    whether or not the page accepted it. *)
Record Stage : Type := mkStage {
  gen : GoRand.Rand;
  answers : list GoStr.error;
  calls : list Call
}.

Definition PageM (A : Type) : Type := StateM Stage A.

(** A computation that only draws, run on the tape of the stage. *)
Definition draw {A : Type} (m : M A) : PageM A :=
  fun s => match m (mkWorld (gen s) [] []) with
           | Ok (a, w) => Ok (a, mkStage (tape w) (answers s) (calls s))
           | Panic msg => Panic msg
           end.

(** A call to the page: the error it returns. *)
Definition call (c : Call) : PageM GoStr.error :=
  fun s => match answers s with
           | e :: rest => Ok (e, mkStage (gen s) rest (calls s ++ [c])%list)
           | [] => Ok (None, mkStage (gen s) [] (calls s ++ [c])%list)
           end.

Definition sleep (ms : Z) : PageM unit :=
  fun s => Ok (tt, mkStage (gen s) (answers s)
                     (calls s ++ [CallSleep (GoInt.mul ms Millisecond)])%list).

(** The panic of an index out of range, and the read [l[i]]. *)
Fixpoint decimal_digits (fuel : nat) (n : Z) (acc : string) : string :=
  match fuel with
  | O => acc
  | S fuel' =>
      let acc := String (GoStr.byte (48 + n mod 10)) acc in
      if n <? 10 then acc else decimal_digits fuel' (n / 10) acc
  end.

Definition decimal (n : Z) : string := decimal_digits 20 n "".

Definition at_ {A : Type} (l : list A) (i : Z) : PageM A :=
  fun s => match nth_error l (Z.to_nat i) with
           | Some a => Ok (a, s)
           | None =>
               Panic ("runtime error: index out of range [" ++ decimal i
                      ++ "] with length " ++ decimal (Z.of_nat (length l)))%string
           end.

Local Open Scope float_scope.

(** [addMicroCorrection]: the error of its [MoveLinear] is dropped. *)
Definition addMicroCorrection (x y : float) : PageM unit :=
  a <~ draw randFloat64 ;;
  let microX := x + (a - 0.5) * 2 in
  b <~ draw randFloat64 ;;
  let microY := y + (b - 0.5) * 2 in
  k <~ draw (randIntn 10) ;;
  sleep (GoInt.add 5 k) ;;~
  _ <~ call (CallMove microX microY) ;;
  sret tt.

(** [scrollBack]: the error of its [Scroll] is dropped. *)
Definition scrollBack (originalDirection : string) (amount : Z) : PageM unit :=
  x <~ draw (randIntn 300) ;;
  sleep (GoInt.add 200 x) ;;~
  let deltaY := GoFloat.float64_of_int amount in
  let deltaY := if String.eqb originalDirection "down" then - deltaY else deltaY in
  _ <~ call (CallScroll deltaY 5) ;;
  sret tt.

Section Page.

Variable Sin : float -> float.
Variable cfg : StealthConfig.

(** The loop of [MoveMouse] from the index [i] on, [n] being [len(points)]. *)
Fixpoint MoveMouse_steps (n i : Z) (points : list Point) : PageM GoStr.error :=
  match points with
  | [] => sret None
  | point :: rest =>
      delay <~ draw (calculateMovementDelay Sin cfg i n) ;;
      sleep delay ;;~
      err <~ call (CallMove (X point) (Y point)) ;;
      match err with
      | Some e => sret (Some e)
      | None =>
          (if MouseMicroCorrect cfg && (i >? n - 5)%Z
           then addMicroCorrection (X point) (Y point)
           else sret tt) ;;~
          MoveMouse_steps n (i + 1)%Z rest
      end
  end.

Definition MoveMouse (targetX targetY : float) : PageM GoStr.error :=
  points <~ draw (MoveMouse_points cfg targetX targetY) ;;
  MoveMouse_steps (Z.of_nat (length points)) 0 points.

(** The loop of [HumanScroll], which ends when [scrolled] has reached
    [actualAmount]; [None] when the rounds allowed are spent with the loop
    still running. *)
Fixpoint HumanScroll_loop (rounds : nat) (direction : string)
    (actualAmount scrolled : Z) : PageM (option GoStr.error) :=
  if (scrolled <? actualAmount)%Z then
    match rounds with
    | O => sret None
    | S rounds' =>
        x <~ draw (randIntn (GoInt.sub (ScrollSpeedMax cfg) (ScrollSpeedMin cfg))) ;;
        let increment := GoInt.add (ScrollSpeedMin cfg) x in
        let increment :=
          if (GoInt.add scrolled increment >? actualAmount)%Z
          then GoInt.sub actualAmount scrolled else increment in
        let progress :=
          GoFloat.float64_of_int scrolled / GoFloat.float64_of_int actualAmount in
        let speedFactor := Sin (progress * GoMath.Pi) in
        let delay := GoFloat.int_of_float64 (30 / (speedFactor + 0.3)) in
        let deltaY := GoFloat.float64_of_int increment in
        let deltaY := if String.eqb direction "up" then - deltaY else deltaY in
        err <~ call (CallScroll deltaY 1) ;;
        match err with
        | Some e => sret (Some (Some e))
        | None =>
            sleep delay ;;~
            HumanScroll_loop rounds' direction actualAmount
              (GoInt.add scrolled increment)
        end
    end
  else sret (Some None).

Definition HumanScroll (rounds : nat) (direction : string) (amount : Z)
    : PageM (option GoStr.error) :=
  x <~ draw (randIntn 100) ;;
  let actualAmount := GoInt.sub (GoInt.add amount x) 50 in
  r <~ HumanScroll_loop rounds direction actualAmount 0 ;;
  match r with
  | None => sret None
  | Some (Some e) => sret (Some (Some e))
  | Some None =>
      f <~ draw randFloat64 ;;
      (if f <? ScrollBackChance cfg
       then b <~ draw (randIntn 100) ;; scrollBack direction (GoInt.add 50 b)
       else sret tt) ;;~
      sret (Some None)
  end.

(** [ScrollToElement]: [found] is the error of [page.Element(selector)] and
    [shape] what [el.Shape()] returns, the quads of the element or an error.
    The viewport height is 768 whatever [page.Info()] answers. *)
Definition ScrollToElement (rounds : nat) (found : GoStr.error)
    (shape : list (list float) + string) : PageM (option GoStr.error) :=
  match found with
  | Some e => sret (Some (Some e))
  | None =>
      match shape with
      | inr e => sret (Some (Some e))
      | inl quads =>
          let viewportHeight := 768 in
          quad <~ at_ quads 0 ;;
          elementY <~ at_ quad 1 ;;
          let targetY := elementY - viewportHeight / 3 in
          if 0 <? targetY
          then HumanScroll rounds "down" (GoFloat.int_of_float64 targetY)
          else if targetY <? 0
          then HumanScroll rounds "up" (GoFloat.int_of_float64 (- targetY))
          else sret (Some None)
      end
  end.

(** [HoverElement]: [shape] is what [element.Shape()] returns. *)
Definition HoverElement (shape : list (list float) + string) : PageM GoStr.error :=
  match shape with
  | inr e => sret (Some e)
  | inl quads =>
      quad <~ at_ quads 0 ;;
      q0 <~ at_ quad 0 ;;
      q2 <~ at_ quad 2 ;;
      f <~ draw randFloat64 ;;
      let x := q0 + (q2 - q0) * f * 0.6 + (q2 - q0) * 0.2 in
      q1 <~ at_ quad 1 ;;
      q5 <~ at_ quad 5 ;;
      g <~ draw randFloat64 ;;
      let y := q1 + (q5 - q1) * g * 0.6 + (q5 - q1) * 0.2 in
      err <~ MoveMouse x y ;;
      match err with
      | Some e => sret (Some e)
      | None =>
          hoverTime <~ draw (randIntn 500) ;;
          sleep (GoInt.add 200 hoverTime) ;;~
          sret None
      end
  end.

Definition ClickElement (shape : list (list float) + string) : PageM GoStr.error :=
  err <~ HoverElement shape ;;
  match err with
  | Some e => sret (Some e)
  | None =>
      a <~ draw (randIntn 150) ;;
      sleep (GoInt.add 50 a) ;;~
      err <~ call CallClick ;;
      match err with
      | Some e => sret (Some e)
      | None =>
          b <~ draw (randIntn 200) ;;
          sleep (GoInt.add 100 b) ;;~
          sret None
      end
  end.

End Page.

Local Close Scope float_scope.

(** The scripts of [ApplyFingerprintMasking], with the white space of the
    source. *)
Definition webdriverScript : string :=
  "
			Object.defineProperty(navigator, 'webdriver', {
				get: () => undefined
			});
			
			// Remove automation-related properties
			delete window.cdc_adoQpoasnfa76pfcZLmcfl_Array;
			delete window.cdc_adoQpoasnfa76pfcZLmcfl_Promise;
			delete window.cdc_adoQpoasnfa76pfcZLmcfl_Symbol;
		".

Definition chromeScript : string :=
  "
		// Override Chrome properties
		Object.defineProperty(navigator, 'plugins', {
			get: () => [
				{name: 'Chrome PDF Plugin', filename: 'internal-pdf-viewer'},
				{name: 'Chrome PDF Viewer', filename: 'mhjfbmdgcfjbbpaeojofohoefgiehjai'},
				{name: 'Native Client', filename: 'internal-nacl-plugin'}
			]
		});

		// Override languages
		Object.defineProperty(navigator, 'languages', {
			get: () => ['en-US', 'en']
		});

		// Override permissions
		const originalQuery = window.navigator.permissions.query;
		window.navigator.permissions.query = (parameters) => (
			parameters.name === 'notifications' ?
				Promise.resolve({ state: Notification.permission }) :
				originalQuery(parameters)
		);

		// Add realistic screen properties
		Object.defineProperty(screen, 'availWidth', { get: () => screen.width });
		Object.defineProperty(screen, 'availHeight', { get: () => screen.height - 40 });
	".

Definition hardwareScript (value : string) : string :=
  ("
		Object.defineProperty(navigator, 'hardwareConcurrency', {
			get: () => " ++ value ++ "
		});
	")%string.

(** The loop over the scripts: an error of [page.Eval] is logged and the loop
    goes on. *)
Fixpoint evalAll (scripts : list string) : PageM unit :=
  match scripts with
  | [] => sret tt
  | script :: rest => _ <~ call (CallEval script) ;; evalAll rest
  end.

Definition ApplyFingerprintMasking (cfg : StealthConfig) : PageM GoStr.error :=
  let scripts := [] in
  let scripts :=
    if DisableWebdriver cfg then (scripts ++ [webdriverScript])%list
    else scripts in
  let scripts := (scripts ++ [chromeScript])%list in
  value <~ draw randomHardwareConcurrency ;;
  let scripts := (scripts ++ [hardwareScript value])%list in
  evalAll scripts ;;~
  sret None.

(** *** The limiter against a running clock *)

(** A rate limiter and the readings the clock is going to give, the next one
    first. *)
Record Session : Type := mkSession {
  limiter : RateLimiter;
  readings : nat -> Time
}.

(** [time.Now()]: the next reading. *)
Definition Now : StateM Session Time :=
  fun s => Ok (readings s 0%nat,
               mkSession (limiter s) (fun n => readings s (S n))).

Definition CanPerformAction_now (actionType : string) : StateM Session bool :=
  t <~ Now ;;
  fun s => let '(ok, r) := CanPerformAction t actionType (limiter s) in
           Ok (ok, mkSession r (readings s)).

Definition GetRemainingActions_now (actionType : string) : StateM Session Z :=
  t <~ Now ;;
  fun s => let '(n, r) := GetRemainingActions t actionType (limiter s) in
           Ok (n, mkSession r (readings s)).

Definition RecordAction_now (actionType : string) : StateM Session unit :=
  t <~ Now ;;
  fun s => Ok (tt, mkSession (RecordAction t actionType (limiter s))
                             (readings s)).

(** [WaitForNextAction] sleeps for the time it returns in the model; the
    clock's next reading is whatever comes after. *)
Definition WaitForNextAction_now : StateM Session unit :=
  t <~ Now ;;
  fun s => match WaitForNextAction t (limiter s) with
           | Ok (_, r) => Ok (tt, mkSession r (readings s))
           | Panic msg => Panic msg
           end.

End stealth.

(* ===================================================================== *)
(** ** Packages [messaging] and [connection]: the bulk senders *)
(* ===================================================================== *)

Module messaging.

Import GoTime config stealth.

(** [SendFollowUpMessage] as the rate limiter sees it.

    Between the check and the record [SendFollowUpMessage] talks to the
    database, the page and the stealth manager, none of which touches the
    limiter: [page] is what comes of these steps, the error one of them
    returns ([None] when all succeed) or the panic one of them raises. *)
Definition SendFollowUpMessage (page : result GoStr.error)
    : StateM Session GoStr.error :=
  ok <~ CanPerformAction_now "message" ;;
  if negb ok then sret (Some "message rate limit reached")
  else match page with
       | Panic msg => fun _ => Panic msg
       | Ok (Some e) => sret (Some e)
       | Ok None => RecordAction_now "message" ;;~ sret None
       end.

(** The loop of [SendBulkFollowUpMessages] over the connections left, one
    outcome of the page for each; [ThinkingDelay] neither panics nor touches
    the limiter and is left out.  The two counters stay below the length of
    the slice and cannot wrap. *)
Fixpoint SendBulkFollowUpMessages_loop (pages : list (result GoStr.error))
    (sent failed : Z) : StateM Session (Z * Z) :=
  match pages with
  | [] => sret (sent, failed)
  | page :: rest =>
      ok <~ CanPerformAction_now "message" ;;
      if negb ok then sret (sent, failed)
      else
        err <~ SendFollowUpMessage page ;;
        let '(sent, failed) :=
          match err with
          | Some _ => (sent, failed + 1)
          | None => (sent + 1, failed)
          end in
        WaitForNextAction_now ;;~
        SendBulkFollowUpMessages_loop rest sent failed
  end.

Definition SendBulkFollowUpMessages (pages : list (result GoStr.error))
    : StateM Session (Z * Z) :=
  SendBulkFollowUpMessages_loop pages 0 0.

End messaging.

Module connection.

Import GoTime config stealth.

(** What comes of the steps of [SendConnectionRequest] that do not touch the
    limiter: an error before the profile is opened (the request was already
    sent, the navigation failed), an error after it (the Connect or the Send
    button), success, or a panic. *)
Inductive Attempt : Type :=
| RefusedBeforeView (e : string)
| RefusedAfterView (e : string)
| Delivered
| Crashed (msg : string).

(** [fmt.Sprintf] of [%d]. *)
Definition Itoa (n : Z) : string :=
  if n <? 0 then String "-"%char (decimal (- n)) else decimal n.

Definition SendConnectionRequest (page : Attempt) : StateM Session GoStr.error :=
  ok <~ CanPerformAction_now "connection" ;;
  if negb ok then
    remaining <~ GetRemainingActions_now "connection" ;;
    sret (Some ("connection rate limit reached (remaining: "
                ++ Itoa remaining ++ ")")%string)
  else match page with
       | Crashed msg => fun _ => Panic msg
       | RefusedBeforeView e => sret (Some e)
       | RefusedAfterView e =>
           RecordAction_now "profile_view" ;;~ sret (Some e)
       | Delivered =>
           RecordAction_now "profile_view" ;;~
           RecordAction_now "connection" ;;~
           WaitForNextAction_now ;;~
           sret None
       end.

Fixpoint SendBulkConnectionRequests_loop (pages : list Attempt)
    (sent failed : Z) : StateM Session (Z * Z) :=
  match pages with
  | [] => sret (sent, failed)
  | page :: rest =>
      ok <~ CanPerformAction_now "connection" ;;
      if negb ok then sret (sent, failed)
      else
        err <~ SendConnectionRequest page ;;
        let '(sent, failed) :=
          match err with
          | Some _ => (sent, failed + 1)
          | None => (sent + 1, failed)
          end in
        WaitForNextAction_now ;;~
        SendBulkConnectionRequests_loop rest sent failed
  end.

Definition SendBulkConnectionRequests (pages : list Attempt)
    : StateM Session (Z * Z) :=
  SendBulkConnectionRequests_loop pages 0 0.

Definition GetRemainingConnections : StateM Session Z :=
  GetRemainingActions_now "connection".

End connection.

(* ===================================================================== *)
(** * Vocabulary of the statements *)
(* ===================================================================== *)

Import GoTime config stealth.
Local Open Scope list_scope.

(** ** Clock readings and rate limits *)

(** Two clock readings in the same calendar day. *)
Definition sameDay (a b : Time) : Prop :=
  Year a = Year b /\ YearDay a = YearDay b.

(** Two clock readings in the same hour of the same calendar day. *)
Definition sameHour (a b : Time) : Prop := sameDay a b /\ Hour a = Hour b.

(** The state after [RecordAction] calls for one category at the clock
    readings [ts]. *)
Definition recordAll (a : string) (ts : list Time) (r : RateLimiter)
    : RateLimiter :=
  fold_left (fun r t => RecordAction t a r) ts r.

(** The rate limits of the package's test, with the four quotas given. *)
Definition quota (connections messages views searches : Z) : RateLimitConfig :=
  {| MaxConnectionsPerDay := connections; MaxMessagesPerDay := messages;
     MaxProfileViewsPerDay := views; MaxSearchesPerHour := searches;
     CooldownMinutes := 1; MinDelayBetweenActions := 100;
     MaxDelayBetweenActions := 200 |}.

(** A Wednesday: 09:30, then 11:05, 11:06 and 11:10 of the same day. *)
Definition t0930 : Time := mkTime 2024 10 9 3 34200000000000.
Definition t1105 : Time := mkTime 2024 10 11 3 39900000000000.
Definition t1106 : Time := mkTime 2024 10 11 3 39960000000000.
Definition t1110 : Time := mkTime 2024 10 11 3 40200000000000.

(** The Thursday after, at 11:05. *)
Definition nextDay1105 : Time := mkTime 2024 11 11 4 126300000000000.

(** ** Operating windows *)

Definition window (enabled : bool) (startHour endHour : Z) (workDaysOnly : bool)
    : ScheduleConfig :=
  {| Enabled := enabled; StartHour := startHour; EndHour := endHour;
     WorkDaysOnly := workDaysOnly; BreakMinMin := 1; BreakMinMax := 2;
     SessionMaxMin := 120; Timezone := "Local" |}.

(** The clock at the given hour of a Wednesday. *)
Definition atHour (h : Z) : Time := mkTime 2024 10 h 3 0.

(** ** Configurations *)

Definition withCredentials (c : Config) : Config :=
  set_Password "password123" (set_Email "test@example.com" c).

(** The typing delays and the mistake rate of a stealth configuration
    replaced. *)
Definition set_Typing (lo hi : Z) (rate : float) (s : StealthConfig)
    : StealthConfig :=
  {| MouseSpeedMin := MouseSpeedMin s; MouseSpeedMax := MouseSpeedMax s;
     MouseOvershoot := MouseOvershoot s;
     MouseMicroCorrect := MouseMicroCorrect s;
     TypingDelayMin := lo; TypingDelayMax := hi;
     TypingMistakeRate := rate;
     ScrollSpeedMin := ScrollSpeedMin s; ScrollSpeedMax := ScrollSpeedMax s;
     ScrollBackChance := ScrollBackChance s;
     ActionDelayMin := ActionDelayMin s; ActionDelayMax := ActionDelayMax s;
     PageLoadWaitMin := PageLoadWaitMin s; PageLoadWaitMax := PageLoadWaitMax s;
     RandomizeViewport := RandomizeViewport s;
     DisableWebdriver := DisableWebdriver s;
     RandomUserAgent := RandomUserAgent s |}.

(** The default stealth settings with the mistake rate given. *)
Definition withMistakeRate (rate : float) : StealthConfig :=
  set_Typing 50 200 rate (Stealth DefaultConfig).

(** The zero value of the stealth settings, [StealthConfig{}]. *)
Definition zeroStealth : StealthConfig :=
  {| MouseSpeedMin := 0; MouseSpeedMax := 0; MouseOvershoot := false;
     MouseMicroCorrect := false; TypingDelayMin := 0; TypingDelayMax := 0;
     TypingMistakeRate := 0; ScrollSpeedMin := 0; ScrollSpeedMax := 0;
     ScrollBackChance := 0; ActionDelayMin := 0; ActionDelayMax := 0;
     PageLoadWaitMin := 0; PageLoadWaitMax := 0; RandomizeViewport := false;
     DisableWebdriver := false; RandomUserAgent := false |}.

(** What [Validate] looks at. *)
Definition checked (c : Config) : Prop :=
  Email (LinkedIn c) <> ""
  /\ Password (LinkedIn c) <> ""
  /\ 0 <= MaxConnectionsPerDay (RateLimits c) <= 100
  /\ 0 <= MaxMessagesPerDay (RateLimits c) <= 150
  /\ 0 <= StartHour (Schedule c) <= 23
  /\ 0 <= EndHour (Schedule c) <= 23
  /\ In (Level (Logging c)) ["debug"; "info"; "warn"; "error"].

(** A configuration every delay range of which is reversed: the maximum is
    below the minimum for the delay between actions and for typing. *)
Definition reversedDelays : Config :=
  set_Stealth (set_Typing 200 50 0.02 (Stealth DefaultConfig))
    (set_DelayBetweenActions 5000 2000 (withCredentials DefaultConfig)).

(** ** Motion plans *)

(** The points of an outcome, and the last of them. *)
Definition pointsOf (r : result (list Point * World)) : list Point :=
  match r with
  | Ok (ps, _) => ps
  | Panic _ => []
  end.

Definition lastPoint (r : result (list Point * World)) : option Point :=
  last (pointsOf r).

(** Equality of two points as Go's [==] on their coordinates decides it. *)
Definition samePoint (p q : Point) : bool :=
  (X p =? X q)%float && (Y p =? Y q)%float.

(** A point with finite coordinates: neither an infinity nor a NaN. *)
Definition finitePoint (p : Point) : bool :=
  is_finite (X p) && is_finite (Y p).

(** Readings of a float through its IEEE 754 specification: a zero of either
    sign; a zero or a finite number; and two values that [==] cannot tell
    apart, being the same value or two zeros. *)
Definition isZero (a : spec_float) : Prop := exists s, a = S754_zero s.

Definition finiteSF (a : spec_float) : bool :=
  match a with
  | S754_zero _ | S754_finite _ _ _ => true
  | _ => false
  end.

Definition sameSF (a b : spec_float) : Prop :=
  a = b \/ (isZero a /\ isZero b).

(** What [generateBezierPath] computes before its loop: the number of points
    of the curve, [distance/10 + 10], and the two control points, a quarter
    and three quarters of the way and pushed aside by the four draws. *)
Definition pathSteps (start end_ : Point) : Z :=
  let distance :=
    GoMath.Sqrt (GoMath.Pow2 (X end_ - X start)
                 + GoMath.Pow2 (Y end_ - Y start))%float in
  GoInt.add (GoFloat.int_of_float64 (distance / 10)%float) 10.

Definition nthDraw (g : GoRand.Rand) (k : nat) : float :=
  fst (GoRand.Float64 (skipn k g)).

Definition pathControl (start end_ : Point) (along r s : float) : Point :=
  let distance :=
    GoMath.Sqrt (GoMath.Pow2 (X end_ - X start)
                 + GoMath.Pow2 (Y end_ - Y start))%float in
  let offsetRange := (distance * 0.3)%float in
  {| X := (X start + (X end_ - X start) * along + (r - 0.5) * offsetRange)%float;
     Y := (Y start + (Y end_ - Y start) * along + (s - 0.5) * offsetRange)%float |}.

Definition pathControls (start end_ : Point) (g : GoRand.Rand)
    : Point * Point :=
  (pathControl start end_ 0.25 (nthDraw g 0) (nthDraw g 1),
   pathControl start end_ 0.75 (nthDraw g 2) (nthDraw g 3)).

(** The ratios [0/k] and [k/k] of the loop's parameter are exactly 0 and 1. *)
Definition unitRatios (k : Z) : bool :=
  PrimFloat.Leibniz.eqb
    (GoFloat.float64_of_int 0 / GoFloat.float64_of_int k)%float 0%float
  && PrimFloat.Leibniz.eqb
       (GoFloat.float64_of_int k / GoFloat.float64_of_int k)%float 1%float.

(** The raw draw that makes [Float64] return one half. *)
Definition half : Z := 2 ^ 52.

(** Draws for a move with an overshoot: four for the control points, the
    draw 0 for the overshoot decision, then an overshoot of 10 pixels with a
    positive sign on both axes and three correction steps. *)
Definition overshootTape : GoRand.Rand :=
  [half; half; half; half; 0; half; half; half; half; 0].

(** Draws for a move without an overshoot: the decision draw is one half. *)
Definition plainTape : GoRand.Rand := [half; half; half; half; half].

(** ** Movement delays *)

(** The slowest delay of a configuration, [int(MouseSpeedMax * 15)], and the
    fastest, [int(MouseSpeedMin * 5)]. *)
Definition slowest (cfg : StealthConfig) : Z :=
  GoFloat.int_of_float64 (MouseSpeedMax cfg * 15).

Definition fastest (cfg : StealthConfig) : Z :=
  GoFloat.int_of_float64 (MouseSpeedMin cfg * 5).

(** The amount the sine weighting takes off the slowest delay at a step:
    [int(float64(maxDelay-minDelay) * sin(pi * step / totalSteps))]. *)
Definition easeDrop (Sin : float -> float) (cfg : StealthConfig)
    (step totalSteps : Z) : Z :=
  GoFloat.int_of_float64
    (GoFloat.float64_of_int (GoInt.sub (slowest cfg) (fastest cfg))
     * Sin (GoFloat.float64_of_int step / GoFloat.float64_of_int totalSteps
            * GoMath.Pi))%float.

(** Delays far from the ends of the 64-bit range. *)
Definition small (z : Z) : Prop := - 2 ^ 31 <= z <= 2 ^ 31.

(** The decidable form of [small], and of the condition of the ease law at a
    number of steps: the drop at the middle step is at least 3 above the drop
    at step 0 and at the last step, all three being small. *)
Definition smallb (z : Z) : bool := (- 2 ^ 31 <=? z) && (z <=? 2 ^ 31).

Definition gapOk (Sin : float -> float) (cfg : StealthConfig) (totalSteps : Z)
    : bool :=
  let first := easeDrop Sin cfg 0 totalSteps in
  let mid := easeDrop Sin cfg (totalSteps / 2) totalSteps in
  let last := easeDrop Sin cfg (totalSteps - 1) totalSteps in
  (first + 3 <=? mid) && (last + 3 <=? mid)
  && smallb first && smallb mid && smallb last.

(** The numbers of steps from 4 to 1000. *)
Definition stepCounts : list Z := map Z.of_nat (seq 4 997).

(** ** Typing *)

(** The text field after the events [evs], starting from the content [buf]:
    a keystroke appends its rune, Backspace removes the last rune. *)
Fixpoint replay (evs : list Event) (buf : list Z) : list Z :=
  match evs with
  | [] => buf
  | EvInput r :: evs => replay evs (buf ++ [r])
  | EvBackspace :: evs => replay evs (removelast buf)
  | EvSleep _ :: evs => replay evs buf
  end.

(** The runes typed, in order, and the number of deletions. *)
Fixpoint typed (evs : list Event) : list Z :=
  match evs with
  | [] => []
  | EvInput r :: evs => r :: typed evs
  | _ :: evs => typed evs
  end.

Fixpoint deletions (evs : list Event) : nat :=
  match evs with
  | [] => 0%nat
  | EvBackspace :: evs => S (deletions evs)
  | _ :: evs => deletions evs
  end.

(** A character the adjacency table has no entry for: a digit, a
    punctuation mark, any rune that is no ASCII letter. *)
Definition outsideTable (char : Z) : Prop :=
  adjacentKeys !! (if isUpper char then char + 32 else char) = None.

(** The page accepts every keystroke still to come. *)
Definition noFaults (w : World) : Prop :=
  Forall (fun b => b = false) (faults w).

(** What one round of the loop may emit for [char]: the character and the
    pause after it, or before these a mistaken keystroke, a pause, a
    Backspace and a pause. *)
Definition roundShape (char : Z) (evs : list Event) : Prop :=
  (exists d, evs = [EvInput char; EvSleep d])
  \/ (exists wrong a b d,
        evs = [EvInput wrong; EvSleep a; EvBackspace; EvSleep b;
               EvInput char; EvSleep d]
        /\ (outsideTable char -> wrong = char)).

(** The events of a whole text: one round after the other. *)
Inductive textShape : list Z -> list Event -> Prop :=
| shape_nil : textShape [] []
| shape_cons char text evs1 evs2 :
    roundShape char evs1 -> textShape text evs2 ->
    textShape (char :: text) (evs1 ++ evs2).

(** ** A weakest-precondition reading of the monad *)

(** [m] run in [w] returns without a panic, and its value and final state
    satisfy [Q]. *)
Definition ensures {A : Type} (m : M A) (w : World)
    (Q : A -> World -> Prop) : Prop :=
  exists a w', m w = Ok (a, w') /\ Q a w'.

(** The world after one draw, after an event, and after a keystroke the page
    accepted. *)
Definition drawn (w : World) : World :=
  mkWorld (snd (GoRand.next (tape w))) (faults w) (trace w).

Definition after (e : Event) (w : World) : World :=
  mkWorld (tape w) (faults w) (trace w ++ [e]).

Definition keyed (r : Z) (w : World) : World :=
  mkWorld (tape w) (tl (faults w)) (trace w ++ [EvInput r]).

(** A step that emits nothing and leaves the page's answers alone. *)
Definition quiet (w w1 : World) : Prop :=
  trace w1 = trace w /\ faults w1 = faults w.

(** The outcome of a round that typed its character: no error, a page that
    still accepts everything, and the events of one of the two shapes. *)
Definition roundDone (char : Z) (w : World) (err : GoStr.error) (w' : World)
    : Prop :=
  err = None /\ noFaults w'
  /\ exists evs, trace w' = trace w ++ evs /\ roundShape char evs.

Import messaging connection.

(** ** Loading a configuration *)

(** The updates of a list made one after the other. *)
Definition runAll (l : list (Config -> Config)) (c : Config) : Config :=
  fold_left (fun c f => f c) l c.

(** A process environment that sets the two credentials and nothing else, a
    file system without the configuration file, and a decoder that is never
    reached. *)
Definition credentialsEnv (name : string) : string :=
  if String.eqb name "LINKEDIN_EMAIL" then "user@example.com"
  else if String.eqb name "LINKEDIN_PASSWORD" then "secret"
  else "".

Definition noFile (path : string) : string + (bool * string) :=
  inr (true, "no such file or directory").

Definition noYaml (data : string) (c : Config) : Config + string :=
  inr "yaml: unmarshal errors".

(** ** Waiting for the operating hours *)

(** A reading of the clock outside the operating hours. *)
Definition closed (cfg : ScheduleConfig) (t : Time) : Prop :=
  IsWithinOperatingHours cfg t = false.

(** ** Letters *)

Definition isLower (char : Z) : bool := (rune "a" <=? char) && (char <=? rune "z").

(** A mistaken key for a lower-case letter: another lower-case letter. *)
Definition otherLower (k r : Z) : bool := isLower r && negb (r =? k).

(** ** The page *)

(** The page accepts every call still to come. *)
Definition accepting (s : Stage) : Prop :=
  Forall (fun e => e = None) (answers s).

(** The stage after one draw, after a call to the page and after a sleep. *)
Definition pulled (s : Stage) : Stage :=
  mkStage (snd (GoRand.next (gen s))) (answers s) (calls s).

Definition called (c : Call) (s : Stage) : Stage :=
  mkStage (gen s) (tl (answers s)) (calls s ++ [c]).

Definition slept (ms : Z) (s : Stage) : Stage :=
  mkStage (gen s) (answers s) (calls s ++ [CallSleep (GoInt.mul ms Millisecond)]).

(** The scrolls of the wheel, the moves of the pointer and the scripts
    among a list of calls. *)
Definition wheel (cs : list Call) : list (float * Z) :=
  flat_map (fun c => match c with CallScroll dy k => [(dy, k)] | _ => [] end) cs.

Definition pointer (cs : list Call) : list Point :=
  flat_map (fun c => match c with CallMove x y => [mkPoint x y] | _ => [] end) cs.

Definition total (l : list Z) : Z := fold_right Z.add 0 l.

(** One step of the main scroll and the scroll back, for a direction. *)
Definition scrollOf (direction : string) (increment : Z) : float * Z :=
  (if String.eqb direction "up"
   then (- GoFloat.float64_of_int increment)%float
   else GoFloat.float64_of_int increment, 1).

Definition scrollBackOf (direction : string) (amount : Z) : float * Z :=
  (if String.eqb direction "down"
   then (- GoFloat.float64_of_int amount)%float
   else GoFloat.float64_of_int amount, 5).

(** [m] run in [s] returns without a panic, and its value and final stage
    satisfy [Q]. *)
Definition sensures {S A : Type} (m : StateM S A) (s : S)
    (Q : A -> S -> Prop) : Prop :=
  exists a s', m s = Ok (a, s') /\ Q a s'.

(** The calls [s'] has made since [s]. *)
Definition since (s s' : Stage) (new : list Call) : Prop :=
  calls s' = calls s ++ new.

(** The moves of the pointer for the points of a plan from the index [i] on:
    each point in turn, and after a point among the last four one further
    move when micro-corrections are on. *)
Fixpoint visits (micro : bool) (n i : Z) (points moves : list Point) : Prop :=
  match points with
  | [] => moves = []
  | p :: rest =>
      if micro && (i >? n - 5)
      then exists q moves', moves = p :: q :: moves'
                            /\ visits micro n (i + 1) rest moves'
      else exists moves', moves = p :: moves'
                          /\ visits micro n (i + 1) rest moves'
  end.

(** The sleeps among a list of calls. *)
Definition sleeps (cs : list Call) : list Z :=
  flat_map (fun c => match c with CallSleep d => [d] | _ => [] end) cs.

(** The scripts [ApplyFingerprintMasking] evaluates for a configuration and a
    hardware value. *)
Definition maskingScripts (cfg : StealthConfig) (value : string) : list string :=
  (if DisableWebdriver cfg then [webdriverScript] else [])
  ++ [chromeScript; hardwareScript value].

(** ** Sessions of the rate limiter *)

(** The session after one reading of the clock, and with its limiter
    replaced. *)
Definition later (s : Session) : Session :=
  mkSession (limiter s) (fun n => readings s (S n)).

Definition withLimiter (r : RateLimiter) (s : Session) : Session :=
  mkSession r (readings s).

(** Every reading to come falls on the day of the reset marker. *)
Definition withinTheDay (s : Session) : Prop :=
  forall n, sameDay (readings s n) (lastReset (limiter s)).

(** The delay range between actions is in order. *)
Definition delaysInOrder (cfg : RateLimitConfig) : Prop :=
  0 <= MinDelayBetweenActions cfg < MaxDelayBetweenActions cfg
  /\ MaxDelayBetweenActions cfg <= 1000000000.

(** An outcome of the page that is no panic. *)
Definition returns {A : Type} (r : result A) : Prop := exists a, r = Ok a.

(** The limiter of the session keeps the configuration [cfg] and the counter
    of the category [a] between 0 and [quota]. *)
Definition withinQuota (cfg : RateLimitConfig) (a : string) (quota : Z)
    (s : Session) : Prop :=
  rl_config (limiter s) = cfg
  /\ 0 <= count (actionCounts (limiter s)) a <= quota.

(** The counter of a category in the limiter of a session. *)
Definition counted (a : string) (s : Session) : Z :=
  count (actionCounts (limiter s)) a.

(** A stage with the draws [g], an accommodating page and no call made. *)
Definition freshStage (g : GoRand.Rand) : Stage := mkStage g [] [].

(** The scroll speeds of a stealth configuration replaced. *)
Definition set_ScrollSpeed (lo hi : Z) (s : StealthConfig) : StealthConfig :=
  {| MouseSpeedMin := MouseSpeedMin s; MouseSpeedMax := MouseSpeedMax s;
     MouseOvershoot := MouseOvershoot s;
     MouseMicroCorrect := MouseMicroCorrect s;
     TypingDelayMin := TypingDelayMin s; TypingDelayMax := TypingDelayMax s;
     TypingMistakeRate := TypingMistakeRate s;
     ScrollSpeedMin := lo; ScrollSpeedMax := hi;
     ScrollBackChance := ScrollBackChance s;
     ActionDelayMin := ActionDelayMin s; ActionDelayMax := ActionDelayMax s;
     PageLoadWaitMin := PageLoadWaitMin s; PageLoadWaitMax := PageLoadWaitMax s;
     RandomizeViewport := RandomizeViewport s;
     DisableWebdriver := DisableWebdriver s;
     RandomUserAgent := RandomUserAgent s |}.

(** A session of a new limiter with the quotas of [quota 5 2 20 3], created
    at 09:30, every later reading of the clock being 11:05 of that day. *)
Definition morning : Session :=
  mkSession (NewRateLimiter (quota 5 2 20 3) t0930 []) (fun _ => t1105).

(* ===================================================================== *)
(** * The rate limiter *)
(* ===================================================================== *)

Lemma wrap64_small z : GoInt.in_int64 z -> GoInt.wrap64 z = z.
Proof.
  unfold GoInt.in_int64, GoInt.min_int64, GoInt.max_int64, GoInt.wrap64.
  intros H. rewrite Z.mod_small; lia.
Qed.

Lemma count_insert_eq (m : gmap string Z) k v : count (<[k := v]> m) k = v.
Proof. unfold count. by rewrite lookup_insert_eq. Qed.

Lemma count_insert_ne (m : gmap string Z) k k' v :
  k <> k' -> count (<[k := v]> m) k' = count m k'.
Proof. intros H. unfold count. by rewrite lookup_insert_ne. Qed.

Lemma count_empty k : count ∅ k = 0.
Proof. unfold count. by rewrite lookup_empty. Qed.

(** [checkReset] when the day of the marker is the current day: only the
    hourly branch can fire. *)
Lemma checkReset_same_day now r :
  sameDay now (lastReset r) ->
  checkReset now r =
    if negb (Hour now =? Hour (lastReset r))
    then set_counts (<["search" := 0]> (actionCounts r)) r
    else r.
Proof.
  intros [Hy Hd]. unfold checkReset.
  rewrite Hy, Hd, !Z.eqb_refl. reflexivity.
Qed.

(** [checkReset] when the calendar day has advanced: the three daily counters
    are zeroed and the marker moves to the present; the search counter is
    left as it was, the hourly branch comparing the present with itself. *)
Lemma checkReset_new_day now r :
  ~ sameDay now (lastReset r) ->
  checkReset now r =
    set_lastReset now
      (set_counts (<["profile_view" := 0]>
                     (<["message" := 0]>
                        (<["connection" := 0]> (actionCounts r)))) r).
Proof.
  intros Hn. unfold checkReset.
  destruct (YearDay now =? YearDay (lastReset r)) eqn:Ed;
    destruct (Year now =? Year (lastReset r)) eqn:Ey; simpl;
    try (rewrite Z.eqb_refl; reflexivity).
  exfalso. apply Hn. split; lia.
Qed.

Lemma checkReset_config now r : rl_config (checkReset now r) = rl_config r.
Proof.
  unfold checkReset.
  repeat match goal with |- context [if ?b then _ else _] => destruct b end;
    reflexivity.
Qed.

Lemma checkReset_daily_counts now r k :
  sameDay now (lastReset r) -> k <> "search" ->
  count (actionCounts (checkReset now r)) k = count (actionCounts r) k.
Proof.
  intros Hs Hk. rewrite checkReset_same_day by assumption.
  destruct (negb _); [| reflexivity].
  simpl. by rewrite count_insert_ne.
Qed.

Lemma checkReset_lastReset_same_day now r :
  sameDay now (lastReset r) -> lastReset (checkReset now r) = lastReset r.
Proof.
  intros Hs. rewrite checkReset_same_day by assumption.
  destruct (negb _); reflexivity.
Qed.

(** On a day without a daily reset every check in an hour other than the
    marker's zeroes the search counter and leaves the marker where it was. *)
Lemma checkReset_search_zeroed now r :
  sameDay now (lastReset r) -> Hour now <> Hour (lastReset r) ->
  count (actionCounts (checkReset now r)) "search" = 0
  /\ lastReset (checkReset now r) = lastReset r.
Proof.
  intros Hs Hh. rewrite checkReset_same_day by assumption.
  destruct (Z.eqb_spec (Hour now) (Hour (lastReset r))) as [E | _]; [done |].
  simpl. split; [apply count_insert_eq | reflexivity].
Qed.

Lemma limitOf_unknown cfg a :
  a <> "connection" -> a <> "message" -> a <> "profile_view" -> a <> "search" ->
  limitOf cfg a = None.
Proof.
  intros H1 H2 H3 H4. unfold limitOf.
  repeat match goal with
         | |- context [String.eqb a ?s] =>
             destruct (String.eqb_spec a s); [congruence |]
         end.
  reflexivity.
Qed.

Lemma RecordAction_count_eq t a r :
  count (actionCounts (RecordAction t a r)) a
  = GoInt.add (count (actionCounts r) a) 1.
Proof. unfold RecordAction; simpl. apply count_insert_eq. Qed.

Lemma RecordAction_count_ne t a b r :
  a <> b ->
  count (actionCounts (RecordAction t a r)) b = count (actionCounts r) b.
Proof. intros H. unfold RecordAction; simpl. by apply count_insert_ne. Qed.

Lemma RecordAction_frame t a r :
  rl_config (RecordAction t a r) = rl_config r
  /\ lastReset (RecordAction t a r) = lastReset r.
Proof. split; reflexivity. Qed.

Lemma recordAll_frame a ts r :
  rl_config (recordAll a ts r) = rl_config r
  /\ lastReset (recordAll a ts r) = lastReset r.
Proof.
  revert r. induction ts as [| t ts IH]; intros r; simpl; [done |].
  destruct (IH (RecordAction t a r)) as [-> ->]. apply RecordAction_frame.
Qed.

Lemma recordAll_count_ne a b ts r :
  a <> b -> count (actionCounts (recordAll a ts r)) b = count (actionCounts r) b.
Proof.
  intros H. revert r. induction ts as [| t ts IH]; intros r; simpl; [done |].
  rewrite IH. by apply RecordAction_count_ne.
Qed.

Lemma recordAll_count_eq a ts r :
  0 <= count (actionCounts r) a ->
  count (actionCounts r) a + Z.of_nat (length ts) <= GoInt.max_int64 ->
  count (actionCounts (recordAll a ts r)) a
  = count (actionCounts r) a + Z.of_nat (length ts).
Proof.
  revert r. induction ts as [| t ts IH]; intros r H0 Hmax; simpl.
  - lia.
  - simpl length in Hmax.
    assert (E : count (actionCounts (RecordAction t a r)) a
                = count (actionCounts r) a + 1).
    { rewrite RecordAction_count_eq. unfold GoInt.add.
      apply wrap64_small.
      unfold GoInt.in_int64, GoInt.min_int64, GoInt.max_int64 in *. lia. }
    rewrite IH; rewrite E; lia.
Qed.

(** C1 (the code departs from the claim).  A limiter made at 09:30 with a
    quota of 3 searches an hour is checked at 11:05: the hour has advanced and
    the search counter is zeroed, but the reset marker stays at 09:30.  Three
    searches are then recorded at 11:06; the next check, at 11:10 in the same
    hour, zeroes the counter once more, so that the limiter still permits a
    search and reports all 3 as remaining.  And when it is the day that
    advances, the marker moves but the search counter is kept: three searches
    recorded at 09:30 still exhaust the quota at 11:05 of the next day. *)
Theorem checkReset_zeroes_search_again_within_hour :
  let r0 := NewRateLimiter (quota 5 10 20 3) t0930 [] in
  let r1 := checkReset t1105 r0 in
  let r2 := recordAll "search" [t1106; t1106; t1106] r1 in
  let r3 := checkReset t1110 r2 in
  let s0 := recordAll "search" [t0930; t0930; t0930] r0 in
  let s1 := checkReset nextDay1105 s0 in
  (lastReset r1 = t0930
   /\ count (actionCounts r1) "search" = 0
   /\ count (actionCounts r2) "search" = 3
   /\ count (actionCounts r3) "search" = 0
   /\ fst (CanPerformAction t1110 "search" r2) = true
   /\ fst (GetRemainingActions t1110 "search" r2) = 3)
  /\ (lastReset s1 = nextDay1105
      /\ count (actionCounts s1) "search" = 3
      /\ fst (CanPerformAction nextDay1105 "search" s0) = false).
Proof. vm_compute. repeat split; reflexivity. Qed.

(** C2, counterexample.  With five connections a day and no message quota
    (the zero value of the field), a message is refused after the five
    recorded connections, as it is before them. *)
Lemma message_refused_without_quota :
  fst (CanPerformAction t0930 "message"
         (recordAll "connection" [t0930; t0930; t0930; t0930; t0930]
            (NewRateLimiter (quota 5 0 0 0) t0930 []))) = false
  /\ fst (CanPerformAction t0930 "message"
            (NewRateLimiter (quota 5 0 0 0) t0930 [])) = false.
Proof. vm_compute. split; reflexivity. Qed.

(** C2, amended.  A fresh limiter with [MaxConnectionsPerDay = 5], five
    [RecordAction("connection")] calls at any times, then the three queries in
    turn, each on the day the limiter was made: a connection is refused, none
    remains, and a message is permitted exactly when the message quota is
    positive, the message counter being untouched. *)
Theorem five_connections_exhaust_only_connections
    (cfg : RateLimitConfig) (t0 : Time) (seed : GoRand.Rand)
    (ts : list Time) (q1 q2 q3 : Time) :
  MaxConnectionsPerDay cfg = 5 ->
  length ts = 5%nat ->
  sameDay q1 t0 -> sameDay q2 t0 -> sameDay q3 t0 ->
  let r5 := recordAll "connection" ts (NewRateLimiter cfg t0 seed) in
  let a1 := CanPerformAction q1 "connection" r5 in
  let a2 := GetRemainingActions q2 "connection" (snd a1) in
  let a3 := CanPerformAction q3 "message" (snd a2) in
  fst a1 = false /\ fst a2 = 0
  /\ fst a3 = (0 <? MaxMessagesPerDay cfg)
  /\ count (actionCounts (snd a3)) "message" = 0.
Proof.
  intros Hmax Hlen H1 H2 H3 r5 a1 a2 a3.
  destruct (recordAll_frame "connection" ts (NewRateLimiter cfg t0 seed))
    as [Hcfg Hreset]. fold r5 in Hcfg, Hreset. simpl in Hcfg, Hreset.
  assert (Hconn : count (actionCounts r5) "connection" = 5).
  { unfold r5. rewrite recordAll_count_eq; simpl; rewrite ?count_empty, ?Hlen;
      unfold GoInt.max_int64; lia. }
  assert (Hmsg : count (actionCounts r5) "message" = 0).
  { unfold r5. rewrite recordAll_count_ne by done. apply count_empty. }
  (* the first query *)
  set (s1 := checkReset q1 r5).
  assert (S1 : rl_config s1 = cfg /\ lastReset s1 = t0
               /\ count (actionCounts s1) "connection" = 5
               /\ count (actionCounts s1) "message" = 0).
  { unfold s1. rewrite checkReset_config, checkReset_lastReset_same_day,
      !checkReset_daily_counts by (rewrite ?Hreset; done). done. }
  destruct S1 as (C1 & L1 & N1 & M1).
  assert (A1 : a1 = (false, s1)).
  { unfold a1, CanPerformAction. fold s1. rewrite C1. simpl.
    rewrite N1, Hmax. reflexivity. }
  (* the second query *)
  set (s2 := checkReset q2 s1).
  assert (S2 : rl_config s2 = cfg /\ lastReset s2 = t0
               /\ count (actionCounts s2) "connection" = 5
               /\ count (actionCounts s2) "message" = 0).
  { unfold s2. rewrite checkReset_config, checkReset_lastReset_same_day,
      !checkReset_daily_counts by (rewrite ?L1; done). done. }
  destruct S2 as (C2 & L2 & N2 & M2).
  assert (A2 : a2 = (0, s2)).
  { unfold a2, GetRemainingActions. rewrite A1. simpl. fold s2. rewrite C2.
    simpl. rewrite N2, Hmax. reflexivity. }
  (* the third query *)
  set (s3 := checkReset q3 s2).
  assert (S3 : rl_config s3 = cfg
               /\ count (actionCounts s3) "message" = 0).
  { unfold s3. rewrite checkReset_config,
      !checkReset_daily_counts by (rewrite ?L2; done). done. }
  destruct S3 as (C3 & M3).
  assert (A3 : a3 = (0 <? MaxMessagesPerDay cfg, s3)).
  { unfold a3, CanPerformAction. rewrite A2. simpl. fold s3. rewrite C3.
    simpl. rewrite M3.
    destruct (Z.ltb_spec 0 (MaxMessagesPerDay cfg));
      destruct (Z.geb_spec 0 (MaxMessagesPerDay cfg)); (reflexivity || lia). }
  rewrite A1, A2, A3. simpl. done.
Qed.

Lemma five_connections_witness :
  let cfg := quota 5 10 20 3 in
  let r5 := recordAll "connection" [t0930; t1105; t1106; t1106; t1110]
              (NewRateLimiter cfg t0930 [7]) in
  let a1 := CanPerformAction t1110 "connection" r5 in
  let a2 := GetRemainingActions t1110 "connection" (snd a1) in
  let a3 := CanPerformAction t1110 "message" (snd a2) in
  fst a1 = false /\ fst a2 = 0 /\ fst a3 = true
  /\ count (actionCounts (snd a3)) "message" = 0.
Proof.
  apply (five_connections_exhaust_only_connections (quota 5 10 20 3) t0930 [7]
           [t0930; t1105; t1106; t1106; t1110] t1110 t1110 t1110);
    try reflexivity; split; reflexivity.
Defined.

(** C10.  A category outside the four known ones is always permitted, and
    its remaining count is the constant 999, whatever the counters hold and
    whatever the clock reads. *)
Theorem unknown_category_unlimited
    (actionType : string) (now : Time) (r : RateLimiter) :
  actionType <> "connection" -> actionType <> "message" ->
  actionType <> "profile_view" -> actionType <> "search" ->
  fst (CanPerformAction now actionType r) = true
  /\ fst (GetRemainingActions now actionType r) = 999.
Proof.
  intros H1 H2 H3 H4.
  unfold CanPerformAction, GetRemainingActions.
  rewrite !limitOf_unknown by assumption. split; reflexivity.
Qed.

Lemma unknown_category_witness :
  let r := recordAll "like" [t1105; t1106]
             (NewRateLimiter (quota 0 0 0 0) t0930 []) in
  fst (CanPerformAction t1110 "like" r) = true
  /\ fst (GetRemainingActions t1110 "like" r) = 999.
Proof.
  apply (unknown_category_unlimited "like" t1110); discriminate.
Defined.

(* ===================================================================== *)
(** * The scheduler *)
(* ===================================================================== *)





(* ===================================================================== *)
(** * Configuration validation *)
(* ===================================================================== *)

Lemma validLevels_spec (l : string) :
  default false (validLevels !! l) = true
  <-> In l ["debug"; "info"; "warn"; "error"].
Proof.
  unfold validLevels. split.
  - intros H.
    destruct (decide (l = "error")) as [-> | N1]; [simpl; tauto |].
    destruct (decide (l = "warn")) as [-> | N2]; [simpl; tauto |].
    destruct (decide (l = "info")) as [-> | N3]; [simpl; tauto |].
    destruct (decide (l = "debug")) as [-> | N4]; [simpl; tauto |].
    rewrite !lookup_insert_ne, lookup_empty in H by done. discriminate.
  - simpl. intros [<- | [<- | [<- | [<- | []]]]]; reflexivity.
Qed.

Lemma Validate_accepts_iff (c : Config) : Validate c = None <-> checked c.
Proof.
  unfold Validate, checked.
  destruct (String.eqb_spec (Email (LinkedIn c)) "") as [E1 | E1];
    [split; [discriminate | tauto] |].
  destruct (String.eqb_spec (Password (LinkedIn c)) "") as [E2 | E2];
    [split; [discriminate | tauto] |].
  destruct (Z.ltb_spec (MaxConnectionsPerDay (RateLimits c)) 0);
    [split; [discriminate | lia] |].
  destruct (Z.gtb_spec (MaxConnectionsPerDay (RateLimits c)) 100);
    [split; [discriminate | lia] |].
  destruct (Z.ltb_spec (MaxMessagesPerDay (RateLimits c)) 0);
    [split; [discriminate | lia] |].
  destruct (Z.gtb_spec (MaxMessagesPerDay (RateLimits c)) 150);
    [split; [discriminate | lia] |].
  destruct (Z.ltb_spec (StartHour (Schedule c)) 0);
    [split; [discriminate | lia] |].
  destruct (Z.gtb_spec (StartHour (Schedule c)) 23);
    [split; [discriminate | lia] |].
  destruct (Z.ltb_spec (EndHour (Schedule c)) 0);
    [split; [discriminate | lia] |].
  destruct (Z.gtb_spec (EndHour (Schedule c)) 23);
    [split; [discriminate | lia] |].
  simpl.
  destruct (default false (validLevels !! Level (Logging c))) eqn:EL; simpl.
  - apply validLevels_spec in EL. split; [intros _ | reflexivity].
    repeat split; (assumption || lia).
  - split; [discriminate |].
    intros (_ & _ & _ & _ & _ & _ & HL). apply validLevels_spec in HL.
    congruence.
Qed.

(** C9, counterexample.  The configuration with reversed delay ranges passes
    [Validate], and [LoadConfig] returns it without an error when the file
    holds it. *)
Lemma reversed_delays_accepted :
  MaxDelayBetweenActions (RateLimits reversedDelays)
    < MinDelayBetweenActions (RateLimits reversedDelays)
  /\ TypingDelayMax (Stealth reversedDelays)
       < TypingDelayMin (Stealth reversedDelays)
  /\ Validate reversedDelays = None
  /\ LoadConfig (fun _ => "") (fun _ => inl "reversed delays")
       (fun _ _ => inl reversedDelays) "config.yaml" = inl reversedDelays.
Proof. repeat split. Qed.

(** C9, amended.  [Validate] accepts a configuration exactly when the
    credentials are not empty, the two daily quotas and the two schedule hours
    are in their ranges and the log level is a known one; no delay bound takes
    part, so the verdict is the same whatever the delay between actions and
    the stealth settings are. *)
Theorem Validate_ignores_delay_ranges (c : Config) :
  (Validate c = None <-> checked c)
  /\ forall (s : StealthConfig) (lo hi : Z),
       Validate (set_Stealth s (set_DelayBetweenActions lo hi c)) = Validate c.
Proof.
  split; [apply Validate_accepts_iff |].
  intros s lo hi. reflexivity.
Qed.

(** C4 (the code departs from the claim).  A configuration that passes
    [Validate] and whose two delay bounds are both 2000 ms: whatever the
    generator and the clock, [WaitForNextAction] panics, [Int63n] being called
    with the bound 0. *)
Theorem WaitForNextAction_panics_on_equal_delays
    (t0 now : Time) (seed : GoRand.Rand) :
  let c := set_DelayBetweenActions 2000 2000 (withCredentials DefaultConfig) in
  Validate c = None
  /\ WaitForNextAction now (NewRateLimiter (RateLimits c) t0 seed)
     = Panic "invalid argument to Int63n".
Proof. split; reflexivity. Qed.

(* ===================================================================== *)
(** * The fingerprint value *)
(* ===================================================================== *)

(** Whatever is drawn, the value is one of four one-rune strings, the runes
    being 48 plus 4, 8, 12 and 16. *)
Lemma randomHardwareConcurrency_values (w : World) :
  exists v, randomHardwareConcurrency w = Ok (v, drawn w)
            /\ In v ["4"; "8"; "<"; "@"].
Proof.
  unfold randomHardwareConcurrency, bind, randIntn, GoRand.Intn, ret, drawn.
  change (Z.of_nat (length cores)) with 4. change (4 <=? 0) with false.
  cbv iota. destruct (GoRand.next (tape w)) as [x g]. cbv iota beta.
  assert (H : 0 <= x mod 4 < 4) by (apply Z.mod_pos_bound; lia).
  assert (E : x mod 4 = 0 \/ x mod 4 = 1 \/ x mod 4 = 2 \/ x mod 4 = 3) by lia.
  destruct E as [-> | [-> | [-> | ->]]]; eexists; (split; [reflexivity |]);
    simpl; tauto.
Qed.

(** C7 (the code departs from the claim).  When the draw selects 12 or 16 the
    value is the one-rune string of code 60 or 64, which is no decimal
    numeral, and that rune is what the script receives. *)
Theorem randomHardwareConcurrency_not_decimal
    (rest : GoRand.Rand) (fs : list bool) (tr : list Event) :
  randomHardwareConcurrency (mkWorld (2 :: rest) fs tr)
    = Ok ("<", mkWorld rest fs tr)
  /\ randomHardwareConcurrency (mkWorld (3 :: rest) fs tr)
     = Ok ("@", mkWorld rest fs tr)
  /\ GoStr.Atoi "<" = None /\ GoStr.Atoi "@" = None
  /\ hardwareConcurrencyScript (mkWorld (2 :: rest) fs tr)
     = Ok ("Object.defineProperty(navigator, 'hardwareConcurrency', { get: () => < });",
           mkWorld rest fs tr).
Proof. repeat split. Qed.

(** The two single-digit counts are rendered as their numerals. *)
Lemma randomHardwareConcurrency_single_digit
    (rest : GoRand.Rand) (fs : list bool) (tr : list Event) :
  randomHardwareConcurrency (mkWorld (0 :: rest) fs tr)
    = Ok ("4", mkWorld rest fs tr)
  /\ randomHardwareConcurrency (mkWorld (1 :: rest) fs tr)
     = Ok ("8", mkWorld rest fs tr)
  /\ GoStr.Atoi "4" = Some 4 /\ GoStr.Atoi "8" = Some 8.
Proof. repeat split. Qed.

(* ===================================================================== *)
(** * Motion plans *)
(* ===================================================================== *)

(** C5 (the code departs from the claim).  A move to the point (0.1, 0.1)
    with an overshoot: the plan has 92 points, starts at the assumed pointer
    position, and its last point, the end of the correction tail, is
    (0.099999999999999645, 0.099999999999999645), not the target.  The same
    move without the overshoot ends on the target. *)
Theorem overshoot_tail_misses_target :
  let cfg := Stealth DefaultConfig in
  let plan := MoveMouse_points cfg 0.1 0.1 (mkWorld overshootTape [] []) in
  let plain := MoveMouse_points cfg 0.1 0.1 (mkWorld plainTape [] []) in
  length (pointsOf plan) = 92%nat
  /\ hd_error (pointsOf plan) = Some (mkPoint 683 384)
  /\ lastPoint plan = Some (mkPoint 0.099999999999999645 0.099999999999999645)
  /\ option_map (samePoint (mkPoint 0.1 0.1)) (lastPoint plan) = Some false
  /\ length (pointsOf plain) = 88%nat
  /\ lastPoint plain = Some (mkPoint 0.1 0.1).
Proof. vm_compute. repeat split; reflexivity. Qed.

(** The correction tail alone, after an empty path: the overshoot point, two
    steps back and the last step, which rounding leaves short of the target. *)
Example addOvershoot_tail :
  pointsOf (addOvershoot [] 0.1 0.1 (mkWorld [half; half; half; half; 0] [] []))
  = [ mkPoint 10.1 10.1;
      mkPoint 6.7666666666666666 6.7666666666666666;
      mkPoint 3.4333333333333336 3.4333333333333336;
      mkPoint 0.099999999999999645 0.099999999999999645 ].
Proof. vm_compute. reflexivity. Qed.

(** A target away from the edge: the tail ends on the target. *)
Example addOvershoot_far_target :
  lastPoint (addOvershoot [] 640.3 400.7
               (mkWorld [half; half; half; half; 0] [] []))
  = Some (mkPoint 640.3 400.7).
Proof. vm_compute. reflexivity. Qed.

(** The degenerate move, start and end equal: ten points, all of them the
    target, and no panic. *)
Example generateBezierPath_degenerate :
  generateBezierPath (mkPoint 5 5) (mkPoint 5 5) (mkWorld [1; 2; 3; 4] [] [])
  = Ok (repeat (mkPoint 5 5) 10, mkWorld [] [] []).
Proof. vm_compute. reflexivity. Qed.

(** The interpolation law of the curve on the points of the package's test. *)
Example cubicBezier_ends :
  cubicBezier 0 (mkPoint 0 0) (mkPoint 25 25) (mkPoint 75 75) (mkPoint 100 100)
    = mkPoint 0 0
  /\ cubicBezier 1 (mkPoint 0 0) (mkPoint 25 25) (mkPoint 75 75)
       (mkPoint 100 100) = mkPoint 100 100.
Proof. vm_compute. split; reflexivity. Qed.

(* ===================================================================== *)
(** * Movement delays *)
(* ===================================================================== *)

Section AnySine.

Variable Sin : float -> float.

(** The delay is the slowest delay less the eased drop, plus a jitter of 0, 1
    or 2 read off the next draw; the call never panics. *)
Lemma calculateMovementDelay_eq (cfg : StealthConfig) (step totalSteps : Z)
    (w : World) :
  calculateMovementDelay Sin cfg step totalSteps w
  = Ok (GoInt.add (GoInt.sub (slowest cfg) (easeDrop Sin cfg step totalSteps))
                  (fst (GoRand.next (tape w)) mod 3),
        drawn w).
Proof.
  unfold calculateMovementDelay, bind, randIntn, GoRand.Intn, ret, slowest,
    fastest, easeDrop, drawn.
  change (3 <=? 0) with false. cbv iota.
  destruct (GoRand.next (tape w)) as [x g]. reflexivity.
Qed.

Lemma delay_value (cfg : StealthConfig) (step totalSteps x : Z) :
  small (slowest cfg) -> small (easeDrop Sin cfg step totalSteps) ->
  GoInt.add (GoInt.sub (slowest cfg) (easeDrop Sin cfg step totalSteps))
            (x mod 3)
  = slowest cfg - easeDrop Sin cfg step totalSteps + x mod 3.
Proof.
  unfold small. intros Hs Hd.
  assert (Hj : 0 <= x mod 3 < 3) by (apply Z.mod_pos_bound; lia).
  unfold GoInt.add, GoInt.sub.
  rewrite (wrap64_small (slowest cfg - _));
    [apply wrap64_small |];
    unfold GoInt.in_int64, GoInt.min_int64, GoInt.max_int64; lia.
Qed.

End AnySine.

(** A gap of 3 between two drops orders the two delays, whatever is drawn. *)
Lemma ease_gap_orders_delays (Sin : float -> float) (cfg : StealthConfig)
    (step other totalSteps : Z) (w wo : World) :
  small (slowest cfg) ->
  small (easeDrop Sin cfg step totalSteps) ->
  small (easeDrop Sin cfg other totalSteps) ->
  easeDrop Sin cfg other totalSteps + 3 <= easeDrop Sin cfg step totalSteps ->
  exists d do_,
    calculateMovementDelay Sin cfg step totalSteps w = Ok (d, drawn w)
    /\ calculateMovementDelay Sin cfg other totalSteps wo = Ok (do_, drawn wo)
    /\ d < do_.
Proof.
  intros Hs Hm Ho Hgap. do 2 eexists.
  rewrite !calculateMovementDelay_eq.
  split; [reflexivity |]. split; [reflexivity |].
  rewrite !delay_value by assumption.
  pose proof (Z.mod_pos_bound (fst (GoRand.next (tape w))) 3 ltac:(lia)).
  pose proof (Z.mod_pos_bound (fst (GoRand.next (tape wo))) 3 ltac:(lia)).
  lia.
Qed.

Lemma smallb_small z : smallb z = true -> small z.
Proof.
  unfold smallb, small. intros H. apply andb_true_iff in H as [H1 H2].
  apply Z.leb_le in H1, H2. lia.
Qed.

(** C8, counterexample.  With the zero configuration every delay is the
    jitter alone: at 100 steps the middle delay 0 is not below the delay 0 of
    step 0.  With the default speeds and 3 steps, the middle step 1 and the
    last step 2 have the same drop 24: with jitter 2 and 0 the middle delay 8
    is above the last delay 6. *)
Lemma ease_law_fails :
  calculateMovementDelay GoMath.Sin zeroStealth 50 100 (mkWorld [0] [] [])
    = Ok (0, mkWorld [] [] [])
  /\ calculateMovementDelay GoMath.Sin zeroStealth 0 100 (mkWorld [0] [] [])
     = Ok (0, mkWorld [] [] [])
  /\ calculateMovementDelay GoMath.Sin (Stealth DefaultConfig) 1 3
       (mkWorld [2] [] []) = Ok (8, mkWorld [] [] [])
  /\ calculateMovementDelay GoMath.Sin (Stealth DefaultConfig) 2 3
       (mkWorld [0] [] []) = Ok (6, mkWorld [] [] []).
Proof. vm_compute. repeat split; reflexivity. Qed.

(** C8, amended.  For every sine, configuration and number of steps whose
    delays are far from overflow: when the eased drop at the middle step
    exceeds the drop at step 0 and the drop at the last step by at least 3,
    the span of the jitter, the three delays are computed without a panic and
    the middle one is strictly below the other two, whatever is drawn. *)
Theorem movement_delay_ease_law
    (Sin : float -> float) (cfg : StealthConfig) (totalSteps : Z)
    (w0 wm wl : World) :
  small (slowest cfg) ->
  small (easeDrop Sin cfg 0 totalSteps) ->
  small (easeDrop Sin cfg (totalSteps / 2) totalSteps) ->
  small (easeDrop Sin cfg (totalSteps - 1) totalSteps) ->
  easeDrop Sin cfg 0 totalSteps + 3
    <= easeDrop Sin cfg (totalSteps / 2) totalSteps ->
  easeDrop Sin cfg (totalSteps - 1) totalSteps + 3
    <= easeDrop Sin cfg (totalSteps / 2) totalSteps ->
  exists d0 dm dl w0' wm' wl',
    calculateMovementDelay Sin cfg 0 totalSteps w0 = Ok (d0, w0')
    /\ calculateMovementDelay Sin cfg (totalSteps / 2) totalSteps wm
       = Ok (dm, wm')
    /\ calculateMovementDelay Sin cfg (totalSteps - 1) totalSteps wl
       = Ok (dl, wl')
    /\ dm < d0 /\ dm < dl.
Proof.
  intros Hs H0 Hm Hl G0 Gl.
  destruct (ease_gap_orders_delays Sin cfg (totalSteps / 2) 0 totalSteps wm w0
              Hs Hm H0 G0) as (dm & d0 & Em & E0 & Lt0).
  destruct (ease_gap_orders_delays Sin cfg (totalSteps / 2) (totalSteps - 1)
              totalSteps wm wl Hs Hm Hl Gl) as (dm' & dl & Em' & El & Ltl).
  assert (dm' = dm) by congruence. subst dm'.
  exists d0, dm, dl, (drawn w0), (drawn wm), (drawn wl). auto.
Qed.

(** The test of the package: default speeds, 100 steps. *)
Lemma movement_delay_ease_law_witness :
  exists d0 dm dl w0' wm' wl',
    calculateMovementDelay GoMath.Sin (Stealth DefaultConfig) 0 100
      (mkWorld [2] [] []) = Ok (d0, w0')
    /\ calculateMovementDelay GoMath.Sin (Stealth DefaultConfig) (100 / 2) 100
         (mkWorld [5] [] []) = Ok (dm, wm')
    /\ calculateMovementDelay GoMath.Sin (Stealth DefaultConfig) (100 - 1) 100
         (mkWorld [0] [] []) = Ok (dl, wl')
    /\ dm < d0 /\ dm < dl.
Proof.
  apply (movement_delay_ease_law GoMath.Sin (Stealth DefaultConfig) 100);
    vm_compute; (split; discriminate) || discriminate.
Defined.

(** X8.  The condition of the law is sharp: when the drop at a step is less than 3
    above the drop at another step, the draws 2 and 0 make its delay at least
    the other delay. *)
Lemma ease_law_sharp (Sin : float -> float) (cfg : StealthConfig)
    (step other totalSteps : Z) :
  small (slowest cfg) ->
  small (easeDrop Sin cfg step totalSteps) ->
  small (easeDrop Sin cfg other totalSteps) ->
  easeDrop Sin cfg step totalSteps < easeDrop Sin cfg other totalSteps + 3 ->
  exists dm d,
    calculateMovementDelay Sin cfg step totalSteps (mkWorld [2] [] [])
      = Ok (dm, mkWorld [] [] [])
    /\ calculateMovementDelay Sin cfg other totalSteps (mkWorld [0] [] [])
       = Ok (d, mkWorld [] [] [])
    /\ d <= dm.
Proof.
  intros Hs Hm Ho Hlt. do 2 eexists.
  rewrite !calculateMovementDelay_eq. unfold drawn. simpl tape.
  simpl GoRand.next.
  split; [reflexivity |]. split; [reflexivity |].
  rewrite !delay_value by assumption. simpl fst.
  change (2 mod 3) with 2. change (0 mod 3) with 0. lia.
Qed.

(* ===================================================================== *)
(** * Typing *)
(* ===================================================================== *)

(** ** Rules for [ensures] *)

Lemma ensures_ret {A : Type} (a : A) w (Q : A -> World -> Prop) :
  Q a w -> ensures (ret a) w Q.
Proof. intros H. exists a, w. split; [reflexivity | assumption]. Qed.

Lemma ensures_bind {A B : Type} (m : M A) (k : A -> M B) w
    (Q : B -> World -> Prop) :
  ensures m w (fun a w1 => ensures (k a) w1 Q) -> ensures (bind m k) w Q.
Proof.
  intros (a & w1 & Hm & b & w2 & Hk & HQ). exists b, w2.
  split; [| assumption]. unfold bind. rewrite Hm. assumption.
Qed.

Lemma ensures_weaken {A : Type} (m : M A) w (P Q : A -> World -> Prop) :
  ensures m w P -> (forall a w', P a w' -> Q a w') -> ensures m w Q.
Proof. intros (a & w' & Hm & HP) H. exists a, w'. auto. Qed.

Lemma ensures_seq {A B : Type} (m : M A) (k : A -> M B) w
    (P : A -> World -> Prop) (Q : B -> World -> Prop) :
  ensures m w P -> (forall a w1, P a w1 -> ensures (k a) w1 Q) ->
  ensures (bind m k) w Q.
Proof.
  intros Hm Hk. apply ensures_bind. eapply ensures_weaken; [exact Hm |].
  exact Hk.
Qed.

Lemma ensures_randIntn (n : Z) w (Q : Z -> World -> Prop) :
  0 < n -> (forall x, 0 <= x < n -> Q x (drawn w)) ->
  ensures (randIntn n) w Q.
Proof.
  intros Hn HQ. unfold ensures, randIntn, GoRand.Intn, drawn in *.
  destruct (Z.leb_spec n 0); [lia |].
  destruct (GoRand.next (tape w)) as [x g]. simpl.
  eexists _, _. split; [reflexivity |]. apply HQ. apply Z.mod_pos_bound. lia.
Qed.

Lemma ensures_randFloat64 w (Q : float -> World -> Prop) :
  (forall f, Q f (drawn w)) -> ensures randFloat64 w Q.
Proof.
  intros HQ. unfold ensures, randFloat64, GoRand.Float64, drawn in *.
  destruct (GoRand.next (tape w)) as [x g]. simpl.
  eexists _, _. split; [reflexivity | apply HQ].
Qed.

Lemma ensures_emit (e : Event) w (Q : unit -> World -> Prop) :
  Q tt (after e w) -> ensures (emit e) w Q.
Proof.
  intros HQ. exists tt, (after e w). split; [reflexivity | assumption].
Qed.

Lemma ensures_sleepMs (ms : Z) w (Q : unit -> World -> Prop) :
  Q tt (after (EvSleep (GoInt.mul ms Millisecond)) w) ->
  ensures (sleepMs ms) w Q.
Proof. apply ensures_emit. Qed.

Lemma ensures_elementInput (r : Z) w (Q : GoStr.error -> World -> Prop) :
  noFaults w -> Q None (keyed r w) -> ensures (elementInput r) w Q.
Proof.
  unfold noFaults, ensures, elementInput, keyed. intros Hf HQ.
  destruct (faults w) as [| b fs] eqn:E.
  - eexists _, _. split; [reflexivity | assumption].
  - inversion Hf as [| ? ? Hb _]; subst. eexists _, _.
    split; [reflexivity | assumption].
Qed.

Lemma noFaults_drawn w : noFaults w -> noFaults (drawn w).
Proof. auto. Qed.

Lemma noFaults_after e w : noFaults w -> noFaults (after e w).
Proof. auto. Qed.

Lemma noFaults_keyed r w : noFaults w -> noFaults (keyed r w).
Proof.
  unfold noFaults, keyed. simpl. intros H.
  destruct (faults w); [constructor | by inversion H].
Qed.

Lemma quiet_refl w : quiet w w.
Proof. split; reflexivity. Qed.

Lemma quiet_drawn w : quiet w (drawn w).
Proof. split; reflexivity. Qed.

Lemma quiet_trans w w1 w2 : quiet w w1 -> quiet w1 w2 -> quiet w w2.
Proof. intros [H1 H2] [H3 H4]. split; congruence. Qed.

Lemma quiet_noFaults w w1 : quiet w w1 -> noFaults w -> noFaults w1.
Proof. unfold noFaults. intros [_ ->]. auto. Qed.

Create HintDb typing.

#[local] Hint Resolve noFaults_drawn noFaults_after noFaults_keyed
  quiet_refl quiet_drawn : typing.

(** ** The adjacency table *)

(** Every entry of the table lists at least one neighbour, so the index drawn
    in [getAdjacentKey] has a positive bound. *)
Lemma adjacent_nonempty (k : Z) (l : list Z) :
  adjacentKeys !! k = Some l -> 0 < Z.of_nat (length l).
Proof.
  unfold adjacentKeys. intros H. apply elem_of_list_to_map_2 in H.
  repeat (apply elem_of_cons in H as [H | H];
          [injection H as -> ->; vm_compute; reflexivity |]).
  by apply elem_of_nil in H.
Qed.

(** [getAdjacentKey] never panics, emits nothing, and is the identity on a
    character outside the table. *)
Lemma ensures_getAdjacentKey (char : Z) w (Q : Z -> World -> Prop) :
  (forall r, (outsideTable char -> r = char) -> Q r w) ->
  (forall r, (outsideTable char -> r = char) -> Q r (drawn w)) ->
  ensures (getAdjacentKey char) w Q.
Proof.
  intros HQ HQd. unfold getAdjacentKey.
  destruct (adjacentKeys !! (if isUpper char then char + 32 else char))
    as [adjacent |] eqn:E.
  - apply ensures_bind, ensures_randIntn; [by eapply adjacent_nonempty |].
    intros x _. apply ensures_ret, HQd. unfold outsideTable. congruence.
  - apply ensures_ret, HQ. reflexivity.
Qed.

(** ** One round, then the loop *)

Lemma HumanType_round_spec (cfg : StealthConfig) (char : Z) (w : World) :
  0 < GoInt.sub (TypingDelayMax cfg) (TypingDelayMin cfg) ->
  noFaults w ->
  ensures (HumanType_round cfg char) w (roundDone char w).
Proof.
  intros Hpos Hnf. unfold HumanType_round.
  (* the delay *)
  apply ensures_bind, ensures_randIntn; [assumption | intros d _].
  apply ensures_bind, ensures_randFloat64; intros f.
  apply (ensures_seq _ _ _ (fun _ w1 => quiet w w1)).
  { destruct (f <? 0.05)%float.
    - apply ensures_bind, ensures_randIntn; [lia | intros x _].
      apply ensures_ret. split; reflexivity.
    - apply ensures_ret. split; reflexivity. }
  intros delay w1 Hq1.
  (* the mistake decision *)
  apply (ensures_seq _ _ _ (fun _ w2 => quiet w w2)).
  { destruct (0 <? TypingMistakeRate cfg)%float.
    - apply ensures_bind, ensures_randFloat64; intros g.
      apply ensures_ret. eapply quiet_trans; [exact Hq1 | apply quiet_drawn].
    - apply ensures_ret. exact Hq1. }
  intros mistake w2 Hq2.
  (* the mistaken keystroke and its correction *)
  apply (ensures_seq _ _ _
           (fun failed w3 =>
              failed = None /\ noFaults w3
              /\ exists evs, trace w3 = trace w ++ evs
                 /\ (evs = []
                     \/ exists wrong a b,
                          evs = [EvInput wrong; EvSleep a; EvBackspace;
                                 EvSleep b]
                          /\ (outsideTable char -> wrong = char)))).
  { pose proof (quiet_noFaults _ _ Hq2 Hnf) as Hnf2.
    destruct Hq2 as [Ht2 Hf2].
    destruct mistake.
    - apply (ensures_seq _ _ _
               (fun wrong w' => (outsideTable char -> wrong = char)
                                /\ quiet w2 w')).
      { apply ensures_getAdjacentKey; intros r Hr; auto with typing. }
      intros wrong w' [Hwrong Hq'].
      pose proof (quiet_noFaults _ _ Hq' Hnf2) as Hnf'.
      destruct Hq' as [Ht' Hf'].
      apply ensures_bind, ensures_elementInput; [assumption |].
      apply ensures_bind, ensures_randIntn; [lia | intros x _].
      apply ensures_bind, ensures_sleepMs.
      apply ensures_bind, ensures_emit.
      apply ensures_bind, ensures_randIntn; [lia | intros y _].
      apply ensures_bind, ensures_sleepMs.
      apply ensures_ret. split; [reflexivity |]. split.
      { auto 10 with typing. }
      eexists. split.
      + simpl. rewrite Ht', Ht2, <- !app_assoc. simpl. reflexivity.
      + right. eauto.
    - apply ensures_ret. split; [reflexivity |]. split; [assumption |].
      exists []. rewrite app_nil_r. auto. }
  intros failed w3 (-> & Hnf3 & evs & Ht3 & Hevs).
  (* the character itself *)
  apply ensures_bind, ensures_elementInput; [assumption |].
  apply ensures_bind, ensures_sleepMs.
  apply ensures_ret. split; [reflexivity |]. split; [auto with typing |].
  eexists. split.
  - simpl. rewrite Ht3, <- !app_assoc. reflexivity.
  - destruct Hevs as [-> | (wrong & a & b & -> & Hwrong)]; simpl.
    + left. eauto.
    + right. eauto 10.
Qed.

Lemma replay_app evs1 evs2 buf :
  replay (evs1 ++ evs2) buf = replay evs2 (replay evs1 buf).
Proof.
  revert buf. induction evs1 as [| [d | r |] evs1 IH]; intros buf; simpl; auto.
Qed.

Lemma typed_app evs1 evs2 : typed (evs1 ++ evs2) = typed evs1 ++ typed evs2.
Proof.
  induction evs1 as [| [d | r |] evs1 IH]; simpl; auto. by rewrite IH.
Qed.

Lemma deletions_app evs1 evs2 :
  deletions (evs1 ++ evs2) = (deletions evs1 + deletions evs2)%nat.
Proof.
  induction evs1 as [| [d | r |] evs1 IH]; simpl; auto.
Qed.

Lemma roundShape_replay char evs buf :
  roundShape char evs -> replay evs buf = buf ++ [char].
Proof.
  intros [(d & ->) | (wrong & a & b & d & -> & _)]; simpl; [reflexivity |].
  by rewrite removelast_last.
Qed.

Lemma roundShape_count char evs :
  roundShape char evs -> length (typed evs) = S (deletions evs).
Proof.
  intros [(d & ->) | (wrong & a & b & d & -> & _)]; reflexivity.
Qed.

(** Outside the table every keystroke of the round is the character. *)
Lemma roundShape_typed char evs :
  roundShape char evs -> outsideTable char ->
  forall r, In r (typed evs) -> r = char.
Proof.
  intros [(d & ->) | (wrong & a & b & d & -> & Hw)] Hout r; simpl.
  - intros [<- | []]. reflexivity.
  - intros [<- | [<- | []]]; auto.
Qed.

Lemma textShape_replay text evs buf :
  textShape text evs -> replay evs buf = buf ++ text.
Proof.
  intros H. revert buf.
  induction H as [| char text evs1 evs2 H1 _ IH]; intros buf; simpl.
  - by rewrite app_nil_r.
  - rewrite replay_app, (roundShape_replay _ _ _ H1), IH, <- app_assoc.
    reflexivity.
Qed.

Lemma textShape_count text evs :
  textShape text evs ->
  length (typed evs) = (length text + deletions evs)%nat.
Proof.
  induction 1 as [| char text evs1 evs2 H1 _ IH]; simpl; [reflexivity |].
  rewrite typed_app, length_app, deletions_app, IH,
    (roundShape_count _ _ H1). lia.
Qed.

Lemma HumanType_rounds_spec (cfg : StealthConfig) (text : list Z) :
  0 < GoInt.sub (TypingDelayMax cfg) (TypingDelayMin cfg) ->
  forall w, noFaults w ->
  ensures (HumanType_rounds cfg text) w
    (fun err w' => err = None /\ noFaults w'
                   /\ exists evs, trace w' = trace w ++ evs
                                  /\ textShape text evs).
Proof.
  intros Hpos. induction text as [| char text IH]; intros w Hnf; simpl.
  - apply ensures_ret. split; [reflexivity |]. split; [assumption |].
    exists []. rewrite app_nil_r. split; [reflexivity | constructor].
  - eapply ensures_seq; [by apply HumanType_round_spec |].
    intros err w1 (-> & Hnf1 & evs1 & Ht1 & H1).
    eapply ensures_weaken; [by apply IH |].
    intros err w2 (-> & Hnf2 & evs2 & Ht2 & H2).
    split; [reflexivity |]. split; [assumption |].
    exists (evs1 ++ evs2). rewrite Ht2, Ht1, app_assoc.
    split; [reflexivity | by constructor].
Qed.

(** C6, counterexample.  The text is the digit 1 and the mistake rate is 1:
    the digit has no entry in the table, yet the round types it, deletes it
    with a Backspace and types it again. *)
Lemma digit_is_deleted_and_retyped :
  outsideTable (rune "1")
  /\ GoStr.runes "1" = [rune "1"]
  /\ HumanType (withMistakeRate 1) "1"
       (mkWorld [0; 2 ^ 53 - 1; 0; 0; 0] [] [])
     = Ok (None,
           mkWorld [] []
             [EvInput (rune "1"); EvSleep 100000000; EvBackspace;
              EvSleep 50000000; EvInput (rune "1"); EvSleep 50000000]).
Proof. repeat split; vm_compute; reflexivity. Qed.

(** C6, amended.  For every text, every mistake rate and every sequence of
    draws, when the typing delay range is not empty and the page accepts each
    keystroke: the call returns nil without a panic; its events are, character
    by character, the character and a pause, or before these a mistaken
    keystroke, a pause, a Backspace and a pause; replayed, the events leave
    exactly the text in the field, and the keystrokes are as many as the
    characters of the text plus the deletions.  For a character outside the
    adjacency table the mistaken keystroke is the character itself: nothing
    wrong is typed for it, but it is deleted and typed again. *)
Theorem HumanType_types_the_text
    (cfg : StealthConfig) (text : string) (w : World) :
  0 < GoInt.sub (TypingDelayMax cfg) (TypingDelayMin cfg) ->
  noFaults w ->
  exists evs w',
    HumanType cfg text w = Ok (None, w')
    /\ trace w' = trace w ++ evs
    /\ textShape (GoStr.runes text) evs
    /\ replay evs [] = GoStr.runes text
    /\ length (typed evs) = (length (GoStr.runes text) + deletions evs)%nat.
Proof.
  intros Hpos Hnf. unfold HumanType.
  destruct (HumanType_rounds_spec cfg (GoStr.runes text) Hpos w Hnf)
    as (err & w' & Hrun & -> & _ & evs & Ht & Hshape).
  exists evs, w'. split; [assumption |]. split; [assumption |].
  split; [assumption |]. split.
  - by rewrite (textShape_replay _ _ [] Hshape).
  - by apply textShape_count.
Qed.

Lemma HumanType_types_the_text_witness :
  exists evs w',
    HumanType (withMistakeRate 0.5) "a1"
      (mkWorld [0; 0; 0; 1; 0; 0; 7] [false; false] []) = Ok (None, w')
    /\ trace w' = [] ++ evs
    /\ textShape (GoStr.runes "a1") evs
    /\ replay evs [] = GoStr.runes "a1"
    /\ length (typed evs) = (length (GoStr.runes "a1") + deletions evs)%nat.
Proof.
  apply (HumanType_types_the_text (withMistakeRate 0.5) "a1"
           (mkWorld [0; 0; 0; 1; 0; 0; 7] [false; false] [])).
  - vm_compute. reflexivity.
  - repeat constructor.
Defined.

(** With an empty typing delay range the first round panics, [Intn] being
    called with the bound 0, and with a page that refuses the first keystroke
    the call returns the page's error: the two provisos of the law. *)
Example HumanType_provisos :
  HumanType (set_Typing 100 100 0 (Stealth DefaultConfig)) "a"
    (mkWorld [] [] []) = Panic "invalid argument to Intn"
  /\ HumanType (withMistakeRate 0) "ab" (mkWorld [] [true] [])
     = Ok (Some "input failed", mkWorld [] [] []).
Proof. split; vm_compute; reflexivity. Qed.

(* ===================================================================== *)
(** * Further laws of the governor and the scheduler *)
(* ===================================================================== *)

(** X1.  Rollover idempotence: of two checks in the same hour of the same day, the
    second leaves the whole state, counters and marker, as the first left
    it. *)
Theorem checkReset_idempotent (now1 now2 : Time) (r : RateLimiter) :
  sameHour now2 now1 ->
  checkReset now2 (checkReset now1 r) = checkReset now1 r.
Proof.
  intros [[Hy Hd] Hh]. destruct r as [cfg m lr la g].
  unfold checkReset; simpl.
  destruct (negb (YearDay now1 =? YearDay lr) || negb (Year now1 =? Year lr))
    eqn:Eday; simpl.
  - rewrite Z.eqb_refl; simpl.
    rewrite Hy, Hd, Hh, !Z.eqb_refl. reflexivity.
  - destruct (negb (Hour now1 =? Hour lr)) eqn:Ehour; simpl;
      rewrite Hy, Hd, Hh, Eday; simpl; rewrite Ehour; simpl.
    + unfold set_counts; simpl. by rewrite insert_insert_eq.
    + reflexivity.
Qed.

Lemma checkReset_idempotent_witness :
  let r := recordAll "search" [t0930; t0930]
             (NewRateLimiter (quota 5 10 20 3) t0930 []) in
  checkReset t1110 (checkReset t1105 r) = checkReset t1105 r.
Proof.
  apply (checkReset_idempotent t1105 t1110). repeat split.
Defined.

(** X2.  On the day of the marker, the remaining count of a daily category is the
    literal difference of its quota and its count, and the category is
    permitted exactly when the count is below the quota. *)
Theorem daily_quota_arithmetic (now : Time) (r : RateLimiter) (a : string)
    (limit : Z) :
  sameDay now (lastReset r) ->
  a <> "search" ->
  limitOf (rl_config r) a = Some limit ->
  fst (GetRemainingActions now a r) = GoInt.sub limit (count (actionCounts r) a)
  /\ fst (CanPerformAction now a r) = (count (actionCounts r) a <? limit).
Proof.
  intros Hs Ha Hl. unfold GetRemainingActions, CanPerformAction.
  rewrite checkReset_config, Hl, checkReset_daily_counts by assumption.
  split; [reflexivity |].
  destruct (Z.geb_spec (count (actionCounts r) a) limit);
    destruct (Z.ltb_spec (count (actionCounts r) a) limit);
    (reflexivity || lia).
Qed.

Lemma daily_quota_arithmetic_witness :
  let r := recordAll "message" [t0930; t1105]
             (NewRateLimiter (quota 5 1 20 3) t0930 []) in
  fst (GetRemainingActions t1110 "message" r)
  = GoInt.sub 1 (count (actionCounts r) "message")
  /\ fst (CanPerformAction t1110 "message" r)
     = (count (actionCounts r) "message" <? 1).
Proof.
  apply (daily_quota_arithmetic t1110
           (recordAll "message" [t0930; t1105]
              (NewRateLimiter (quota 5 1 20 3) t0930 [])) "message" 1).
  - split; reflexivity.
  - discriminate.
  - reflexivity.
Defined.

(** X3.  [RecordAction] adds one to the counter of its category, leaves every
    other counter and the reset marker alone, and stamps the action time. *)
Theorem RecordAction_counts_one (now : Time) (a b : string) (r : RateLimiter) :
  0 <= count (actionCounts r) a < GoInt.max_int64 ->
  a <> b ->
  let r' := RecordAction now a r in
  count (actionCounts r') a = count (actionCounts r) a + 1
  /\ count (actionCounts r') b = count (actionCounts r) b
  /\ lastAction r' = now /\ lastReset r' = lastReset r.
Proof.
  intros Hc Hab r'. unfold r'.
  rewrite RecordAction_count_eq, RecordAction_count_ne by assumption.
  repeat split. unfold GoInt.add. apply wrap64_small.
  unfold GoInt.in_int64, GoInt.min_int64, GoInt.max_int64 in *. lia.
Qed.

Lemma RecordAction_counts_one_witness :
  let r := NewRateLimiter (quota 5 10 20 3) t0930 [] in
  let r' := RecordAction t1105 "connection" r in
  count (actionCounts r') "connection" = count (actionCounts r) "connection" + 1
  /\ count (actionCounts r') "message" = count (actionCounts r) "message"
  /\ lastAction r' = t1105 /\ lastReset r' = lastReset r.
Proof.
  apply (RecordAction_counts_one t1105 "connection" "message"
           (NewRateLimiter (quota 5 10 20 3) t0930 [])).
  - vm_compute. split; [discriminate | reflexivity].
  - discriminate.
Defined.

(** X4.  [WaitForNextAction] with a delay range that is not empty and an action
    time that is not in the future: no panic; a target between the two bounds
    is drawn, and the call sleeps for what is left of it, or not at all when
    the target has already elapsed.  Counters and marker are untouched. *)
Theorem WaitForNextAction_waits_out_the_target (now : Time) (r : RateLimiter) :
  0 <= MinDelayBetweenActions (rl_config r)
       < MaxDelayBetweenActions (rl_config r) ->
  MaxDelayBetweenActions (rl_config r) <= 10 ^ 9 ->
  Nanos (lastAction r) <= Nanos now ->
  exists target slept r',
    WaitForNextAction now r = Ok (slept, r')
    /\ MinDelayBetweenActions (rl_config r) * Millisecond <= target
       < MaxDelayBetweenActions (rl_config r) * Millisecond
    /\ slept = Z.max 0 (target - Since now (lastAction r))
    /\ actionCounts r' = actionCounts r /\ lastReset r' = lastReset r
    /\ lastAction r' = lastAction r.
Proof.
  intros Hrange Hmax Hpast.
  unfold WaitForNextAction, GoRand.Int63n, GoInt.mul, GoInt.sub, GoInt.add.
  set (lo := MinDelayBetweenActions (rl_config r)) in *.
  set (hi := MaxDelayBetweenActions (rl_config r)) in *.
  assert (Hm : Millisecond = 1000000) by reflexivity.
  assert (B : 10 ^ 9 = 1000000000) by reflexivity.
  assert (Wlo : GoInt.wrap64 (lo * Millisecond) = lo * Millisecond).
  { apply wrap64_small.
    unfold GoInt.in_int64, GoInt.min_int64, GoInt.max_int64. lia. }
  assert (Whi : GoInt.wrap64 (hi * Millisecond) = hi * Millisecond).
  { apply wrap64_small.
    unfold GoInt.in_int64, GoInt.min_int64, GoInt.max_int64. lia. }
  rewrite Wlo, Whi.
  assert (Wd : GoInt.wrap64 (hi * Millisecond - lo * Millisecond)
               = hi * Millisecond - lo * Millisecond).
  { apply wrap64_small.
    unfold GoInt.in_int64, GoInt.min_int64, GoInt.max_int64. lia. }
  rewrite Wd.
  destruct (Z.leb_spec (hi * Millisecond - lo * Millisecond) 0); [lia |].
  destruct (GoRand.next (rl_rand r)) as [x g].
  pose proof (Z.mod_pos_bound x (hi * Millisecond - lo * Millisecond)
                ltac:(lia)) as Hx.
  set (d := x mod (hi * Millisecond - lo * Millisecond)) in *.
  assert (Wt : GoInt.wrap64 (lo * Millisecond + d) = lo * Millisecond + d).
  { apply wrap64_small.
    unfold GoInt.in_int64, GoInt.min_int64, GoInt.max_int64. lia. }
  rewrite Wt.
  assert (He : 0 <= Since now (lastAction r) <= GoInt.max_int64).
  { unfold Since, GoInt.min_int64, GoInt.max_int64. lia. }
  exists (lo * Millisecond + d).
  destruct (Z.ltb_spec (Since now (lastAction r)) (lo * Millisecond + d)).
  - eexists _, _. split; [reflexivity |]. split; [lia |]. split.
    + rewrite wrap64_small;
        unfold GoInt.in_int64, GoInt.min_int64, GoInt.max_int64 in *; lia.
    + repeat split.
  - eexists _, _. split; [reflexivity |]. split; [lia |]. split; [lia |].
    repeat split.
Qed.

Lemma WaitForNextAction_waits_out_the_target_witness :
  exists target slept r',
    WaitForNextAction t1106 (RecordAction t1105 "search"
                               (NewRateLimiter (quota 5 10 20 3) t0930 [12345]))
      = Ok (slept, r')
    /\ 100 * Millisecond <= target < 200 * Millisecond
    /\ slept = Z.max 0 (target - Since t1106 t1105)
    /\ actionCounts r' = {["search" := 1]}
    /\ lastReset r' = t0930 /\ lastAction r' = t1105.
Proof.
  apply (WaitForNextAction_waits_out_the_target t1106
           (RecordAction t1105 "search"
              (NewRateLimiter (quota 5 10 20 3) t0930 [12345]))).
  - vm_compute. split; [discriminate | reflexivity].
  - vm_compute. discriminate.
  - vm_compute. discriminate.
Defined.

(** X5.  With scheduling off the scheduler is always within its hours; with
    scheduling on and [WorkDaysOnly] set it is outside them on a Saturday and
    on a Sunday, whatever the hour. *)
Theorem operating_hours_switches (cfg : ScheduleConfig) (now : Time) :
  (Enabled cfg = false -> IsWithinOperatingHours cfg now = true)
  /\ (Enabled cfg = true -> WorkDaysOnly cfg = true ->
      Weekday now = Saturday \/ Weekday now = Sunday ->
      IsWithinOperatingHours cfg now = false).
Proof.
  unfold IsWithinOperatingHours. split.
  - intros ->. reflexivity.
  - intros -> -> [-> | ->]; reflexivity.
Qed.

(** X6.  [ShouldTakeBreak] past the session limit: the answer is [true] and no
    draw is made. *)
Theorem ShouldTakeBreak_past_limit (cfg : ScheduleConfig)
    (now sessionStart : Time) (g : GoRand.Rand) :
  0 <= SessionMaxMin cfg <= 10 ^ 6 ->
  SessionMaxMin cfg * Minute < Nanos now - Nanos sessionStart ->
  ShouldTakeBreak cfg now sessionStart g = (true, g).
Proof.
  intros Hs Hlate. unfold ShouldTakeBreak.
  assert (Hm : Minute = 60000000000) by reflexivity.
  assert (B : 10 ^ 6 = 1000000) by reflexivity.
  assert (W : GoInt.mul (SessionMaxMin cfg) Minute = SessionMaxMin cfg * Minute).
  { apply wrap64_small.
    unfold GoInt.in_int64, GoInt.min_int64, GoInt.max_int64. lia. }
  rewrite W.
  destruct (Z.gtb_spec (Since now sessionStart) (SessionMaxMin cfg * Minute))
    as [_ | Hle]; [reflexivity |].
  exfalso. unfold Since, GoInt.min_int64, GoInt.max_int64 in Hle. lia.
Qed.

Lemma ShouldTakeBreak_past_limit_witness :
  ShouldTakeBreak (Schedule DefaultConfig)
    (mkTime 2024 10 12 3 7300000000000) (mkTime 2024 10 9 3 0) [1; 2; 3]
  = (true, [1; 2; 3]).
Proof.
  apply (ShouldTakeBreak_past_limit (Schedule DefaultConfig));
    vm_compute; repeat split; (reflexivity || discriminate).
Defined.

(** X7.  [TakeBreak] with a break range in order: no panic, and the break lasts a
    whole number of minutes between the two bounds. *)
Theorem TakeBreak_within_range (cfg : ScheduleConfig) (g : GoRand.Rand) :
  0 <= BreakMinMin cfg <= BreakMinMax cfg ->
  BreakMinMax cfg <= 10 ^ 6 ->
  exists minutes g',
    TakeBreak cfg g = Ok (minutes * Minute, g')
    /\ BreakMinMin cfg <= minutes <= BreakMinMax cfg.
Proof.
  intros Hr Hmax. unfold TakeBreak, GoRand.Intn, GoInt.add, GoInt.sub, GoInt.mul.
  assert (Hm : Minute = 60000000000) by reflexivity.
  assert (B : 10 ^ 6 = 1000000) by reflexivity.
  set (lo := BreakMinMin cfg) in *. set (hi := BreakMinMax cfg) in *.
  rewrite (wrap64_small (hi - lo))
    by (unfold GoInt.in_int64, GoInt.min_int64, GoInt.max_int64; lia).
  rewrite (wrap64_small (hi - lo + 1))
    by (unfold GoInt.in_int64, GoInt.min_int64, GoInt.max_int64; lia).
  destruct (Z.leb_spec (hi - lo + 1) 0); [lia |].
  destruct (GoRand.next g) as [x g'].
  pose proof (Z.mod_pos_bound x (hi - lo + 1) ltac:(lia)) as Hx.
  rewrite (wrap64_small (lo + _))
    by (unfold GoInt.in_int64, GoInt.min_int64, GoInt.max_int64; lia).
  rewrite wrap64_small
    by (unfold GoInt.in_int64, GoInt.min_int64, GoInt.max_int64; lia).
  eexists _, _. split; [reflexivity | lia].
Qed.

Lemma TakeBreak_within_range_witness :
  exists minutes g',
    TakeBreak (Schedule DefaultConfig) [42] = Ok (minutes * Minute, g')
    /\ 5 <= minutes <= 15.
Proof.
  apply (TakeBreak_within_range (Schedule DefaultConfig) [42]);
    vm_compute; repeat split; (reflexivity || discriminate).
Defined.

Lemma operating_hours_switches_witness :
  IsWithinOperatingHours (window false 9 18 true) (atHour 3) = true
  /\ IsWithinOperatingHours (window true 9 18 true) (mkTime 2024 13 12 6 0)
     = false.
Proof.
  split.
  - apply (operating_hours_switches (window false 9 18 true) (atHour 3)).
    reflexivity.
  - apply (operating_hours_switches (window true 9 18 true)
             (mkTime 2024 13 12 6 0)); [reflexivity | reflexivity |].
    left. reflexivity.
Defined.

Lemma ease_law_sharp_witness :
  exists dm d,
    calculateMovementDelay GoMath.Sin (Stealth DefaultConfig) 1 3
      (mkWorld [2] [] []) = Ok (dm, mkWorld [] [] [])
    /\ calculateMovementDelay GoMath.Sin (Stealth DefaultConfig) 2 3
         (mkWorld [0] [] []) = Ok (d, mkWorld [] [] [])
    /\ d <= dm.
Proof.
  apply (ease_law_sharp GoMath.Sin (Stealth DefaultConfig) 1 2 3);
    vm_compute; (split; discriminate) || reflexivity.
Defined.

(* ===================================================================== *)
(** * Typing without mistakes *)
(* ===================================================================== *)

Lemma HumanType_round_no_mistake (cfg : StealthConfig) (char : Z) (w : World) :
  0 < GoInt.sub (TypingDelayMax cfg) (TypingDelayMin cfg) ->
  (0 <? TypingMistakeRate cfg)%float = false ->
  noFaults w ->
  ensures (HumanType_round cfg char) w
    (fun err w' => err = None /\ noFaults w'
                   /\ exists d, trace w' = trace w ++ [EvInput char; EvSleep d]).
Proof.
  intros Hpos Hrate Hnf. unfold HumanType_round. rewrite Hrate.
  apply ensures_bind, ensures_randIntn; [assumption | intros d _].
  apply ensures_bind, ensures_randFloat64; intros f.
  apply (ensures_seq _ _ _ (fun _ w1 => quiet w w1)).
  { destruct (f <? 0.05)%float.
    - apply ensures_bind, ensures_randIntn; [lia | intros x _].
      apply ensures_ret. split; reflexivity.
    - apply ensures_ret. split; reflexivity. }
  intros delay w1 Hq1.
  apply ensures_bind, ensures_ret. apply ensures_bind, ensures_ret.
  pose proof (quiet_noFaults _ _ Hq1 Hnf) as Hnf1. destruct Hq1 as [Ht1 _].
  apply ensures_bind, ensures_elementInput; [assumption |].
  apply ensures_bind, ensures_sleepMs.
  apply ensures_ret. split; [reflexivity |]. split; [auto with typing |].
  eexists. simpl. rewrite Ht1, <- !app_assoc. reflexivity.
Qed.

(** X9.  With a mistake rate that is not positive, and under the provisos of the
    typing law, the events are one keystroke and one pause for each character
    of the text, in order, and no Backspace. *)
Theorem HumanType_without_mistakes
    (cfg : StealthConfig) (text : string) (w : World) :
  0 < GoInt.sub (TypingDelayMax cfg) (TypingDelayMin cfg) ->
  (0 <? TypingMistakeRate cfg)%float = false ->
  noFaults w ->
  exists evs w',
    HumanType cfg text w = Ok (None, w')
    /\ trace w' = trace w ++ evs
    /\ typed evs = GoStr.runes text
    /\ deletions evs = 0%nat
    /\ length evs = (2 * length (GoStr.runes text))%nat.
Proof.
  intros Hpos Hrate. unfold HumanType. revert w.
  induction (GoStr.runes text) as [| char chars IH]; intros w Hnf; simpl.
  - exists [], w. rewrite app_nil_r. repeat split.
  - destruct (HumanType_round_no_mistake cfg char w Hpos Hrate Hnf)
      as (err & w1 & Hrun & -> & Hnf1 & d & Ht1).
    destruct (IH w1 Hnf1) as (evs & w2 & Hrest & Ht2 & Htyped & Hdel & Hlen).
    exists ([EvInput char; EvSleep d] ++ evs), w2.
    unfold bind. rewrite Hrun. split; [assumption |].
    split; [rewrite Ht2, Ht1, <- app_assoc; reflexivity |].
    simpl. rewrite Htyped, Hdel, Hlen. repeat split. lia.
Qed.

Lemma HumanType_without_mistakes_witness :
  exists evs w',
    HumanType (withMistakeRate 0) "abc" (mkWorld [3; 9; 4] [] [])
      = Ok (None, w')
    /\ trace w' = [] ++ evs
    /\ typed evs = GoStr.runes "abc"
    /\ deletions evs = 0%nat
    /\ length evs = (2 * length (GoStr.runes "abc"))%nat.
Proof.
  apply (HumanType_without_mistakes (withMistakeRate 0) "abc"
           (mkWorld [3; 9; 4] [] [])).
  - vm_compute. reflexivity.
  - vm_compute. reflexivity.
  - constructor.
Defined.

(* ===================================================================== *)
(** * The ease law at the default speeds *)
(* ===================================================================== *)

Lemma default_gaps : forallb (gapOk GoMath.Sin (Stealth DefaultConfig)) stepCounts = true.
Proof. vm_compute. reflexivity. Qed.

Lemma stepCounts_range (n : Z) : 4 <= n <= 1000 -> In n stepCounts.
Proof.
  intros H. unfold stepCounts. apply in_map_iff.
  exists (Z.to_nat n). split; [lia |]. apply in_seq. lia.
Qed.

(** X10.  With the default speeds 0.5 and 2.0, the sine of [GoMath.Sin] and
    any number of steps from 4 to 1000, the delay at the middle step is
    strictly below the delay at step 0 and the delay at the last step,
    whatever is drawn. *)
Theorem default_speeds_ease_in_and_out (totalSteps : Z) (w0 wm wl : World) :
  4 <= totalSteps <= 1000 ->
  exists d0 dm dl,
    calculateMovementDelay GoMath.Sin (Stealth DefaultConfig) 0 totalSteps w0
      = Ok (d0, drawn w0)
    /\ calculateMovementDelay GoMath.Sin (Stealth DefaultConfig)
         (totalSteps / 2) totalSteps wm = Ok (dm, drawn wm)
    /\ calculateMovementDelay GoMath.Sin (Stealth DefaultConfig)
         (totalSteps - 1) totalSteps wl = Ok (dl, drawn wl)
    /\ dm < d0 /\ dm < dl.
Proof.
  intros Hn.
  pose proof default_gaps as G. rewrite forallb_forall in G.
  specialize (G totalSteps (stepCounts_range totalSteps Hn)).
  unfold gapOk in G.
  repeat (apply andb_true_iff in G as [G ?]).
  assert (Hs : small (slowest (Stealth DefaultConfig))).
  { apply smallb_small. vm_compute. reflexivity. }
  destruct (ease_gap_orders_delays GoMath.Sin (Stealth DefaultConfig)
              (totalSteps / 2) 0 totalSteps wm w0)
    as (dm & d0 & Em & E0 & Lt0);
    [assumption | by apply smallb_small | by apply smallb_small
     | by apply Z.leb_le |].
  destruct (ease_gap_orders_delays GoMath.Sin (Stealth DefaultConfig)
              (totalSteps / 2) (totalSteps - 1) totalSteps wm wl)
    as (dm' & dl & Em' & El & Ltl);
    [assumption | by apply smallb_small | by apply smallb_small
     | by apply Z.leb_le |].
  assert (dm' = dm) by congruence. subst dm'.
  exists d0, dm, dl. auto.
Qed.

Lemma default_speeds_ease_in_and_out_witness :
  exists d0 dm dl,
    calculateMovementDelay GoMath.Sin (Stealth DefaultConfig) 0 100
      (mkWorld [2] [] []) = Ok (d0, drawn (mkWorld [2] [] []))
    /\ calculateMovementDelay GoMath.Sin (Stealth DefaultConfig)
         (100 / 2) 100 (mkWorld [2] [] []) = Ok (dm, drawn (mkWorld [2] [] []))
    /\ calculateMovementDelay GoMath.Sin (Stealth DefaultConfig)
         (100 - 1) 100 (mkWorld [0] [] []) = Ok (dl, drawn (mkWorld [0] [] []))
    /\ dm < d0 /\ dm < dl.
Proof.
  apply (default_speeds_ease_in_and_out 100); lia.
Defined.

(* ===================================================================== *)
(** * The interpolation law of the curve *)
(* ===================================================================== *)

(** ** Zero and one in binary64 *)

(** Multiplying by one is exact: the product of the mantissas is the
    mantissa of the other factor shifted by the 52 bits that the rounding
    shifts back, with nothing lost. *)
Lemma SFmul_one_l (a : spec_float) :
  valid_binary a = true ->
  SF64mul (S754_finite false 4503599627370496 (-52)) a = a.
Proof.
  destruct a as [s | s | | s m e]; intros Hv; try reflexivity.
  simpl in Hv. unfold bounded, canonical_mantissa in Hv.
  apply andb_true_iff in Hv as [Hc Hb].
  apply Z.eqb_eq in Hc.
  unfold SF64mul, SFmul. cbn [xorb].
  unfold binary_round_aux, shr_fexp.
  replace (4503599627370496 * m)%positive
    with (Pos.iter xO m 52) by (cbv [Pos.iter Pos.mul]; reflexivity).
  cbv [Pos.iter]. cbn [Zdigits2 digits2_pos shr_record_of_loc].
  set (d := digits2_pos m) in *.
  match goal with
  | |- context [fexp ?p ?q ?x] => replace x with (Z.pos d + e) by lia
  end.
  rewrite Hc.
  replace (e - (-52 + e)) with 52 by lia.
  cbn [shr SpecFloat.iter_pos shr_1 orb shr_m loc_of_shr_record round_nearest_even
       Zdigits2].
  fold d.
  replace (-52 + e + 52) with e by lia.
  rewrite Hc, Z.sub_diag. cbn [shr shr_m].
  rewrite Hb. reflexivity.
Qed.

Lemma SFcompare_refl (a : spec_float) :
  a <> S754_nan -> SFcompare a a = Some Eq.
Proof.
  destruct a as [s | s | | s m e]; intros H; try congruence; simpl.
  - reflexivity.
  - destruct s; reflexivity.
  - destruct s; rewrite Z.compare_refl;
      change (Pos.compare_cont Eq m m) with (Pos.compare m m);
      rewrite Pos.compare_refl; reflexivity.
Qed.

Lemma is_finite_spec (x : float) : is_finite x = finiteSF (Prim2SF x).
Proof.
  unfold is_finite, is_nan, is_infinity.
  rewrite !FloatAxioms.eqb_spec, FloatAxioms.abs_spec.
  change (Prim2SF infinity) with (S754_infinity false).
  destruct (Prim2SF x) as [s | s | | s m e] eqn:E; try reflexivity.
  - cbn. destruct s; reflexivity.
  - unfold SFeqb. rewrite SFcompare_refl by discriminate. reflexivity.
Qed.

Lemma SFmul_zero_l (a : spec_float) :
  finiteSF a = true -> isZero (SF64mul (S754_zero false) a).
Proof.
  destruct a as [s | s | | s m e]; simpl; intros H; try discriminate;
    eexists; reflexivity.
Qed.

Lemma SFadd_zero_zero (a b : spec_float) :
  isZero a -> isZero b -> isZero (SF64add a b).
Proof.
  intros [s ->] [s' ->]. destruct s, s'; eexists; reflexivity.
Qed.

Lemma sameSF_add_zero_r (b a z : spec_float) :
  finiteSF a = true -> sameSF b a -> isZero z -> sameSF (SF64add b z) a.
Proof.
  intros Ha [-> | [Hb Hz']] Hz.
  - destruct Hz as [s ->].
    destruct a as [s0 | s0 | | s0 m e]; try discriminate.
    + right. split; [| eexists; reflexivity].
      destruct s0, s; eexists; reflexivity.
    + left. reflexivity.
  - right. split; [apply SFadd_zero_zero; assumption | assumption].
Qed.

Lemma sameSF_add_zero_l (z a : spec_float) :
  finiteSF a = true -> isZero z -> sameSF (SF64add z a) a.
Proof.
  intros Ha [s ->].
  destruct a as [s0 | s0 | | s0 m e]; try discriminate.
  - right. split; [| eexists; reflexivity].
    destruct s0, s; eexists; reflexivity.
  - left. reflexivity.
Qed.

Lemma sameSF_eqb (a b : spec_float) :
  finiteSF b = true -> sameSF a b -> SFeqb a b = true.
Proof.
  intros Hb [-> | [[s ->] [s' ->]]].
  - unfold SFeqb. rewrite SFcompare_refl; [reflexivity |].
    destruct b; discriminate.
  - reflexivity.
Qed.

Lemma mul_one_l (x : float) : (1 * x)%float = x.
Proof.
  apply Prim2SF_inj. rewrite FloatAxioms.mul_spec.
  change (Prim2SF 1) with (S754_finite false 4503599627370496 (-52)).
  apply SFmul_one_l, Prim2SF_valid.
Qed.

Lemma mul_zero_l (x : float) :
  is_finite x = true -> isZero (Prim2SF (0 * x)%float).
Proof.
  intros H. rewrite FloatAxioms.mul_spec. change (Prim2SF 0) with (S754_zero false).
  apply SFmul_zero_l. rewrite <- is_finite_spec. assumption.
Qed.

(** ** The two ends of the blend *)

(** At [t = 1] the weights are 0, 0, 0 and 1; at [t = 0] they are 1, 0, 0
    and 0. *)
Lemma blend_at_one (a b c d : float) :
  is_finite a = true -> is_finite b = true -> is_finite c = true ->
  is_finite d = true ->
  (0 * a + 0 * b + 0 * c + 1 * d =? d)%float = true.
Proof.
  intros Ha Hb Hc Hd. rewrite mul_one_l, FloatAxioms.eqb_spec, !FloatAxioms.add_spec.
  apply sameSF_eqb; [rewrite <- is_finite_spec; assumption |].
  apply sameSF_add_zero_l; [rewrite <- is_finite_spec; assumption |].
  repeat apply SFadd_zero_zero; apply mul_zero_l; assumption.
Qed.

Lemma blend_at_zero (a b c d : float) :
  is_finite a = true -> is_finite b = true -> is_finite c = true ->
  is_finite d = true ->
  (1 * a + 0 * b + 0 * c + 0 * d =? a)%float = true.
Proof.
  intros Ha Hb Hc Hd. rewrite mul_one_l, FloatAxioms.eqb_spec, !FloatAxioms.add_spec.
  assert (Fa : finiteSF (Prim2SF a) = true)
    by (rewrite <- is_finite_spec; assumption).
  apply sameSF_eqb; [assumption |].
  repeat (apply sameSF_add_zero_r;
          [assumption | | apply mul_zero_l; assumption]).
  left. reflexivity.
Qed.

Ltac weights :=
  unfold samePoint, cubicBezier; cbn [X Y];
  change (1 - 0)%float with 1%float; change (1 - 1)%float with 0%float;
  change (0 * 0)%float with 0%float; change (1 * 1)%float with 1%float;
  change (3 * 0)%float with 0%float; change (3 * 1)%float with 3%float;
  change (0 * 1)%float with 0%float; change (3 * 0)%float with 0%float.

Lemma cubicBezier_at_zero (p0 p1 p2 p3 : Point) :
  finitePoint p0 = true -> finitePoint p1 = true ->
  finitePoint p2 = true -> finitePoint p3 = true ->
  samePoint (cubicBezier 0 p0 p1 p2 p3) p0 = true.
Proof.
  destruct p0 as [x0 y0], p1 as [x1 y1], p2 as [x2 y2], p3 as [x3 y3].
  unfold finitePoint. cbn [X Y]. rewrite !andb_true_iff.
  intros [? ?] [? ?] [? ?] [? ?]. weights.
  apply andb_true_iff; split; apply blend_at_zero; assumption.
Qed.

Lemma cubicBezier_at_one (p0 p1 p2 p3 : Point) :
  finitePoint p0 = true -> finitePoint p1 = true ->
  finitePoint p2 = true -> finitePoint p3 = true ->
  samePoint (cubicBezier 1 p0 p1 p2 p3) p3 = true.
Proof.
  destruct p0 as [x0 y0], p1 as [x1 y1], p2 as [x2 y2], p3 as [x3 y3].
  unfold finitePoint. cbn [X Y]. rewrite !andb_true_iff.
  intros [? ?] [? ?] [? ?] [? ?]. weights.
  apply andb_true_iff; split; apply blend_at_one; assumption.
Qed.

(** X11.  For any four control points with finite coordinates, the curve
    evaluated at [t = 0] is the first control point and evaluated at [t = 1]
    the last, exactly as [==] compares coordinates. *)
Theorem cubicBezier_boundary (p0 p1 p2 p3 : Point) :
  finitePoint p0 = true -> finitePoint p1 = true ->
  finitePoint p2 = true -> finitePoint p3 = true ->
  samePoint (cubicBezier 0 p0 p1 p2 p3) p0 = true
  /\ samePoint (cubicBezier 1 p0 p1 p2 p3) p3 = true.
Proof.
  intros H0 H1 H2 H3. split.
  - apply cubicBezier_at_zero; assumption.
  - apply cubicBezier_at_one; assumption.
Qed.

Lemma cubicBezier_boundary_witness :
  samePoint (cubicBezier 0 (mkPoint 0 0) (mkPoint 25 25) (mkPoint 75 75)
               (mkPoint 100 100)) (mkPoint 0 0) = true
  /\ samePoint (cubicBezier 1 (mkPoint 0 0) (mkPoint 25 25) (mkPoint 75 75)
                  (mkPoint 100 100)) (mkPoint 100 100) = true.
Proof.
  apply (cubicBezier_boundary (mkPoint 0 0) (mkPoint 25 25) (mkPoint 75 75)
           (mkPoint 100 100)); reflexivity.
Defined.

(** An infinite control point breaks the law: its zero weight makes a NaN. *)
Example cubicBezier_infinite_control :
  samePoint (cubicBezier 1 (mkPoint 0 0) (mkPoint infinity 25) (mkPoint 75 75)
               (mkPoint 100 100)) (mkPoint 100 100) = false.
Proof. vm_compute. reflexivity. Qed.

(** ** The two ends of the path *)

Lemma unitRatios_checked :
  forallb unitRatios (map Z.of_nat (seq 1 (Z.to_nat 10000))) = true.
Proof. vm_compute. reflexivity. Qed.

Lemma unit_ratios (k : Z) :
  1 <= k <= 10000 ->
  (GoFloat.float64_of_int 0 / GoFloat.float64_of_int k)%float = 0%float
  /\ (GoFloat.float64_of_int k / GoFloat.float64_of_int k)%float = 1%float.
Proof.
  intros Hk. pose proof unitRatios_checked as G.
  rewrite forallb_forall in G.
  assert (Hin : In k (map Z.of_nat (seq 1 (Z.to_nat 10000)))).
  { apply in_map_iff. exists (Z.to_nat k). split; [lia |]. apply in_seq. lia. }
  specialize (G k Hin). unfold unitRatios in G.
  apply andb_true_iff in G as [G0 G1].
  split; apply FloatAxioms.Leibniz.eqb_spec; assumption.
Qed.

(** The outcome of [generateBezierPath] in terms of the step count and the
    control points. *)
Lemma generateBezierPath_eq (start end_ : Point) (w : World) :
  let n := pathSteps start end_ in
  let c := pathControls start end_ (tape w) in
  generateBezierPath start end_ w
  = if n <? 0 then Panic "makeslice: len out of range"
    else Ok (map (fun i =>
                    cubicBezier
                      (GoFloat.float64_of_int i
                       / GoFloat.float64_of_int (GoInt.sub n 1))%float
                      start (fst c) (snd c) end_)
                 (indices n),
             drawn (drawn (drawn (drawn w)))).
Proof.
  destruct w as [[| a [| b [| c [| d g]]]] fs tr]; cbv zeta;
    unfold generateBezierPath, bind, randFloat64, ret, pathControls,
      pathControl, nthDraw, drawn; cbn [tape faults trace skipn fst snd];
    fold (pathSteps start end_);
    destruct (pathSteps start end_ <? 0); reflexivity.
Qed.

Lemma last_map_seq {A : Type} (f : Z -> A) (k : nat) :
  last (map f (map Z.of_nat (seq 0 (S k)))) = Some (f (Z.of_nat k)).
Proof.
  rewrite <- Nat.add_1_r, seq_app, !map_app. cbn [seq map Nat.add].
  rewrite last_snoc. reflexivity.
Qed.

(** X12.  For two finite points whose curve has between 2 and 10001 points
    and finite control points, [generateBezierPath] returns, the path has
    that many points, its first point is the start and its last point the
    end, exactly, whatever is drawn. *)
Theorem generateBezierPath_ends (start end_ : Point) (w : World) :
  2 <= pathSteps start end_ <= 10001 ->
  finitePoint start = true -> finitePoint end_ = true ->
  finitePoint (fst (pathControls start end_ (tape w))) = true ->
  finitePoint (snd (pathControls start end_ (tape w))) = true ->
  exists pts w',
    generateBezierPath start end_ w = Ok (pts, w')
    /\ Z.of_nat (length pts) = pathSteps start end_
    /\ option_map (fun p => samePoint p start) (hd_error pts) = Some true
    /\ option_map (fun p => samePoint p end_) (last pts) = Some true.
Proof.
  intros Hn Hs He H1 H2.
  rewrite generateBezierPath_eq. cbv zeta.
  set (n := pathSteps start end_) in *.
  set (c := pathControls start end_ (tape w)) in *.
  destruct (Z.ltb_spec n 0) as [? | _]; [lia |].
  unfold GoInt.sub. rewrite (wrap64_small (n - 1))
    by (unfold GoInt.in_int64, GoInt.min_int64, GoInt.max_int64; lia).
  destruct (unit_ratios (n - 1) ltac:(lia)) as [R0 R1].
  pose proof (cubicBezier_at_zero start (fst c) (snd c) end_ Hs H1 H2 He)
    as B0.
  pose proof (cubicBezier_at_one start (fst c) (snd c) end_ Hs H1 H2 He)
    as B1.
  eexists _, _. split; [reflexivity |].
  unfold indices.
  destruct (Z.to_nat n) as [| k] eqn:Ek; [lia |].
  split; [rewrite !length_map, length_seq; lia |].
  split.
  - cbn [seq map hd_error option_map]. change (Z.of_nat 0) with 0.
    rewrite R0, B0. reflexivity.
  - rewrite last_map_seq. cbn [option_map].
    replace (Z.of_nat k) with (n - 1) by lia.
    rewrite R1, B1. reflexivity.
Qed.

Lemma generateBezierPath_ends_witness :
  exists pts w',
    generateBezierPath (mkPoint 683 384) (mkPoint 0.1 0.1)
      (mkWorld plainTape [] []) = Ok (pts, w')
    /\ Z.of_nat (length pts)
       = pathSteps (mkPoint 683 384) (mkPoint 0.1 0.1)
    /\ option_map (fun p => samePoint p (mkPoint 683 384)) (hd_error pts)
       = Some true
    /\ option_map (fun p => samePoint p (mkPoint 0.1 0.1)) (last pts)
       = Some true.
Proof.
  apply (generateBezierPath_ends (mkPoint 683 384) (mkPoint 0.1 0.1)
           (mkWorld plainTape [] []));
    vm_compute; (reflexivity || (split; discriminate)).
Defined.

(* ===================================================================== *)
(** * Loading a configuration *)
(* ===================================================================== *)

Lemma runAll_cons (f : Config -> Config) (l : list (Config -> Config))
    (c : Config) :
  runAll (f :: l) c = runAll l (f c).
Proof. reflexivity. Qed.

Lemma runAll_commute (f : Config -> Config) (l : list (Config -> Config)) :
  (forall g, In g l -> forall c, f (g c) = g (f c)) ->
  forall c, f (runAll l c) = runAll l (f c).
Proof.
  induction l as [| g l IH]; intros Hc c; [reflexivity |].
  rewrite !runAll_cons.
  rewrite IH by (intros h Hh; apply (Hc h); right; exact Hh).
  rewrite (Hc g) by (left; reflexivity). reflexivity.
Qed.

(** Updates that commute with one another and are each idempotent make an
    idempotent whole. *)
Lemma runAll_idempotent (l : list (Config -> Config)) :
  (forall f g, In f l -> In g l -> forall c, f (g c) = g (f c)) ->
  (forall f, In f l -> forall c, f (f c) = f c) ->
  forall c, runAll l (runAll l c) = runAll l c.
Proof.
  induction l as [| f l IH]; intros Hc Hi c; [reflexivity |].
  rewrite !runAll_cons.
  rewrite (runAll_commute f l) by
    (intros g Hg; apply (Hc f g); [left; reflexivity | right; exact Hg]).
  rewrite (Hi f) by (left; reflexivity).
  apply IH.
  - intros g h Hg Hh. apply (Hc g h); right; assumption.
  - intros g Hg. apply (Hi g). right. exact Hg.
Qed.

Lemma override_twice (Getenv : string -> string) (name : string)
    (f : string -> Config -> Config) (c : Config) :
  (forall v c, f v (f v c) = f v c) ->
  override Getenv name f (override Getenv name f c) = override Getenv name f c.
Proof.
  intros Hf. unfold override.
  destruct (String.eqb (Getenv name) ""); [reflexivity | apply Hf].
Qed.

Lemma override_swap (Getenv : string -> string) (n m : string)
    (f g : string -> Config -> Config) (c : Config) :
  (forall v w c, f v (g w c) = g w (f v c)) ->
  override Getenv n f (override Getenv m g c)
  = override Getenv m g (override Getenv n f c).
Proof.
  intros Hfg. unfold override.
  destruct (String.eqb (Getenv n) ""), (String.eqb (Getenv m) "");
    (reflexivity || apply Hfg).
Qed.

Lemma override_proj {A : Type} (proj : Config -> A) (Getenv : string -> string)
    (name : string) (f : string -> Config -> Config) (c : Config) :
  (forall v c, proj (f v c) = proj c) ->
  proj (override Getenv name f c) = proj c.
Proof.
  intros Hf. unfold override.
  destruct (String.eqb (Getenv name) ""); [reflexivity | apply Hf].
Qed.

Ltac setters :=
  intros;
  repeat match goal with
         | |- context [GoStr.Atoi ?v] => destruct (GoStr.Atoi v)
         end;
  reflexivity.

Ltac skip_overrides :=
  repeat (rewrite override_proj; [| setters]).

Lemma applyEnvOverrides_runAll (Getenv : string -> string) (c : Config) :
  applyEnvOverrides Getenv c
  = runAll
      [ override Getenv "LINKEDIN_EMAIL" set_Email;
        override Getenv "LINKEDIN_PASSWORD" set_Password;
        override Getenv "BROWSER_HEADLESS"
          (fun v => set_Headless (String.eqb v "true" || String.eqb v "1"));
        override Getenv "BROWSER_USER_DATA_DIR" set_UserDataDir;
        override Getenv "MAX_CONNECTIONS_PER_DAY"
          (fun v c => match GoStr.Atoi v with
                      | Some n => set_MaxConnectionsPerDay n c
                      | None => c
                      end);
        override Getenv "MAX_MESSAGES_PER_DAY"
          (fun v c => match GoStr.Atoi v with
                      | Some n => set_MaxMessagesPerDay n c
                      | None => c
                      end);
        override Getenv "LOG_LEVEL" set_Level;
        override Getenv "LOG_FORMAT" set_Format;
        override Getenv "DATABASE_PATH" set_DatabasePath ] c.
Proof. reflexivity. Qed.

Lemma applyEnvOverrides_twice (Getenv : string -> string) (c : Config) :
  applyEnvOverrides Getenv (applyEnvOverrides Getenv c)
  = applyEnvOverrides Getenv c.
Proof.
  rewrite !applyEnvOverrides_runAll. apply runAll_idempotent.
  - intros f g Hf Hg. cbn [In] in Hf, Hg.
    repeat (destruct Hf as [<- | Hf]);
      repeat (destruct Hg as [<- | Hg]);
      try contradiction;
      intros c0; (reflexivity || (apply override_swap; setters)).
  - intros f Hf. cbn [In] in Hf.
    repeat (destruct Hf as [<- | Hf]); try contradiction;
      intros c0; apply override_twice; setters.
Qed.

(** X13.  Applying the environment overrides a second time changes nothing,
    and the overrides never touch the stealth, schedule, search and messaging
    settings. *)
Theorem applyEnvOverrides_idempotent (Getenv : string -> string) (c : Config) :
  applyEnvOverrides Getenv (applyEnvOverrides Getenv c)
  = applyEnvOverrides Getenv c
  /\ Stealth (applyEnvOverrides Getenv c) = Stealth c
  /\ Schedule (applyEnvOverrides Getenv c) = Schedule c
  /\ Search (applyEnvOverrides Getenv c) = Search c
  /\ Messaging (applyEnvOverrides Getenv c) = Messaging c.
Proof.
  split; [apply applyEnvOverrides_twice |].
  unfold applyEnvOverrides. repeat split; skip_overrides; reflexivity.
Qed.

(** X14.  Whatever the environment, the file system and the decoder answer,
    a configuration [LoadConfig] returns passes [Validate] (credentials not
    empty, the two quotas, the two hours and the log level within their
    bounds) and is left unchanged by the environment overrides. *)
Theorem LoadConfig_returns_validated (Getenv : string -> string)
    (ReadFile : string -> string + (bool * string))
    (Unmarshal : string -> Config -> Config + string)
    (configPath : string) (c : Config) :
  LoadConfig Getenv ReadFile Unmarshal configPath = inl c ->
  Validate c = None /\ checked c /\ applyEnvOverrides Getenv c = c.
Proof.
  unfold LoadConfig. intros H.
  assert (exists base, c = applyEnvOverrides Getenv base /\ Validate c = None)
    as (base & -> & Hv).
  { destruct (String.eqb configPath "").
    - destruct (Validate (applyEnvOverrides Getenv DefaultConfig)) eqn:E;
        [discriminate |]. injection H as <-. eauto.
    - destruct (ReadFile configPath) as [data | [notExist msg]].
      + destruct (Unmarshal data DefaultConfig) as [c0 | msg]; [| discriminate].
        destruct (Validate (applyEnvOverrides Getenv c0)) eqn:E;
          [discriminate |]. injection H as <-. eauto.
      + destruct notExist; cbn [negb] in H; [| discriminate].
        destruct (Validate (applyEnvOverrides Getenv DefaultConfig)) eqn:E;
          [discriminate |]. injection H as <-. eauto. }
  split; [assumption |]. split; [by apply Validate_accepts_iff |].
  apply applyEnvOverrides_twice.
Qed.

Lemma LoadConfig_returns_validated_witness :
  let c := set_Password "secret" (set_Email "user@example.com" DefaultConfig) in
  Validate c = None /\ checked c /\ applyEnvOverrides credentialsEnv c = c.
Proof.
  apply (LoadConfig_returns_validated credentialsEnv noFile noYaml "config.yaml").
  vm_compute. reflexivity.
Defined.

(** X15.  With no email in the environment, and no path or a path to a file
    that does not exist, [LoadConfig] fails with the validation error of the
    missing email, whatever else the environment sets: the defaults carry no
    credentials. *)
Theorem LoadConfig_without_credentials (Getenv : string -> string)
    (ReadFile : string -> string + (bool * string))
    (Unmarshal : string -> Config -> Config + string)
    (configPath : string) :
  Getenv "LINKEDIN_EMAIL" = "" ->
  configPath = "" \/ (exists msg, ReadFile configPath = inr (true, msg)) ->
  LoadConfig Getenv ReadFile Unmarshal configPath
  = inr "configuration validation failed: LinkedIn email is required (set LINKEDIN_EMAIL env var or in config)".
Proof.
  intros He Hf.
  assert (Hmail : Email (LinkedIn (applyEnvOverrides Getenv DefaultConfig)) = "").
  { unfold applyEnvOverrides.
    repeat (rewrite (override_proj (fun c => Email (LinkedIn c)));
            [cbv beta | setters]).
    unfold override. rewrite He. reflexivity. }
  assert (Hv : Validate (applyEnvOverrides Getenv DefaultConfig)
               = Some "LinkedIn email is required (set LINKEDIN_EMAIL env var or in config)").
  { unfold Validate. rewrite Hmail. reflexivity. }
  unfold LoadConfig.
  destruct Hf as [-> | [msg Hf]].
  - cbn [String.eqb]. rewrite Hv. reflexivity.
  - destruct (String.eqb configPath ""); [rewrite Hv; reflexivity |].
    rewrite Hf. cbn [negb]. rewrite Hv. reflexivity.
Qed.

Lemma LoadConfig_without_credentials_witness :
  LoadConfig (fun _ => "") noFile noYaml "config.yaml"
  = inr "configuration validation failed: LinkedIn email is required (set LINKEDIN_EMAIL env var or in config)".
Proof.
  apply (LoadConfig_without_credentials (fun _ => "") noFile noYaml "config.yaml").
  - reflexivity.
  - right. eexists. reflexivity.
Defined.

(* ===================================================================== *)
(** * Randomized timing and the viewport *)
(* ===================================================================== *)

Lemma in_int64_small z :
  - 4611686018427387904 <= z <= 4611686018427387904 -> GoInt.wrap64 z = z.
Proof.
  intros H. apply wrap64_small.
  unfold GoInt.in_int64, GoInt.min_int64, GoInt.max_int64. lia.
Qed.

Ltac unwrap :=
  unfold GoInt.add, GoInt.sub, GoInt.mul;
  repeat match goal with
         | |- context [GoInt.wrap64 ?z] => rewrite (in_int64_small z) by lia
         end.

(** X16.  [RandomDelay] with bounds in order sleeps once, for a whole number
    of milliseconds between the two bounds, both included; with the maximum
    below the minimum it panics in [Intn]. *)
Theorem RandomDelay_within_bounds (minMs maxMs : Z) (w : World) :
  - 10 ^ 9 <= minMs <= 10 ^ 9 -> - 10 ^ 9 <= maxMs <= 10 ^ 9 ->
  if maxMs <? minMs
  then RandomDelay minMs maxMs w = Panic "invalid argument to Intn"
  else exists ms,
         RandomDelay minMs maxMs w
           = Ok (tt, after (EvSleep (ms * Millisecond)) (drawn w))
         /\ minMs <= ms <= maxMs.
Proof.
  intros Hlo Hhi.
  assert (B : 10 ^ 9 = 1000000000) by reflexivity.
  assert (Hm : Millisecond = 1000000) by reflexivity.
  unfold RandomDelay, bind, randIntn, GoRand.Intn, sleepMs, emit, after, drawn.
  unwrap. destruct (Z.ltb_spec maxMs minMs) as [Hord | Hord].
  - destruct (Z.leb_spec (maxMs - minMs + 1) 0); [reflexivity | lia].
  - destruct (Z.leb_spec (maxMs - minMs + 1) 0); [lia |].
    destruct (GoRand.next (tape w)) as [x g]. cbn.
    pose proof (Z.mod_pos_bound x (maxMs - minMs + 1) ltac:(lia)) as Hx.
    exists (minMs + x mod (maxMs - minMs + 1)).
    unwrap. split; [reflexivity | lia].
Qed.

Lemma RandomDelay_within_bounds_witness :
  exists ms,
    ActionDelay (Stealth DefaultConfig) (mkWorld [7] [] [])
      = Ok (tt, after (EvSleep (ms * Millisecond)) (drawn (mkWorld [7] [] [])))
    /\ 500 <= ms <= 2000.
Proof.
  apply (RandomDelay_within_bounds 500 2000 (mkWorld [7] [] [])); lia.
Defined.

(** The same call with the two bounds exchanged. *)
Example RandomDelay_reversed :
  RandomDelay 2000 500 (mkWorld [7] [] []) = Panic "invalid argument to Intn".
Proof. reflexivity. Qed.

(** X17.  [ThinkingDelay] never panics and sleeps once, between 1000 and 8998
    milliseconds, whatever is drawn. *)
Theorem ThinkingDelay_bounds (w : World) :
  exists ms w',
    ThinkingDelay w = Ok (tt, w')
    /\ trace w' = trace w ++ [EvSleep (ms * Millisecond)]
    /\ faults w' = faults w
    /\ 1000 <= ms <= 8998.
Proof.
  assert (Hm : Millisecond = 1000000) by reflexivity.
  unfold ThinkingDelay, bind, randIntn, randFloat64, GoRand.Intn,
    GoRand.Float64, sleepMs, emit, ret.
  cbn [Z.leb Z.compare].
  destruct (GoRand.next (tape w)) as [x g] eqn:E1. cbn [tape faults trace].
  pose proof (Z.mod_pos_bound x 3000 ltac:(lia)) as Hx.
  destruct (GoRand.next g) as [f g1] eqn:E2. cbn [tape faults trace].
  match goal with |- context [if ?b then _ else _] => destruct b end.
  - cbn [tape faults trace].
    destruct (GoRand.next g1) as [y g2] eqn:E3. cbn [tape faults trace].
    pose proof (Z.mod_pos_bound y 3000 ltac:(lia)) as Hy.
    exists (1000 + x mod 3000 + (2000 + y mod 3000)). eexists.
    unwrap. split; [reflexivity |]. cbn. repeat split; lia.
  - cbn [tape faults trace].
    exists (1000 + x mod 3000). eexists.
    unwrap. split; [reflexivity |]. cbn. repeat split; lia.
Qed.

(** X18.  [GetRandomViewport] never panics; width and height come from the
    same entry of the table, each moved by between -10 and +9 pixels, so the
    width is within 1270..1929 and the height within 710..1089. *)
Theorem GetRandomViewport_near_a_base (w : World) :
  exists width height base w',
    GetRandomViewport w = Ok ((width, height), w')
    /\ In base viewports
    /\ fst base - 10 <= width <= fst base + 9
    /\ snd base - 10 <= height <= snd base + 9
    /\ 1270 <= width <= 1929 /\ 710 <= height <= 1089.
Proof.
  unfold GetRandomViewport, bind, randIntn, GoRand.Intn, ret.
  change (Z.of_nat (length viewports)) with 6.
  cbn [Z.leb Z.compare].
  destruct (GoRand.next (tape w)) as [x g]. cbn [tape faults trace].
  destruct (GoRand.next g) as [a g1]. cbn [tape faults trace].
  destruct (GoRand.next g1) as [b g2]. cbn [tape faults trace].
  pose proof (Z.mod_pos_bound x 6 ltac:(lia)) as Hx.
  pose proof (Z.mod_pos_bound a 20 ltac:(lia)) as Ha.
  pose proof (Z.mod_pos_bound b 20 ltac:(lia)) as Hb.
  set (da := a mod 20) in *. set (db := b mod 20) in *.
  assert (Hvp : In (nth (Z.to_nat (x mod 6)) viewports (0, 0)) viewports)
    by (apply nth_In; change (length viewports) with 6%nat; lia).
  set (vp := nth (Z.to_nat (x mod 6)) viewports (0, 0)) in *.
  exists (fst vp + da - 10), (snd vp + db - 10), vp. eexists.
  assert (Hb' : 1280 <= fst vp <= 1920 /\ 720 <= snd vp <= 1080).
  { unfold viewports in Hvp. cbn [In] in Hvp.
    repeat (destruct Hvp as [<- | Hvp]; [cbn; lia |]). contradiction. }
  unwrap. split; [reflexivity |]. split; [assumption |]. lia.
Qed.


(* ===================================================================== *)
(** * Adjacent keys of a letter *)
(* ===================================================================== *)

Lemma rows_checked :
  forallb (fun kr => isLower (fst kr) && forallb (otherLower (fst kr)) (snd kr)
                     && (0 <? Z.of_nat (length (snd kr))))
          (map_to_list adjacentKeys) = true.
Proof. vm_compute. reflexivity. Qed.

Lemma lower_in_table :
  forallb (fun k => bool_decide (is_Some (adjacentKeys !! k)))
          (map (fun i => rune "a" + Z.of_nat i) (seq 0 26)) = true.
Proof. vm_compute. reflexivity. Qed.

Lemma lower_has_row (k : Z) :
  isLower k = true -> exists row, adjacentKeys !! k = Some row.
Proof.
  intros Hk. pose proof lower_in_table as G. rewrite forallb_forall in G.
  unfold isLower in Hk. apply andb_true_iff in Hk as [H1 H2].
  apply Z.leb_le in H1, H2. change (rune "a") with 97 in *.
  change (rune "z") with 122 in *.
  specialize (G k). rewrite bool_decide_eq_true in G.
  destruct G as [row Hrow]; [| eauto].
  apply in_map_iff. exists (Z.to_nat (k - 97)). split; [lia |].
  apply in_seq. lia.
Qed.

Lemma row_checked (k : Z) (row : list Z) :
  adjacentKeys !! k = Some row ->
  isLower k = true /\ Forall (fun r => otherLower k r = true) row
  /\ 0 < Z.of_nat (length row).
Proof.
  intros H. apply elem_of_map_to_list in H. apply list_elem_of_In in H.
  pose proof rows_checked as G. rewrite forallb_forall in G.
  specialize (G _ H). cbn [fst snd] in G.
  apply andb_true_iff in G as [G G3]. apply andb_true_iff in G as [G1 G2].
  split; [assumption |]. split; [| by apply Z.ltb_lt].
  apply Forall_forall. intros r Hr. rewrite forallb_forall in G2.
  apply G2. by apply list_elem_of_In.
Qed.

Lemma isUpper_spec (c : Z) :
  BoolSpec (65 <= c <= 90) (~ 65 <= c <= 90) (isUpper c).
Proof.
  unfold isUpper. change (rune "A") with 65. change (rune "Z") with 90.
  destruct (Z.leb_spec 65 c), (Z.leb_spec c 90); constructor; lia.
Qed.

Lemma isLower_spec (c : Z) :
  BoolSpec (97 <= c <= 122) (~ 97 <= c <= 122) (isLower c).
Proof.
  unfold isLower. change (rune "a") with 97. change (rune "z") with 122.
  destruct (Z.leb_spec 97 c), (Z.leb_spec c 122); constructor; lia.
Qed.

(** X19.  For an ASCII letter [getAdjacentKey] makes one draw and returns a
    different letter of the same case. *)
Theorem getAdjacentKey_letter (char : Z) (w : World) :
  isLower char || isUpper char = true ->
  exists r,
    getAdjacentKey char w = Ok (r, drawn w)
    /\ r <> char
    /\ isUpper r = isUpper char /\ isLower r = isLower char.
Proof.
  intros Hl. unfold getAdjacentKey.
  set (k := if isUpper char then char + 32 else char).
  assert (Hk : 97 <= k <= 122).
  { unfold k. destruct (isUpper_spec char), (isLower_spec char);
      cbn in Hl; try discriminate; lia. }
  destruct (lower_has_row k) as [row Hrow];
    [by destruct (isLower_spec k); [| lia] |].
  rewrite Hrow.
  destruct (row_checked k row Hrow) as (_ & Hall & Hlen).
  unfold bind, randIntn, GoRand.Intn, ret, drawn.
  destruct (Z.leb_spec (Z.of_nat (length row)) 0); [lia |].
  destruct (GoRand.next (tape w)) as [x g]. cbn [snd tape faults trace].
  pose proof (Z.mod_pos_bound x (Z.of_nat (length row)) ltac:(lia)) as Hx.
  set (i := x mod Z.of_nat (length row)) in *.
  assert (Hin : In (nth (Z.to_nat i) row 0) row) by (apply nth_In; lia).
  rewrite Forall_forall in Hall.
  assert (Ho : otherLower k (nth (Z.to_nat i) row 0) = true).
  { apply Hall. by apply list_elem_of_In. }
  set (r := nth (Z.to_nat i) row 0) in *.
  unfold otherLower in Ho. apply andb_true_iff in Ho as [Hr1 Hr2].
  apply negb_true_iff, Z.eqb_neq in Hr2.
  destruct (isLower_spec r) as [Hr |]; [| discriminate].
  eexists. split; [reflexivity |]. unfold k in *.
  destruct (isUpper_spec char) as [Hu | Hu].
  - split; [lia |]. split.
    + destruct (isUpper_spec (r - 32)); [reflexivity | lia].
    + destruct (isLower_spec (r - 32)), (isLower_spec char);
        (reflexivity || lia).
  - split; [lia |]. split.
    + destruct (isUpper_spec r); [lia | reflexivity].
    + destruct (isLower_spec r), (isLower_spec char); (reflexivity || lia).
Qed.

Lemma getAdjacentKey_letter_witness :
  exists r,
    getAdjacentKey (rune "Q") (mkWorld [1] [] [])
      = Ok (r, drawn (mkWorld [1] [] []))
    /\ r <> rune "Q"
    /\ isUpper r = isUpper (rune "Q") /\ isLower r = isLower (rune "Q").
Proof.
  apply (getAdjacentKey_letter (rune "Q") (mkWorld [1] [] [])). reflexivity.
Defined.

(* ===================================================================== *)
(** * Waiting for the operating hours *)
(* ===================================================================== *)

Lemma IsWithinOperatingHours_empty_window (cfg : ScheduleConfig) (now : Time) :
  Enabled cfg = true -> EndHour cfg <= StartHour cfg ->
  IsWithinOperatingHours cfg now = false.
Proof.
  intros He Hw. unfold IsWithinOperatingHours. rewrite He. cbn [negb].
  destruct (WorkDaysOnly cfg && _); [reflexivity |].
  destruct (Z.ltb_spec (Hour now) (StartHour cfg)); [reflexivity |].
  destruct (Z.geb_spec (Hour now) (EndHour cfg)); [reflexivity | lia].
Qed.

(** X20.  With scheduling on and an end hour that is not after the start hour
    (a window over midnight such as 22 to 6, or an empty one) no reading of
    the clock is within the operating hours, and [WaitForOperatingHours] is
    still waiting however many readings it is given. *)
Theorem WaitForOperatingHours_never_returns (cfg : ScheduleConfig)
    (clock : list Time) :
  Enabled cfg = true ->
  EndHour cfg <= StartHour cfg ->
  (forall now, IsWithinOperatingHours cfg now = false)
  /\ WaitForOperatingHours cfg clock = None.
Proof.
  intros He Hw.
  assert (H : forall now, IsWithinOperatingHours cfg now = false)
    by (intros now; apply IsWithinOperatingHours_empty_window; assumption).
  split; [exact H |].
  induction clock as [| now later IH]; [reflexivity |].
  cbn [WaitForOperatingHours]. rewrite H, IH. reflexivity.
Qed.

Lemma WaitForOperatingHours_never_returns_witness :
  (forall now, IsWithinOperatingHours (window true 22 6 false) now = false)
  /\ WaitForOperatingHours (window true 22 6 false)
       [atHour 23; atHour 3; atHour 12] = None.
Proof.
  apply (WaitForOperatingHours_never_returns (window true 22 6 false)
           [atHour 23; atHour 3; atHour 12]).
  - reflexivity.
  - cbn. lia.
Defined.

(** X21.  [WaitForOperatingHours] returns at the first reading of the clock
    within the operating hours, having slept five minutes for each reading
    before it. *)
Theorem WaitForOperatingHours_first_open (cfg : ScheduleConfig)
    (before : list Time) (now : Time) (later : list Time) :
  Forall (closed cfg) before ->
  IsWithinOperatingHours cfg now = true ->
  WaitForOperatingHours cfg (before ++ now :: later)
  = Some (repeat (5 * Minute) (length before)).
Proof.
  intros Hc Ho. induction Hc as [| t before Ht _ IH].
  - cbn. rewrite Ho. reflexivity.
  - cbn [app WaitForOperatingHours length repeat]. rewrite Ht, IH.
    reflexivity.
Qed.

Lemma WaitForOperatingHours_first_open_witness :
  WaitForOperatingHours (window true 9 18 false)
    ([atHour 7; atHour 8] ++ atHour 9 :: [atHour 10])
  = Some (repeat (5 * Minute) (length [atHour 7; atHour 8])).
Proof.
  apply (WaitForOperatingHours_first_open (window true 9 18 false)
           [atHour 7; atHour 8] (atHour 9) [atHour 10]).
  - repeat constructor.
  - reflexivity.
Defined.


(* ===================================================================== *)
(** * The daily rollover *)
(* ===================================================================== *)

(** X22.  At the first check on a calendar day other than that of the reset
    marker a daily category (any but search, with a quota within 62 bits) has
    its whole quota again: the remaining count is the quota, the category is
    permitted exactly when the quota is positive, and the marker moves to the
    present. *)
Theorem daily_quota_restored_next_day (now : Time) (r : RateLimiter)
    (a : string) (limit : Z) :
  ~ sameDay now (lastReset r) ->
  a <> "search" ->
  limitOf (rl_config r) a = Some limit ->
  - 2 ^ 62 <= limit <= 2 ^ 62 ->
  fst (GetRemainingActions now a r) = limit
  /\ fst (CanPerformAction now a r) = (0 <? limit)
  /\ lastReset (snd (CanPerformAction now a r)) = now.
Proof.
  intros Hd Ha Hl Hb.
  assert (Hz : count (actionCounts (checkReset now r)) a = 0).
  { rewrite checkReset_new_day by assumption. cbn.
    unfold limitOf in Hl.
    destruct (String.eqb_spec a "connection") as [-> | ?].
    { rewrite count_insert_ne, count_insert_ne, count_insert_eq by discriminate.
      reflexivity. }
    destruct (String.eqb_spec a "message") as [-> | ?].
    { rewrite count_insert_ne, count_insert_eq by discriminate. reflexivity. }
    destruct (String.eqb_spec a "profile_view") as [-> | ?].
    { rewrite count_insert_eq. reflexivity. }
    destruct (String.eqb_spec a "search"); [contradiction | discriminate]. }
  unfold GetRemainingActions, CanPerformAction.
  rewrite checkReset_config, Hl, Hz. cbn [fst snd].
  split; [| split].
  - unfold GoInt.sub. rewrite Z.sub_0_r. apply wrap64_small.
    unfold GoInt.in_int64, GoInt.min_int64, GoInt.max_int64.
    change (2 ^ 62) with 4611686018427387904 in Hb. lia.
  - destruct (Z.geb_spec 0 limit); destruct (Z.ltb_spec 0 limit);
      (reflexivity || lia).
  - destruct (0 >=? limit); cbn [snd];
      rewrite checkReset_new_day by assumption; reflexivity.
Qed.

Lemma daily_quota_restored_next_day_witness :
  let r := recordAll "connection" [t0930; t1105; t1106; t1110; t1110]
             (NewRateLimiter (quota 5 10 20 3) t0930 []) in
  fst (GetRemainingActions nextDay1105 "connection" r) = 5
  /\ fst (CanPerformAction nextDay1105 "connection" r) = (0 <? 5)
  /\ lastReset (snd (CanPerformAction nextDay1105 "connection" r)) = nextDay1105.
Proof.
  apply (daily_quota_restored_next_day nextDay1105
           (recordAll "connection" [t0930; t1105; t1106; t1110; t1110]
              (NewRateLimiter (quota 5 10 20 3) t0930 [])) "connection" 5).
  - intros [_ H]. vm_compute in H. discriminate.
  - discriminate.
  - reflexivity.
  - lia.
Defined.

(* ===================================================================== *)
(** * The overshoot tail *)
(* ===================================================================== *)

(** X23.  [addOvershoot] never panics, keeps the points it is given and
    appends between 4 and 6 points to them (the overshoot point and 3 to 5
    correction steps); it emits nothing. *)
Theorem addOvershoot_keeps_the_path (points : list Point)
    (targetX targetY : float) (w : World) :
  exists tail w',
    addOvershoot points targetX targetY w = Ok (points ++ tail, w')
    /\ (4 <= length tail <= 6)%nat
    /\ trace w' = trace w /\ faults w' = faults w.
Proof.
  enough (ensures (addOvershoot points targetX targetY) w
            (fun pts w' =>
               exists tail, pts = points ++ tail
                            /\ (4 <= length tail <= 6)%nat /\ quiet w w'))
    as (pts & w' & Hrun & tail & -> & Hlen & Hq & Hf) by eauto 10.
  unfold addOvershoot, randomSign.
  apply ensures_bind, ensures_randFloat64. intros a.
  apply ensures_bind, ensures_bind, ensures_randFloat64. intros sa.
  apply ensures_ret.
  apply ensures_bind, ensures_randFloat64. intros b.
  apply ensures_bind, ensures_bind, ensures_randFloat64. intros sb.
  apply ensures_ret.
  apply ensures_bind, ensures_randIntn; [lia |]. intros k Hk.
  apply ensures_ret. eexists. rewrite <- app_assoc. split; [reflexivity |].
  split; [| split; reflexivity].
  cbn [app length]. rewrite length_map. unfold indices.
  rewrite length_map, length_seq.
  unfold GoInt.add. rewrite in_int64_small by lia. lia.
Qed.

(* ===================================================================== *)
(** * The page: scrolling, moving and masking *)
(* ===================================================================== *)

(** ** Rules for [sensures] *)

Lemma sensures_ret {S A : Type} (a : A) (s : S) (Q : A -> S -> Prop) :
  Q a s -> sensures (sret a) s Q.
Proof. intros H. exists a, s. split; [reflexivity | assumption]. Qed.

Lemma sensures_bind {S A B : Type} (m : StateM S A) (k : A -> StateM S B)
    (s : S) (Q : B -> S -> Prop) :
  sensures m s (fun a s1 => sensures (k a) s1 Q) -> sensures (sbind m k) s Q.
Proof.
  intros (a & s1 & Hm & b & s2 & Hk & HQ). exists b, s2.
  split; [| assumption]. unfold sbind. rewrite Hm. assumption.
Qed.

Lemma sensures_weaken {S A : Type} (m : StateM S A) (s : S)
    (Q1 Q2 : A -> S -> Prop) :
  sensures m s Q1 -> (forall a s', Q1 a s' -> Q2 a s') -> sensures m s Q2.
Proof. intros (a & s' & Hm & HP) H. exists a, s'. auto. Qed.

Lemma sensures_drawIntn (n : Z) s (Q : Z -> Stage -> Prop) :
  0 < n -> (forall x, 0 <= x < n -> Q x (pulled s)) ->
  sensures (draw (randIntn n)) s Q.
Proof.
  intros Hn HQ. unfold sensures, draw, randIntn, GoRand.Intn, pulled in *.
  cbn [tape faults trace].
  destruct (Z.leb_spec n 0); [lia |].
  destruct (GoRand.next (gen s)) as [x g]. cbn [tape faults trace snd].
  eexists _, _. split; [reflexivity |]. apply HQ. apply Z.mod_pos_bound. lia.
Qed.

Lemma sensures_drawFloat64 s (Q : float -> Stage -> Prop) :
  (forall f, Q f (pulled s)) -> sensures (draw randFloat64) s Q.
Proof.
  intros HQ. unfold sensures, draw, randFloat64, GoRand.Float64, pulled in *.
  cbn [tape faults trace].
  destruct (GoRand.next (gen s)) as [x g]. cbn [tape faults trace snd].
  eexists _, _. split; [reflexivity | apply HQ].
Qed.

Lemma sensures_call (c : Call) s (Q : GoStr.error -> Stage -> Prop) :
  accepting s -> Q None (called c s) -> sensures (call c) s Q.
Proof.
  unfold accepting, sensures, call, called. intros Ha HQ.
  destruct (answers s) as [| e rest] eqn:E.
  - eexists _, _. split; [reflexivity | assumption].
  - inversion Ha as [| ? ? He _]; subst. eexists _, _.
    split; [reflexivity | assumption].
Qed.

Lemma sensures_call_any (c : Call) s (Q : GoStr.error -> Stage -> Prop) :
  (forall e, Q e (called c s)) -> sensures (call c) s Q.
Proof.
  unfold sensures, call, called. intros HQ.
  destruct (answers s) as [| e rest] eqn:E; eexists _, _;
    (split; [reflexivity | apply HQ]).
Qed.

Lemma sensures_sleep (ms : Z) s (Q : unit -> Stage -> Prop) :
  Q tt (slept ms s) -> sensures (sleep ms) s Q.
Proof. intros HQ. exists tt, (slept ms s). split; [reflexivity | assumption]. Qed.

Lemma accepting_pulled s : accepting s -> accepting (pulled s).
Proof. auto. Qed.

Lemma accepting_slept ms s : accepting s -> accepting (slept ms s).
Proof. auto. Qed.

Lemma accepting_called c s : accepting s -> accepting (called c s).
Proof.
  unfold accepting, called. cbn. intros H.
  destruct (answers s); [constructor | by inversion H].
Qed.

Lemma since_refl s : since s s [].
Proof. unfold since. by rewrite app_nil_r. Qed.

Lemma since_pulled s : since s (pulled s) [].
Proof. unfold since, pulled. cbn. by rewrite app_nil_r. Qed.

Lemma since_trans s s1 s2 l1 l2 :
  since s s1 l1 -> since s1 s2 l2 -> since s s2 (l1 ++ l2).
Proof. unfold since. intros H1 H2. rewrite H2, H1. by rewrite app_assoc. Qed.

Lemma since_called c s : since s (called c s) [c].
Proof. reflexivity. Qed.

Lemma since_slept ms s :
  since s (slept ms s) [CallSleep (GoInt.mul ms Millisecond)].
Proof. reflexivity. Qed.

Lemma wheel_app l1 l2 : wheel (l1 ++ l2) = wheel l1 ++ wheel l2.
Proof. unfold wheel. apply flat_map_app. Qed.

Lemma pointer_app l1 l2 : pointer (l1 ++ l2) = pointer l1 ++ pointer l2.
Proof. unfold pointer. apply flat_map_app. Qed.

(** ** Scrolling *)

Section Scrolling.

Variable Sin : float -> float.
Variable cfg : StealthConfig.
Hypothesis speeds : 0 < ScrollSpeedMin cfg < ScrollSpeedMax cfg.
Hypothesis bounded : ScrollSpeedMax cfg <= 1000000.

Lemma HumanScroll_loop_spec (direction : string) (actual : Z) :
  - 2000000000 <= actual <= 2000000000 ->
  forall (rounds : nat) (scrolled : Z) (s : Stage),
    0 <= scrolled -> actual - scrolled <= Z.of_nat rounds -> accepting s ->
    sensures (HumanScroll_loop Sin cfg rounds direction actual scrolled) s
      (fun r s' =>
         r = Some None /\ accepting s'
         /\ exists increments new,
              since s s' new
              /\ wheel new = map (scrollOf direction) increments
              /\ Forall (fun i => 0 < i < ScrollSpeedMax cfg) increments
              /\ total increments = Z.max 0 (actual - scrolled)).
Proof.
  intros Hact. induction rounds as [| rounds IH]; intros scrolled s Hs Hr Ha.
  - cbn [HumanScroll_loop].
    destruct (Z.ltb_spec scrolled actual); [lia |].
    apply sensures_ret. split; [reflexivity |]. split; [assumption |].
    exists [], []. split; [apply since_refl |]. split; [reflexivity |].
    split; [constructor |]. cbn. lia.
  - cbn [HumanScroll_loop].
    destruct (Z.ltb_spec scrolled actual) as [Hlt | Hge].
    + apply sensures_bind. unwrap. apply sensures_drawIntn; [lia |].
      intros x Hx. cbv zeta.
      unwrap.
      set (inc := if scrolled + (ScrollSpeedMin cfg + x) >? actual
                  then actual - scrolled else ScrollSpeedMin cfg + x).
      assert (Hinc : 0 < inc < ScrollSpeedMax cfg /\ scrolled + inc <= actual).
      { unfold inc. destruct (Z.gtb_spec (scrolled + (ScrollSpeedMin cfg + x))
                                actual); lia. }
      clearbody inc.
      apply sensures_bind, sensures_call; [by apply accepting_pulled |].
      apply sensures_bind, sensures_sleep.
      unwrap.
      eapply sensures_weaken.
      * apply (IH (scrolled + inc)); [lia | lia |].
        apply accepting_slept, accepting_called, accepting_pulled, Ha.
      * intros r s' (-> & Ha' & incs & new & Hnew & Hw & Hall & Htot).
        split; [reflexivity |]. split; [assumption |].
        exists (inc :: incs). eexists.
        split.
        { eapply since_trans; [apply since_pulled |].
          eapply since_trans; [apply since_called |].
          eapply since_trans; [apply since_slept | exact Hnew]. }
        split.
        { cbn [app]. unfold wheel. cbn [flat_map app map].
          fold (wheel new). rewrite Hw. reflexivity. }
        split; [constructor; [lia | assumption] |].
        cbn [total fold_right]. fold (total incs). lia.
    + apply sensures_ret. split; [reflexivity |]. split; [assumption |].
      exists [], []. split; [apply since_refl |]. split; [reflexivity |].
      split; [constructor |]. cbn. lia.
Qed.

Lemma sensures_seq {S A B : Type} (m : StateM S A) (k : A -> StateM S B)
    (s : S) (Q1 : A -> S -> Prop) (Q : B -> S -> Prop) :
  sensures m s Q1 -> (forall a s1, Q1 a s1 -> sensures (k a) s1 Q) ->
  sensures (sbind m k) s Q.
Proof.
  intros Hm Hk. apply sensures_bind. eapply sensures_weaken; [exact Hm |].
  exact Hk.
Qed.

Lemma scrollBack_spec (direction : string) (b : Z) (s : Stage) :
  sensures (scrollBack direction b) s
    (fun _ s' => exists new, since s s' new
                             /\ wheel new = [scrollBackOf direction b]).
Proof.
  unfold scrollBack.
  apply sensures_bind, sensures_drawIntn; [lia |]. intros x Hx.
  apply sensures_bind, sensures_sleep.
  apply sensures_bind, sensures_call_any. intros e.
  apply sensures_ret. eexists. split.
  - eapply since_trans; [apply since_pulled |].
    eapply since_trans; [apply since_slept | apply since_called].
  - reflexivity.
Qed.

(** X24.  With scroll speeds 0 < min < max <= 1000000, an amount within
    10^9 either way, a page that accepts every call and as many rounds as the
    amount plus 49, [HumanScroll] returns nil; the amount it covers lies within
    -50..+49 of the amount asked for; the wheel is turned in steps that are
    each positive and below the maximum speed and add up to that amount (no
    step when it is not positive), upwards for the direction "up" and
    downwards for any other; then at most one scroll back of 50 to 149
    pixels follows. *)
Theorem HumanScroll_scrolls_the_amount (rounds : nat) (direction : string)
    (amount : Z) (s : Stage) :
  - 1000000000 <= amount <= 1000000000 ->
  amount + 49 <= Z.of_nat rounds ->
  accepting s ->
  exists actual increments back s',
    HumanScroll Sin cfg rounds direction amount s = Ok (Some None, s')
    /\ amount - 50 <= actual <= amount + 49
    /\ wheel (calls s')
       = wheel (calls s) ++ map (scrollOf direction) increments ++ back
    /\ Forall (fun i => 0 < i < ScrollSpeedMax cfg) increments
    /\ total increments = Z.max 0 actual
    /\ (back = []
        \/ exists b, 50 <= b <= 149 /\ back = [scrollBackOf direction b]).
Proof.
  intros Hamt Hr Ha.
  enough (sensures (HumanScroll Sin cfg rounds direction amount) s
            (fun r s' =>
               r = Some None
               /\ exists actual increments back,
                    amount - 50 <= actual <= amount + 49
                    /\ wheel (calls s')
                       = wheel (calls s) ++ map (scrollOf direction) increments
                         ++ back
                    /\ Forall (fun i => 0 < i < ScrollSpeedMax cfg) increments
                    /\ total increments = Z.max 0 actual
                    /\ (back = []
                        \/ exists b, 50 <= b <= 149
                                     /\ back = [scrollBackOf direction b])))
    as (r & s' & Hrun & -> & actual & incs & back & H).
  { exists actual, incs, back, s'. split; [exact Hrun | exact H]. }
  unfold HumanScroll.
  apply sensures_bind, sensures_drawIntn; [lia |]. intros x Hx. cbv zeta.
  unwrap.
  eapply sensures_seq.
  { apply (HumanScroll_loop_spec direction (amount + x - 50));
      [lia | lia | lia | by apply accepting_pulled]. }
  intros r s1 (-> & Ha1 & incs & new & Hnew & Hw & Hall & Htot).
  rewrite Z.sub_0_r in Htot.
  assert (Hw1 : wheel (calls s1)
                = wheel (calls s) ++ map (scrollOf direction) incs).
  { unfold since in Hnew. rewrite Hnew. cbn [pulled calls].
    rewrite wheel_app, Hw. reflexivity. }
  apply sensures_bind, sensures_drawFloat64. intros f.
  destruct (f <? ScrollBackChance cfg)%float.
  - apply sensures_bind, sensures_bind, sensures_drawIntn; [lia |].
    intros b Hb. unwrap.
    eapply sensures_weaken; [apply scrollBack_spec |].
    intros _ s2 (new2 & Hnew2 & Hw2).
    apply sensures_ret. split; [reflexivity |].
    exists (amount + x - 50), incs, [scrollBackOf direction (50 + b)].
    split; [lia |]. split.
    { unfold since in Hnew2. rewrite Hnew2. cbn [pulled calls].
      rewrite wheel_app, Hw1, Hw2, <- app_assoc. reflexivity. }
    split; [assumption |]. split; [assumption |].
    right. exists (50 + b). split; [lia | reflexivity].
  - apply sensures_bind, sensures_ret, sensures_ret. split; [reflexivity |].
    exists (amount + x - 50), incs, [].
    split; [lia |]. split.
    { cbn [pulled calls]. rewrite Hw1, app_nil_r. reflexivity. }
    split; [assumption |]. split; [assumption |]. left. reflexivity.
Qed.

End Scrolling.

Lemma HumanScroll_scrolls_the_amount_witness :
  exists actual increments back s',
    HumanScroll GoMath.Sin (Stealth DefaultConfig) 400 "down" 300
      (freshStage [57; 250; 120; 30; 9; 0; 7])
    = Ok (Some None, s')
    /\ 300 - 50 <= actual <= 300 + 49
    /\ wheel (calls s')
       = wheel (calls (freshStage [57; 250; 120; 30; 9; 0; 7]))
         ++ map (scrollOf "down") increments ++ back
    /\ Forall (fun i => 0 < i < ScrollSpeedMax (Stealth DefaultConfig))
              increments
    /\ total increments = Z.max 0 actual
    /\ (back = []
        \/ exists b, 50 <= b <= 149 /\ back = [scrollBackOf "down" b]).
Proof.
  apply (HumanScroll_scrolls_the_amount GoMath.Sin (Stealth DefaultConfig)).
  - cbn. lia.
  - cbn. lia.
  - lia.
  - lia.
  - constructor.
Defined.

(** A scroll of 300 pixels down with the default speeds: the amount becomes
    307, covered in two steps, and no scroll back. *)
Example HumanScroll_default :
  option_map (fun r => wheel (calls (snd r)))
    (match HumanScroll GoMath.Sin (Stealth DefaultConfig) 400 "down" 300
             (freshStage [57; 150; 120; 2 ^ 52]) with
     | Ok r => Some r
     | Panic _ => None
     end)
  = Some [(250%float, 1); (57%float, 1)].
Proof. vm_compute. reflexivity. Qed.

Section Stalling.

Variable Sin : float -> float.
Variable cfg : StealthConfig.
Hypothesis slowest_zero : ScrollSpeedMin cfg = 0.
Hypothesis fastest_one : ScrollSpeedMax cfg = 1.

Lemma HumanScroll_loop_stalls (direction : string) (actual : Z) :
  0 < actual ->
  forall (rounds : nat) (s : Stage),
    accepting s ->
    sensures (HumanScroll_loop Sin cfg rounds direction actual 0) s
      (fun r s' =>
         r = None
         /\ exists new, since s s' new
                        /\ wheel new = repeat (scrollOf direction 0) rounds).
Proof.
  intros Hact. induction rounds as [| rounds IH]; intros s Ha.
  - cbn [HumanScroll_loop].
    destruct (Z.ltb_spec 0 actual); [| lia].
    apply sensures_ret. split; [reflexivity |].
    exists []. split; [apply since_refl | reflexivity].
  - cbn [HumanScroll_loop].
    destruct (Z.ltb_spec 0 actual); [| lia].
    rewrite slowest_zero, fastest_one.
    apply sensures_bind. change (GoInt.sub 1 0) with 1.
    apply sensures_drawIntn; [lia |]. intros x Hx.
    assert (x = 0) as -> by lia. cbv zeta.
    assert (E : (0 >? actual) = false)
      by (destruct (Z.gtb_spec 0 actual); [lia | reflexivity]).
    repeat change (GoInt.add 0 0) with 0. rewrite E.
    change (GoInt.add 0 0) with 0.
    apply sensures_bind, sensures_call; [by apply accepting_pulled |].
    apply sensures_bind, sensures_sleep.
    eapply sensures_weaken.
    + apply IH. by apply accepting_slept, accepting_called, accepting_pulled.
    + intros r s' (-> & new & Hnew & Hw). split; [reflexivity |].
      eexists. split.
      { eapply since_trans; [apply since_pulled |].
        eapply since_trans; [apply since_called |].
        eapply since_trans; [apply since_slept | exact Hnew]. }
      cbn [app]. unfold wheel. cbn [flat_map app repeat].
      fold (wheel new). rewrite Hw. reflexivity.
Qed.

(** X25.  With the scroll speeds 0 and 1 every step of the loop is 0: for an
    amount of 51 or more the loop of [HumanScroll] is still running after any
    number of rounds, each of which turned the wheel by nothing. *)
Theorem HumanScroll_stalls (rounds : nat) (direction : string) (amount : Z)
    (s : Stage) :
  51 <= amount <= 1000000000 ->
  accepting s ->
  exists s',
    HumanScroll Sin cfg rounds direction amount s = Ok (None, s')
    /\ wheel (calls s')
       = wheel (calls s) ++ repeat (scrollOf direction 0) rounds.
Proof.
  intros Hamt Ha.
  enough (sensures (HumanScroll Sin cfg rounds direction amount) s
            (fun r s' =>
               r = None
               /\ wheel (calls s')
                  = wheel (calls s) ++ repeat (scrollOf direction 0) rounds))
    as (r & s' & Hrun & -> & H) by eauto.
  unfold HumanScroll.
  apply sensures_bind, sensures_drawIntn; [lia |]. intros x Hx. cbv zeta.
  unwrap.
  eapply sensures_seq.
  { apply (HumanScroll_loop_stalls direction (amount + x - 50));
      [lia | by apply accepting_pulled]. }
  intros r s1 (-> & new & Hnew & Hw).
  apply sensures_ret. split; [reflexivity |].
  unfold since in Hnew. rewrite Hnew. cbn [pulled calls].
  rewrite wheel_app, Hw. reflexivity.
Qed.

End Stalling.

Lemma HumanScroll_stalls_witness :
  exists s',
    HumanScroll GoMath.Sin (set_ScrollSpeed 0 1 (Stealth DefaultConfig)) 25 "down" 300
      (freshStage [])
    = Ok (None, s')
    /\ wheel (calls s')
       = wheel (calls (freshStage [])) ++ repeat (scrollOf "down" 0) 25.
Proof.
  apply (HumanScroll_stalls GoMath.Sin (set_ScrollSpeed 0 1 (Stealth DefaultConfig)));
    [reflexivity | reflexivity | lia | constructor].
Defined.

(** ** Moving the pointer *)

Lemma sensures_draw {A : Type} (m : M A) s (Q : A -> Stage -> Prop) :
  ensures m (mkWorld (gen s) [] [])
    (fun a w => Q a (mkStage (tape w) (answers s) (calls s))) ->
  sensures (draw m) s Q.
Proof.
  intros (a & w & Hm & HQ). exists a. eexists. unfold draw. rewrite Hm.
  split; [reflexivity | exact HQ].
Qed.

Lemma addMicroCorrection_spec (x y : float) (s : Stage) :
  sensures (addMicroCorrection x y) s
    (fun _ s' => (accepting s -> accepting s')
                 /\ exists q d, since s s' [CallSleep d; CallMove (X q) (Y q)]).
Proof.
  unfold addMicroCorrection.
  apply sensures_bind, sensures_drawFloat64. intros a.
  apply sensures_bind, sensures_drawFloat64. intros b.
  apply sensures_bind, sensures_drawIntn; [lia |]. intros k Hk.
  apply sensures_bind, sensures_sleep.
  apply sensures_bind, sensures_call_any. intros e.
  apply sensures_ret. split.
  - intros Ha. by apply accepting_called, accepting_slept, accepting_pulled,
      accepting_pulled, accepting_pulled.
  - eexists (mkPoint _ _), _. unfold since. cbn. rewrite <- app_assoc.
    reflexivity.
Qed.

Section Moving.

Variable Sin : float -> float.
Variable cfg : StealthConfig.

Lemma MoveMouse_steps_spec (n : Z) (points : list Point) :
  forall (i : Z) (s : Stage),
    accepting s ->
    sensures (MoveMouse_steps Sin cfg n i points) s
      (fun r s' =>
         r = None /\ accepting s'
         /\ exists new,
              since s s' new
              /\ visits (MouseMicroCorrect cfg) n i points (pointer new)
              /\ length (sleeps new) = length (pointer new)).
Proof.
  induction points as [| p rest IH]; intros i s Ha.
  - cbn [MoveMouse_steps]. apply sensures_ret.
    split; [reflexivity |]. split; [assumption |].
    exists []. split; [apply since_refl |]. split; reflexivity.
  - cbn [MoveMouse_steps].
    apply sensures_bind, sensures_draw.
    unfold ensures. rewrite calculateMovementDelay_eq.
    eexists _, _. split; [reflexivity |].
    cbn [drawn tape faults trace].
    set (s0 := mkStage _ _ _).
    assert (Ha0 : accepting s0) by exact Ha.
    assert (Hs0 : since s s0 []) by (unfold since, s0; cbn; by rewrite app_nil_r).
    clearbody s0.
    apply sensures_bind, sensures_sleep.
    apply sensures_bind, sensures_call; [by apply accepting_slept |].
    cbn [visits].
    destruct (MouseMicroCorrect cfg && (i >? n - 5)) eqn:Em.
    + eapply sensures_seq; [apply addMicroCorrection_spec |].
      intros _ s1 (Ha1 & q & d & Hs1).
      eapply sensures_weaken.
      * apply (IH (i + 1)). apply Ha1.
        by apply accepting_called, accepting_slept.
      * intros r s2 (-> & Ha2 & new & Hnew & Hv & Hl).
        split; [reflexivity |]. split; [assumption |].
        eexists. split.
        { eapply since_trans; [exact Hs0 |].
          eapply since_trans; [apply since_slept |].
          eapply since_trans; [apply since_called |].
          eapply since_trans; [exact Hs1 | exact Hnew]. }
        cbn [app]. unfold pointer, sleeps. cbn [flat_map app].
        fold (pointer new). fold (sleeps new).
        split; [| cbn [length]; lia].
        exists q, (pointer new). destruct p, q. split; [reflexivity | exact Hv].
    + apply sensures_bind, sensures_ret.
      eapply sensures_weaken.
      * apply (IH (i + 1)). by apply accepting_called, accepting_slept.
      * intros r s2 (-> & Ha2 & new & Hnew & Hv & Hl).
        split; [reflexivity |]. split; [assumption |].
        eexists. split.
        { eapply since_trans; [exact Hs0 |].
          eapply since_trans; [apply since_slept |].
          eapply since_trans; [apply since_called | exact Hnew]. }
        cbn [app]. unfold pointer, sleeps. cbn [flat_map app].
        fold (pointer new). fold (sleeps new).
        split; [| cbn [length]; lia].
        exists (pointer new). destruct p. split; [reflexivity | exact Hv].
Qed.

Lemma visits_plain (n : Z) (points : list Point) :
  forall i moves, visits false n i points moves -> moves = points.
Proof.
  induction points as [| p rest IH]; intros i moves H; cbn in H.
  - exact H.
  - destruct H as (moves' & -> & H). f_equal. by eapply IH.
Qed.

Lemma visits_corrected (points : list Point) :
  forall n i moves,
    n = i + Z.of_nat (length points) ->
    visits true n i points moves ->
    length moves = (length points + Nat.min 4 (length points))%nat
    /\ forall p, last points = Some p ->
                 exists front q, moves = front ++ [p; q].
Proof.
  induction points as [| p rest IH]; intros n i moves Hn H; cbn [visits] in H.
  - subst moves. split; [reflexivity | discriminate].
  - cbn [andb length] in *.
    destruct (Z.gtb_spec i (n - 5)) as [Hc | Hc].
    + destruct H as (q & moves' & -> & H).
      destruct (IH n (i + 1) moves' ltac:(lia) H) as [Hl Hlast].
      split; [cbn [length]; lia |].
      intros p0 Hp0. destruct rest as [| p1 rest].
      * cbn in Hp0. injection Hp0 as <-. cbn in H. subst moves'.
        exists [], q. reflexivity.
      * destruct (Hlast p0) as (front & q0 & ->); [exact Hp0 |].
        exists (p :: q :: front), q0. reflexivity.
    + destruct H as (moves' & -> & H).
      destruct (IH n (i + 1) moves' ltac:(lia) H) as [Hl Hlast].
      split; [cbn [length]; lia |].
      intros p0 Hp0. destruct rest as [| p1 rest]; [cbn [length] in Hn; lia |].
      destruct (Hlast p0) as (front & q0 & ->); [exact Hp0 |].
      exists (p :: front), q0. reflexivity.
Qed.

(** X26.  [MoveMouse] on a page that accepts every call: when the plan cannot
    be computed the call panics as the plan does; otherwise it returns nil,
    sleeps once before every move, and moves the pointer through the points of
    the plan in order - through these and nothing else without
    micro-corrections, and with them with one further move after each of the
    last four points, so that the pointer ends one move past the last point
    of the plan. *)
Theorem MoveMouse_visits_the_plan (targetX targetY : float) (s : Stage) :
  accepting s ->
  match MoveMouse_points cfg targetX targetY (mkWorld (gen s) [] []) with
  | Panic msg => MoveMouse Sin cfg targetX targetY s = Panic msg
  | Ok (points, _) =>
      exists s' moves,
        MoveMouse Sin cfg targetX targetY s = Ok (None, s')
        /\ pointer (calls s') = pointer (calls s) ++ moves
        /\ length (sleeps (calls s'))
           = (length (sleeps (calls s)) + length moves)%nat
        /\ (MouseMicroCorrect cfg = false -> moves = points)
        /\ (MouseMicroCorrect cfg = true ->
            length moves = (length points + Nat.min 4 (length points))%nat
            /\ forall p, last points = Some p ->
                         exists front q, moves = front ++ [p; q])
  end.
Proof.
  intros Ha. unfold MoveMouse, sbind, draw.
  destruct (MoveMouse_points cfg targetX targetY (mkWorld (gen s) [] []))
    as [[points w] | msg]; [| reflexivity].
  set (s0 := mkStage _ _ _).
  destruct (MoveMouse_steps_spec (Z.of_nat (length points)) points 0 s0 Ha)
    as (r & s' & Hrun & -> & _ & new & Hnew & Hv & Hl).
  exists s', (pointer new). split; [exact Hrun |].
  unfold since in Hnew. rewrite Hnew. cbn [s0 calls].
  split; [apply pointer_app |].
  split.
  { unfold sleeps. rewrite flat_map_app, length_app. fold (sleeps new). lia. }
  split.
  - intros Hm. rewrite Hm in Hv. by eapply visits_plain.
  - intros Hm. rewrite Hm in Hv. eapply visits_corrected; [| exact Hv]. lia.
Qed.

End Moving.

Lemma MoveMouse_visits_the_plan_witness :
  match MoveMouse_points (Stealth DefaultConfig) 0.1 0.1
          (mkWorld (gen (freshStage plainTape)) [] []) with
  | Panic msg =>
      MoveMouse GoMath.Sin (Stealth DefaultConfig) 0.1 0.1 (freshStage plainTape)
      = Panic msg
  | Ok (points, _) =>
      exists s' moves,
        MoveMouse GoMath.Sin (Stealth DefaultConfig) 0.1 0.1
          (freshStage plainTape) = Ok (None, s')
        /\ pointer (calls s') = pointer (calls (freshStage plainTape)) ++ moves
        /\ length (sleeps (calls s'))
           = (length (sleeps (calls (freshStage plainTape))) + length moves)%nat
        /\ (MouseMicroCorrect (Stealth DefaultConfig) = false -> moves = points)
        /\ (MouseMicroCorrect (Stealth DefaultConfig) = true ->
            length moves = (length points + Nat.min 4 (length points))%nat
            /\ forall p, last points = Some p ->
                         exists front q, moves = front ++ [p; q])
  end.
Proof.
  apply (MoveMouse_visits_the_plan GoMath.Sin (Stealth DefaultConfig) 0.1 0.1
           (freshStage plainTape)).
  constructor.
Defined.

(** ** Scripts and shapes *)

Lemma evalAll_spec (scripts : list string) :
  forall s, exists s', evalAll scripts s = Ok (tt, s')
                       /\ calls s' = calls s ++ map CallEval scripts
                       /\ gen s' = gen s.
Proof.
  induction scripts as [| script rest IH]; intros s.
  - exists s. cbn. by rewrite app_nil_r.
  - cbn [evalAll]. unfold sbind, call.
    destruct (answers s) as [| e answers'];
      match goal with |- context [evalAll rest ?s1] =>
        destruct (IH s1) as (s' & Hrun & Hc & Hg) end;
      exists s'; rewrite Hrun, Hc, Hg; cbn; rewrite <- app_assoc; auto.
Qed.

(** X27.  [ApplyFingerprintMasking] returns nil whatever the page answers: it
    makes one draw, then evaluates every script in order, two of them or
    three with [DisableWebdriver], the last one carrying the hardware
    value, and an error of the page stops nothing. *)
Theorem ApplyFingerprintMasking_never_fails (cfg : StealthConfig) (s : Stage) :
  exists value s',
    ApplyFingerprintMasking cfg s = Ok (None, s')
    /\ In value ["4"; "8"; "<"; "@"]
    /\ calls s' = calls s ++ map CallEval (maskingScripts cfg value)
    /\ gen s' = snd (GoRand.next (gen s)).
Proof.
  unfold ApplyFingerprintMasking, sbind, draw.
  destruct (randomHardwareConcurrency_values (mkWorld (gen s) [] []))
    as (value & -> & Hv).
  cbn [drawn tape faults trace].
  match goal with |- context [evalAll ?l ?s1] =>
    destruct (evalAll_spec l s1) as (s' & Hrun & Hc & Hg) end.
  exists value, s'. rewrite Hrun. split; [reflexivity |].
  split; [exact Hv |]. split; [| exact Hg].
  rewrite Hc. cbn [calls]. unfold maskingScripts.
  destruct (DisableWebdriver cfg); reflexivity.
Qed.

Lemma at_hit {A : Type} (l : list A) (i : Z) (a : A) (s : Stage) :
  nth_error l (Z.to_nat i) = Some a -> at_ l i s = Ok (a, s).
Proof. intros H. unfold at_. rewrite H. reflexivity. Qed.

Lemma at_miss {A : Type} (l : list A) (i : Z) (s : Stage) :
  (length l <= Z.to_nat i)%nat -> exists msg, at_ l i s = Panic msg.
Proof.
  intros H. unfold at_. apply nth_error_None in H. rewrite H. eauto.
Qed.

Section Shapes.

Variable Sin : float -> float.
Variable cfg : StealthConfig.

(** X28.  The shape of the element.  An error of [Shape] is returned by
    [HoverElement], [ClickElement] and [ScrollToElement] with nothing drawn
    and no call made; a shape without quads makes the three of them panic on
    the index 0; a first quad of fewer than six numbers makes the first two
    panic.  [ScrollToElement] returns the error of [page.Element] likewise,
    and returns nil with no call made when the top of the element is at 256
    pixels, a third of the assumed viewport height, or is not a number. *)
Theorem shape_without_quads (rounds : nat) (s : Stage) :
  (forall e,
     HoverElement Sin cfg (inr e) s = Ok (Some e, s)
     /\ ClickElement Sin cfg (inr e) s = Ok (Some e, s)
     /\ ScrollToElement Sin cfg rounds None (inr e) s = Ok (Some (Some e), s))
  /\ HoverElement Sin cfg (inl []) s
     = Panic "runtime error: index out of range [0] with length 0"
  /\ ClickElement Sin cfg (inl []) s
     = Panic "runtime error: index out of range [0] with length 0"
  /\ ScrollToElement Sin cfg rounds None (inl []) s
     = Panic "runtime error: index out of range [0] with length 0"
  /\ (forall quad others,
        (length quad < 6)%nat ->
        exists msg, HoverElement Sin cfg (inl (quad :: others)) s = Panic msg
                    /\ ClickElement Sin cfg (inl (quad :: others)) s = Panic msg)
  /\ (forall e shape,
        ScrollToElement Sin cfg rounds (Some e) shape s = Ok (Some (Some e), s))
  /\ (forall x rest others,
        ScrollToElement Sin cfg rounds None (inl ((x :: 256%float :: rest) :: others)) s
        = Ok (Some None, s)
        /\ ScrollToElement Sin cfg rounds None (inl ((x :: nan :: rest) :: others)) s
           = Ok (Some None, s)).
Proof.
  split; [intros e; repeat split |].
  split; [reflexivity |]. split; [reflexivity |]. split; [reflexivity |].
  split; [| split; [reflexivity | intros x rest others; split; reflexivity]].
  intros quad others Hlen.
  enough (exists msg, HoverElement Sin cfg (inl (quad :: others)) s = Panic msg)
    as [msg H].
  { exists msg. split; [exact H |]. unfold ClickElement, sbind. by rewrite H. }
  unfold HoverElement, sbind.
  rewrite (at_hit (quad :: others) 0 quad s eq_refl).
  destruct (nth_error quad (Z.to_nat 0)) as [q0 |] eqn:E0;
    [rewrite (at_hit quad 0 q0 s E0)
    | apply nth_error_None in E0;
      destruct (at_miss quad 0 s E0) as [msg ->]; eauto].
  destruct (nth_error quad (Z.to_nat 2)) as [q2 |] eqn:E2;
    [rewrite (at_hit quad 2 q2 s E2)
    | apply nth_error_None in E2;
      destruct (at_miss quad 2 s E2) as [msg ->]; eauto].
  unfold draw, randFloat64, GoRand.Float64. cbn [tape faults trace].
  destruct (GoRand.next (gen s)) as [x g]. cbn [tape faults trace].
  set (s1 := mkStage _ _ _).
  destruct (nth_error quad (Z.to_nat 1)) as [q1 |] eqn:E1;
    [rewrite (at_hit quad 1 q1 s1 E1)
    | apply nth_error_None in E1;
      destruct (at_miss quad 1 s1 E1) as [msg ->]; eauto].
  destruct (at_miss quad 5 s1 ltac:(lia)) as [msg ->]. eauto.
Qed.

End Shapes.

(* ===================================================================== *)
(** * The bulk senders and the daily quota *)
(* ===================================================================== *)

Lemma CanPerformAction_snd t a r : snd (CanPerformAction t a r) = checkReset t r.
Proof.
  unfold CanPerformAction. destruct (limitOf _ a); [| reflexivity].
  destruct (_ >=? _); reflexivity.
Qed.

Lemma GetRemainingActions_snd t a r :
  snd (GetRemainingActions t a r) = checkReset t r.
Proof. unfold GetRemainingActions. destruct (limitOf _ a); reflexivity. Qed.

Lemma CanPerformAction_now_spec a s (Q : bool -> Session -> Prop) :
  Q (fst (CanPerformAction (readings s 0%nat) a (limiter s)))
    (withLimiter (checkReset (readings s 0%nat) (limiter s)) (later s)) ->
  sensures (CanPerformAction_now a) s Q.
Proof.
  intros HQ. unfold sensures, CanPerformAction_now, sbind, Now.
  cbn [limiter readings].
  rewrite <- (CanPerformAction_snd _ a) in HQ.
  destruct (CanPerformAction _ a _) as [ok r]. eexists _, _.
  split; [reflexivity | exact HQ].
Qed.

Lemma GetRemainingActions_now_spec a s (Q : Z -> Session -> Prop) :
  Q (fst (GetRemainingActions (readings s 0%nat) a (limiter s)))
    (withLimiter (checkReset (readings s 0%nat) (limiter s)) (later s)) ->
  sensures (GetRemainingActions_now a) s Q.
Proof.
  intros HQ. unfold sensures, GetRemainingActions_now, sbind, Now.
  cbn [limiter readings].
  rewrite <- (GetRemainingActions_snd _ a) in HQ.
  destruct (GetRemainingActions _ a _) as [ok r]. eexists _, _.
  split; [reflexivity | exact HQ].
Qed.

Lemma RecordAction_now_spec a s (Q : unit -> Session -> Prop) :
  Q tt (withLimiter (RecordAction (readings s 0%nat) a (limiter s)) (later s)) ->
  sensures (RecordAction_now a) s Q.
Proof. intros HQ. eexists _, _. split; [reflexivity | exact HQ]. Qed.

Lemma WaitForNextAction_returns t r :
  delaysInOrder (rl_config r) ->
  exists d g, WaitForNextAction t r = Ok (d, set_rand g r).
Proof.
  intros [Hr Hm].
  unfold WaitForNextAction, GoRand.Int63n.
  assert (Hms : Millisecond = 1000000) by reflexivity.
  unwrap.
  destruct (Z.leb_spec (MaxDelayBetweenActions (rl_config r) * Millisecond
                        - MinDelayBetweenActions (rl_config r) * Millisecond) 0);
    [lia |].
  destruct (GoRand.next (rl_rand r)) as [x g].
  destruct (_ <? _); eauto.
Qed.

Lemma WaitForNextAction_now_spec s (Q : unit -> Session -> Prop) :
  delaysInOrder (rl_config (limiter s)) ->
  (forall g, Q tt (withLimiter (set_rand g (limiter s)) (later s))) ->
  sensures WaitForNextAction_now s Q.
Proof.
  intros Hd HQ. unfold sensures, WaitForNextAction_now, sbind, Now.
  cbn [limiter readings].
  destruct (WaitForNextAction_returns (readings s 0%nat) (limiter s) Hd)
    as (d & g & ->).
  eexists _, _. split; [reflexivity | apply HQ].
Qed.

(** A check leaves a counter as it was or at zero. *)
Lemma count_zeroed_or_same (m : gmap string Z) (j k : string) :
  count (<[j := 0]> m) k = count m k \/ count (<[j := 0]> m) k = 0.
Proof.
  destruct (decide (j = k)) as [<- | Hn].
  - right. apply count_insert_eq.
  - left. by apply count_insert_ne.
Qed.

Lemma checkReset_count t r k :
  count (actionCounts (checkReset t r)) k = count (actionCounts r) k
  \/ count (actionCounts (checkReset t r)) k = 0.
Proof.
  unfold checkReset, set_lastReset, set_counts.
  repeat match goal with
         | |- context [if ?b then _ else _] => destruct b
         end;
    cbn [actionCounts lastReset];
    repeat match goal with
           | |- context [count (<[?j := 0]> ?m) ?k0] =>
               destruct (count_zeroed_or_same m j k0) as [-> | ->]; auto
           end; auto.
Qed.

Section Quota.

Variable cfg : RateLimitConfig.
Variable a : string.
Variable limit : Z.
Hypothesis daily : a <> "search".
Hypothesis limited : limitOf cfg a = Some limit.
Hypothesis quota_small : limit <= 1000000000.

Lemma withinTheDay_later s : withinTheDay s -> withinTheDay (later s).
Proof. intros H n. apply (H (S n)). Qed.

Lemma withinTheDay_checked s :
  withinTheDay s ->
  withinTheDay (withLimiter (checkReset (readings s 0%nat) (limiter s)) (later s))
  /\ count (actionCounts (checkReset (readings s 0%nat) (limiter s))) a
     = count (actionCounts (limiter s)) a.
Proof.
  intros H. split.
  - intros n. cbn [withLimiter limiter readings later].
    rewrite checkReset_lastReset_same_day by apply H. apply (H (S n)).
  - apply checkReset_daily_counts; [apply H | exact daily].
Qed.

Lemma withinQuota_checked s :
  withinQuota cfg a limit s ->
  withinQuota cfg a limit
    (withLimiter (checkReset (readings s 0%nat) (limiter s)) (later s)).
Proof.
  intros [Hc Hq]. split; cbn [withLimiter limiter].
  - by rewrite checkReset_config.
  - destruct (checkReset_count (readings s 0%nat) (limiter s) a) as [-> | ->];
      lia.
Qed.

Lemma permitted_below_quota t r :
  rl_config r = cfg ->
  fst (CanPerformAction t a r) = true ->
  count (actionCounts (checkReset t r)) a < limit.
Proof.
  intros Hc. unfold CanPerformAction.
  rewrite checkReset_config, Hc, limited.
  destruct (Z.geb_spec (count (actionCounts (checkReset t r)) a) limit);
    [discriminate | lia].
Qed.

Lemma withinTheDay_recorded (b : string) s :
  withinTheDay s ->
  withinTheDay (withLimiter (RecordAction (readings s 0%nat) b (limiter s))
                            (later s)).
Proof. intros H n. apply (H (S n)). Qed.

Lemma withinTheDay_waited g s :
  withinTheDay s -> withinTheDay (withLimiter (set_rand g (limiter s)) (later s)).
Proof. intros H n. apply (H (S n)). Qed.

End Quota.

Section Messaging.

Variable cfg : RateLimitConfig.
Hypothesis quota_small : MaxMessagesPerDay cfg <= 1000000000.
Hypothesis delays : delaysInOrder cfg.


Lemma SendFollowUpMessage_spec (page : result GoStr.error) (s : Session) :
  returns page -> withinQuota cfg "message" (MaxMessagesPerDay cfg) s ->
  sensures (SendFollowUpMessage page) s
    (fun err s' =>
       withinQuota cfg "message" (MaxMessagesPerDay cfg) s'
       /\ (withinTheDay s ->
           withinTheDay s'
           /\ counted "message" s' = counted "message" s + (match err with Some _ => 0 | None => 1 end))).
Proof.
  intros [e ->] Hq. unfold SendFollowUpMessage.
  apply sensures_bind, CanPerformAction_now_spec.
  pose proof (withinQuota_checked cfg "message" (MaxMessagesPerDay cfg) s Hq) as Hq1.
  pose proof (withinTheDay_checked "message" ltac:(discriminate) s) as Hd1.
  destruct (fst (CanPerformAction (readings s 0%nat) "message" (limiter s)))
    eqn:Eok; cbn [negb].
  - destruct e as [e |].
    + apply sensures_ret. split; [exact Hq1 |]. intros Hd.
      destruct (Hd1 Hd) as [Hd2 Hc]. split; [exact Hd2 |].
      unfold counted. cbn [withLimiter limiter]. lia.
    + apply sensures_bind, RecordAction_now_spec, sensures_ret.
      set (s1 := withLimiter _ (later s)) in *.
      pose proof (permitted_below_quota cfg "message" (MaxMessagesPerDay cfg) eq_refl
                    (readings s 0%nat) (limiter s) (proj1 Hq) Eok) as Hlt.
      destruct Hq1 as [Hc1 Hb1].
      assert (Hrec : count (actionCounts
                              (RecordAction (readings s1 0%nat) "message"
                                 (limiter s1))) "message"
                     = count (actionCounts (limiter s1)) "message" + 1).
      { rewrite RecordAction_count_eq. unfold GoInt.add.
        apply in_int64_small.  lia. }
      split.
      * split; cbn [withLimiter limiter]; [exact Hc1 |].
        rewrite Hrec. cbn [s1 withLimiter limiter] in *. lia.
      * intros Hd. destruct (Hd1 Hd) as [Hd2 Hc]. split.
        { by apply withinTheDay_recorded. }
        unfold counted. cbn [withLimiter limiter]. rewrite Hrec.
        cbn [s1 withLimiter limiter]. lia.
  - apply sensures_ret. split; [exact Hq1 |]. intros Hd.
    destruct (Hd1 Hd) as [Hd2 Hc]. split; [exact Hd2 |].
    unfold counted. cbn [withLimiter limiter]. lia.
Qed.

Lemma SendBulkFollowUpMessages_loop_spec (pages : list (result GoStr.error)) :
  Forall returns pages ->
  forall (sent failed : Z) (s : Session),
    withinQuota cfg "message" (MaxMessagesPerDay cfg) s ->
    sensures (SendBulkFollowUpMessages_loop pages sent failed) s
      (fun out s' =>
         withinQuota cfg "message" (MaxMessagesPerDay cfg) s'
         /\ sent <= fst out /\ failed <= snd out
         /\ (fst out - sent) + (snd out - failed) <= Z.of_nat (length pages)
         /\ (withinTheDay s ->
             counted "message" s' = counted "message" s + (fst out - sent))).
Proof.
  induction 1 as [| page rest Hp _ IH]; intros sent failed s Hq.
  - apply sensures_ret. cbn. repeat split; try apply Hq; lia.
  - cbn [SendBulkFollowUpMessages_loop].
    apply sensures_bind, CanPerformAction_now_spec.
    pose proof (withinQuota_checked cfg "message" (MaxMessagesPerDay cfg) s Hq) as Hq1.
    pose proof (withinTheDay_checked "message" ltac:(discriminate) s) as Hd1.
    set (s1 := withLimiter _ (later s)) in *.
    destruct (fst (CanPerformAction (readings s 0%nat) "message" (limiter s)));
      cbn [negb].
    + eapply sensures_seq; [apply (SendFollowUpMessage_spec page s1 Hp Hq1) |].
      intros err s2 [Hq2 Hd2].
      assert (Hdl : delaysInOrder (rl_config (limiter s2)))
        by (rewrite (proj1 Hq2); exact delays).
      destruct err as [e |].
      * apply sensures_bind, WaitForNextAction_now_spec; [exact Hdl |].
        intros g. eapply sensures_weaken.
        { apply (IH sent (failed + 1)). split; [apply Hq2 |].
          cbn [withLimiter limiter set_rand actionCounts]. apply Hq2. }
        intros [sent' failed'] s3 (Hq3 & Hs & Hf & Hn & Hd3). cbn [fst snd] in *.
        split; [exact Hq3 |]. cbn [length]. repeat split; try lia.
        intros Hd. destruct (Hd1 Hd) as [Hda Hca].
        destruct (Hd2 Hda) as [Hdb Hcb].
        rewrite Hd3 by (by apply withinTheDay_waited).
        unfold counted in *. cbn [withLimiter limiter set_rand actionCounts].
        cbn [s1 withLimiter limiter] in Hcb. lia.
      * apply sensures_bind, WaitForNextAction_now_spec; [exact Hdl |].
        intros g. eapply sensures_weaken.
        { apply (IH (sent + 1) failed). split; [apply Hq2 |].
          cbn [withLimiter limiter set_rand actionCounts]. apply Hq2. }
        intros [sent' failed'] s3 (Hq3 & Hs & Hf & Hn & Hd3). cbn [fst snd] in *.
        split; [exact Hq3 |]. cbn [length]. repeat split; try lia.
        intros Hd. destruct (Hd1 Hd) as [Hda Hca].
        destruct (Hd2 Hda) as [Hdb Hcb].
        rewrite Hd3 by (by apply withinTheDay_waited).
        unfold counted in *. cbn [withLimiter limiter set_rand actionCounts].
        cbn [s1 withLimiter limiter] in Hcb. lia.
    + apply sensures_ret. cbn [fst snd length].
      split; [exact Hq1 |]. repeat split; try lia.
      intros Hd. destruct (Hd1 Hd) as [_ Hc]. unfold counted.
      cbn [s1 withLimiter limiter]. lia.
Qed.

End Messaging.


Section Connecting.

Variable cfg : RateLimitConfig.
Hypothesis quota_small : MaxConnectionsPerDay cfg <= 1000000000.
Hypothesis delays : delaysInOrder cfg.


Lemma SendConnectionRequest_spec (page : Attempt) (s : Session) :
  (forall msg, page <> Crashed msg) -> withinQuota cfg "connection" (MaxConnectionsPerDay cfg) s ->
  sensures (SendConnectionRequest page) s
    (fun err s' =>
       withinQuota cfg "connection" (MaxConnectionsPerDay cfg) s'
       /\ (withinTheDay s ->
           withinTheDay s'
           /\ counted "connection" s' = counted "connection" s + (match err with Some _ => 0 | None => 1 end))).
Proof.
  intros Hp Hq. unfold SendConnectionRequest.
  apply sensures_bind, CanPerformAction_now_spec.
  pose proof (withinQuota_checked cfg "connection" (MaxConnectionsPerDay cfg) s Hq) as Hq1.
  pose proof (withinTheDay_checked "connection" ltac:(discriminate) s) as Hd1.
  set (s1 := withLimiter _ (later s)) in *.
  destruct (fst (CanPerformAction (readings s 0%nat) "connection" (limiter s)))
    eqn:Eok; cbn [negb].
  - pose proof (permitted_below_quota cfg "connection" (MaxConnectionsPerDay cfg) eq_refl
                  (readings s 0%nat) (limiter s) (proj1 Hq) Eok) as Hlt.
    destruct page as [e | e | | msg]; [| | | by destruct (Hp msg)].
    + apply sensures_ret. split; [exact Hq1 |]. intros Hd.
      destruct (Hd1 Hd) as [Hd2 Hc]. split; [exact Hd2 |].
      unfold counted. cbn [s1 withLimiter limiter]. lia.
    + apply sensures_bind, RecordAction_now_spec, sensures_ret.
      destruct Hq1 as [Hc1 Hb1].
      assert (Hrec : count (actionCounts
                              (RecordAction (readings s1 0%nat) "profile_view"
                                 (limiter s1))) "connection"
                     = count (actionCounts (limiter s1)) "connection")
        by (by apply RecordAction_count_ne).
      split.
      * split; cbn [withLimiter limiter]; [exact Hc1 |]. rewrite Hrec. exact Hb1.
      * intros Hd. destruct (Hd1 Hd) as [Hd2 Hc]. split.
        { by apply withinTheDay_recorded. }
        unfold counted. cbn [withLimiter limiter]. rewrite Hrec.
        cbn [s1 withLimiter limiter]. lia.
    + apply sensures_bind, RecordAction_now_spec.
      apply sensures_bind, RecordAction_now_spec.
      destruct Hq1 as [Hc1 Hb1].
      set (s2 := withLimiter _ (later s1)).
      set (s3 := withLimiter _ (later s2)).
      assert (Hrec : count (actionCounts (limiter s3)) "connection"
                     = count (actionCounts (limiter s1)) "connection" + 1).
      { cbn [s3 s2 withLimiter limiter later readings].
        rewrite RecordAction_count_eq, RecordAction_count_ne by discriminate.
        unfold GoInt.add. apply in_int64_small. 
        cbn [s1 withLimiter limiter] in *. lia. }
      apply sensures_bind, WaitForNextAction_now_spec.
      { cbn [s3 s2 withLimiter limiter RecordAction set_lastAction set_counts
             rl_config]. rewrite Hc1. exact delays. }
      intros g. apply sensures_ret. split.
      * split; cbn [withLimiter limiter set_rand rl_config actionCounts].
        { cbn [s3 s2 withLimiter limiter RecordAction set_lastAction set_counts
               rl_config]. exact Hc1. }
        rewrite Hrec. cbn [s1 withLimiter limiter] in *. lia.
      * intros Hd. destruct (Hd1 Hd) as [Hd2 Hc]. split.
        { apply withinTheDay_waited.
          apply (withinTheDay_recorded "connection" s2).
          by apply (withinTheDay_recorded "profile_view" s1). }
        unfold counted. cbn [withLimiter limiter set_rand actionCounts].
        rewrite Hrec. cbn [s1 withLimiter limiter]. lia.
  - apply sensures_bind, GetRemainingActions_now_spec, sensures_ret.
    pose proof (withinQuota_checked cfg "connection" (MaxConnectionsPerDay cfg) s1 Hq1) as Hq2.
    split; [exact Hq2 |]. intros Hd.
    destruct (Hd1 Hd) as [Hd2 Hc].
    destruct (withinTheDay_checked "connection" ltac:(discriminate) s1 Hd2)
      as [Hd3 Hc3].
    split; [exact Hd3 |].
    unfold counted. cbn [withLimiter limiter]. rewrite Hc3.
    cbn [s1 withLimiter limiter]. lia.
Qed.

Lemma SendBulkConnectionRequests_loop_spec (pages : list Attempt) :
  Forall (fun page => forall msg, page <> Crashed msg) pages ->
  forall (sent failed : Z) (s : Session),
    withinQuota cfg "connection" (MaxConnectionsPerDay cfg) s ->
    sensures (SendBulkConnectionRequests_loop pages sent failed) s
      (fun out s' =>
         withinQuota cfg "connection" (MaxConnectionsPerDay cfg) s'
         /\ sent <= fst out /\ failed <= snd out
         /\ (fst out - sent) + (snd out - failed) <= Z.of_nat (length pages)
         /\ (withinTheDay s ->
             counted "connection" s' = counted "connection" s + (fst out - sent))).
Proof.
  induction 1 as [| page rest Hp _ IH]; intros sent failed s Hq.
  - apply sensures_ret. cbn. repeat split; try apply Hq; lia.
  - cbn [SendBulkConnectionRequests_loop].
    apply sensures_bind, CanPerformAction_now_spec.
    pose proof (withinQuota_checked cfg "connection" (MaxConnectionsPerDay cfg) s Hq) as Hq1.
    pose proof (withinTheDay_checked "connection" ltac:(discriminate) s) as Hd1.
    set (s1 := withLimiter _ (later s)) in *.
    destruct (fst (CanPerformAction (readings s 0%nat) "connection" (limiter s)));
      cbn [negb].
    + eapply sensures_seq; [apply (SendConnectionRequest_spec page s1 Hp Hq1) |].
      intros err s2 [Hq2 Hd2].
      assert (Hdl : delaysInOrder (rl_config (limiter s2)))
        by (rewrite (proj1 Hq2); exact delays).
      destruct err as [e |].
      * apply sensures_bind, WaitForNextAction_now_spec; [exact Hdl |].
        intros g. eapply sensures_weaken.
        { apply (IH sent (failed + 1)). split; [apply Hq2 |].
          cbn [withLimiter limiter set_rand actionCounts]. apply Hq2. }
        intros [sent' failed'] s3 (Hq3 & Hs & Hf & Hn & Hd3). cbn [fst snd] in *.
        split; [exact Hq3 |]. cbn [length]. repeat split; try lia.
        intros Hd. destruct (Hd1 Hd) as [Hda Hca].
        destruct (Hd2 Hda) as [Hdb Hcb].
        rewrite Hd3 by (by apply withinTheDay_waited).
        unfold counted in *. cbn [withLimiter limiter set_rand actionCounts].
        cbn [s1 withLimiter limiter] in Hcb. lia.
      * apply sensures_bind, WaitForNextAction_now_spec; [exact Hdl |].
        intros g. eapply sensures_weaken.
        { apply (IH (sent + 1) failed). split; [apply Hq2 |].
          cbn [withLimiter limiter set_rand actionCounts]. apply Hq2. }
        intros [sent' failed'] s3 (Hq3 & Hs & Hf & Hn & Hd3). cbn [fst snd] in *.
        split; [exact Hq3 |]. cbn [length]. repeat split; try lia.
        intros Hd. destruct (Hd1 Hd) as [Hda Hca].
        destruct (Hd2 Hda) as [Hdb Hcb].
        rewrite Hd3 by (by apply withinTheDay_waited).
        unfold counted in *. cbn [withLimiter limiter set_rand actionCounts].
        cbn [s1 withLimiter limiter] in Hcb. lia.
    + apply sensures_ret. cbn [fst snd length].
      split; [exact Hq1 |]. repeat split; try lia.
      intros Hd. destruct (Hd1 Hd) as [_ Hc]. unfold counted.
      cbn [s1 withLimiter limiter]. lia.
Qed.

End Connecting.

(** X29.  [SendBulkFollowUpMessages], when the delay range of the limiter is
    in order, the message counter starts within the quota, the quota is at
    most 10^9 and the page does not panic: the call returns; the messages sent and failed are at most the
    connections given; the counter ends within the quota; and when every
    reading of the clock falls on the day of the reset marker the counter has
    grown by exactly the number of messages sent. *)
Theorem SendBulkFollowUpMessages_respects_quota
    (pages : list (result GoStr.error)) (s : Session) :
  delaysInOrder (rl_config (limiter s)) ->
  0 <= counted "message" s
    <= MaxMessagesPerDay (rl_config (limiter s)) ->
  MaxMessagesPerDay (rl_config (limiter s)) <= 1000000000 ->
  Forall returns pages ->
  exists sent failed s',
    SendBulkFollowUpMessages pages s = Ok ((sent, failed), s')
    /\ 0 <= sent /\ 0 <= failed /\ sent + failed <= Z.of_nat (length pages)
    /\ counted "message" s'
       <= MaxMessagesPerDay (rl_config (limiter s))
    /\ (withinTheDay s ->
        counted "message" s'
        = counted "message" s + sent).
Proof.
  intros Hd Hc Hq Hp. unfold counted in Hc.
  destruct (SendBulkFollowUpMessages_loop_spec (rl_config (limiter s)) Hq Hd
              pages Hp 0 0 s ltac:(split; [reflexivity | exact Hc]))
    as ([sent failed] & s' & Hrun & [_ Hq'] & Hs & Hf & Hn & Hday).
  cbn [fst snd] in *. fold (counted "message" s') in Hq'.
  exists sent, failed, s'. split; [exact Hrun |].
  repeat split; try lia. intros Hw. rewrite (Hday Hw). lia.
Qed.

Lemma SendBulkFollowUpMessages_respects_quota_witness :
  exists sent failed s',
    SendBulkFollowUpMessages [Ok None; Ok (Some "no message button"); Ok None;
                              Ok None] morning
    = Ok ((sent, failed), s')
    /\ 0 <= sent /\ 0 <= failed
    /\ sent + failed
       <= Z.of_nat (length [Ok None; Ok (Some "no message button"); Ok None;
                            @Ok GoStr.error None])
    /\ counted "message" s' <= MaxMessagesPerDay (rl_config (limiter morning))
    /\ (withinTheDay morning ->
        counted "message" s' = counted "message" morning + sent).
Proof.
  apply (SendBulkFollowUpMessages_respects_quota
           [Ok None; Ok (Some "no message button"); Ok None; Ok None] morning).
  - split; cbn; lia.
  - vm_compute. split; discriminate.
  - cbn. lia.
  - repeat constructor; eexists; reflexivity.
Defined.

(** The bulk sender with a message quota of 2: the first and the third
    message go out, the second fails on the page, the fourth connection is not
    attempted, the quota being spent. *)
Example SendBulkFollowUpMessages_stops_at_the_quota :
  exists s',
    SendBulkFollowUpMessages [Ok None; Ok (Some "no message button"); Ok None;
                              Ok None] morning
    = Ok ((2, 1), s')
    /\ counted "message" s' = 2.
Proof. eexists. vm_compute. split; reflexivity. Qed.

(** X30.  [SendBulkConnectionRequests], when the delay range of the limiter
    is in order, the connection counter starts within the quota, the quota is
    at most 10^9 and the page does not panic: the call returns; the requests
    sent and failed are at most the profiles given; the connection counter
    ends within the daily quota; and when every reading of the clock falls on
    the day of the reset marker it has grown by exactly the number of requests
    sent, a profile view without a request counting for nothing. *)
Theorem SendBulkConnectionRequests_respects_quota
    (pages : list Attempt) (s : Session) :
  delaysInOrder (rl_config (limiter s)) ->
  0 <= counted "connection" s
    <= MaxConnectionsPerDay (rl_config (limiter s)) ->
  MaxConnectionsPerDay (rl_config (limiter s)) <= 1000000000 ->
  Forall (fun page => forall msg, page <> Crashed msg) pages ->
  exists sent failed s',
    SendBulkConnectionRequests pages s = Ok ((sent, failed), s')
    /\ 0 <= sent /\ 0 <= failed /\ sent + failed <= Z.of_nat (length pages)
    /\ counted "connection" s'
       <= MaxConnectionsPerDay (rl_config (limiter s))
    /\ (withinTheDay s ->
        counted "connection" s'
        = counted "connection" s + sent).
Proof.
  intros Hd Hc Hq Hp. unfold counted in Hc.
  destruct (SendBulkConnectionRequests_loop_spec (rl_config (limiter s)) Hq Hd
              pages Hp 0 0 s ltac:(split; [reflexivity | exact Hc]))
    as ([sent failed] & s' & Hrun & [_ Hq'] & Hs & Hf & Hn & Hday).
  cbn [fst snd] in *. fold (counted "connection" s') in Hq'.
  exists sent, failed, s'. split; [exact Hrun |].
  repeat split; try lia. intros Hw. rewrite (Hday Hw). lia.
Qed.

Lemma SendBulkConnectionRequests_respects_quota_witness :
  exists sent failed s',
    SendBulkConnectionRequests
      [Delivered; RefusedAfterView "no connect button"; Delivered] morning
    = Ok ((sent, failed), s')
    /\ 0 <= sent /\ 0 <= failed
    /\ sent + failed
       <= Z.of_nat (length [Delivered; RefusedAfterView "no connect button";
                            Delivered])
    /\ counted "connection" s'
       <= MaxConnectionsPerDay (rl_config (limiter morning))
    /\ (withinTheDay morning ->
        counted "connection" s' = counted "connection" morning + sent).
Proof.
  apply (SendBulkConnectionRequests_respects_quota
           [Delivered; RefusedAfterView "no connect button"; Delivered] morning).
  - split; cbn; lia.
  - vm_compute. split; discriminate.
  - cbn. lia.
  - repeat constructor; discriminate.
Defined.
